(** * candidate_models: scoring entry points and paper figures

    A shallow embedding of [candidate_models/__init__.py],
    [candidate_models/analyze/ceiling.py] and
    [candidate_models/analyze/figures.py], with the properties of the
    repository's specification stated and proved over it.

    Conventions of the embedding:
    - Python values that the code only tests and passes on are [pyval]s;
    - a call that can raise returns a [res]: [Ok v] or [Err e];
    - functions of other packages (brainscore, scipy, matplotlib, the
      activation extraction of [candidate_models.models]) are fields of an
      environment class, so every statement holds whatever they compute;
    - scores are rationals: rounding and NaN of IEEE doubles are outside the
      model;
    - [logger.info]/[logger.debug] calls have no effect on results and are
      left out. *)

From Stdlib Require Import String Ascii ZArith QArith Qabs List Bool Lia Lqa.
From stdpp Require Import base decidable option list gmap strings pretty.
Import ListNotations.

Local Open Scope string_scope.
Local Open Scope list_scope.

(** ** Python values, truthiness and exceptions *)
Module Py.

(** The values the scoring code receives for [model], identifiers, sizes
    and benchmarks.  [PObj truthy id] is any other object; [truthy] is what
    [bool(obj)] returns for it. *)
Inductive pyval : Type :=
| PNone
| PStr (s : string)
| PInt (n : Z)
| PObj (truthy : bool) (id : positive).

#[global] Instance pyval_eq_dec : EqDecision pyval.
Proof. solve_decision. Defined.

(** [isinstance(v, str)] *)
Definition isinstance_str (v : pyval) : bool :=
  match v with PStr _ => true | _ => false end.

(** [v is None] *)
Definition is_None (v : pyval) : bool :=
  match v with PNone => true | _ => false end.

(** [bool(v)] *)
Definition truthy (v : pyval) : bool :=
  match v with
  | PNone => false
  | PStr s => negb (String.eqb s "")
  | PInt n => negb (Z.eqb n 0)
  | PObj t _ => t
  end.

(** [a or b] *)
Definition py_or (a b : pyval) : pyval := if truthy a then a else b.

(** [v == s] for a string literal [s]; an object of another type is not
    equal to a string. *)
Definition eq_str (v : pyval) (s : string) : bool :=
  match v with PStr t => String.eqb t s | _ => false end.

(** The exception classes the code raises, catches or lets through, with
    their places in Python's hierarchy ([OptimizeWarning] is scipy's, a
    [UserWarning]). *)
Inductive exn_class : Type :=
| BaseException | KeyboardInterrupt | Exception
| AssertionError | KeyError | TypeError | ValueError | ZeroDivisionError
| RuntimeError | NotImplementedError | RecursionError
| OSError | FileNotFoundError
| Warning | UserWarning | OptimizeWarning.

#[global] Instance exn_class_eq_dec : EqDecision exn_class.
Proof. solve_decision. Defined.

Definition base_class (c : exn_class) : option exn_class :=
  match c with
  | BaseException => None
  | KeyboardInterrupt => Some BaseException
  | Exception => Some BaseException
  | AssertionError | TypeError | ValueError | RuntimeError | Warning => Some Exception
  | KeyError => Some Exception          (* through LookupError *)
  | ZeroDivisionError => Some Exception (* through ArithmeticError *)
  | NotImplementedError | RecursionError => Some RuntimeError
  | OSError => Some Exception
  | FileNotFoundError => Some OSError
  | UserWarning => Some Warning
  | OptimizeWarning => Some UserWarning
  end.

(** [issubclass(c, d)]: [d] is [c] or one of its ancestors; no chain of the
    hierarchy above is longer than four classes. *)
Fixpoint issubclass_upto (depth : nat) (c d : exn_class) : bool :=
  bool_decide (c = d) ||
  match depth with
  | O => false
  | S k => match base_class c with
           | Some b => issubclass_upto k b d
           | None => false
           end
  end.

Definition issubclass : exn_class -> exn_class -> bool := issubclass_upto 4.

(** A raised exception: its class and its message. *)
Record exn : Type := Exn { exn_cls : exn_class; exn_msg : string }.

#[global] Instance exn_eq_dec : EqDecision exn.
Proof. solve_decision. Defined.

(** The result of a call that may raise. *)
Inductive res (A : Type) : Type :=
| Ok (v : A)
| Err (e : exn).
Arguments Ok {A} v.
Arguments Err {A} e.

#[global] Instance res_ret : MRet res := fun A v => Ok v.
#[global] Instance res_bind : MBind res := fun A B k r =>
  match r with Ok v => k v | Err e => Err e end.

(** [assert cond, msg] *)
Definition py_assert (cond : bool) (msg : string) : res unit :=
  if cond then Ok tt else Err (Exn AssertionError msg).

(** A [for] loop that collects one result per element and stops at the
    first exception. *)
Fixpoint res_map {A B : Type} (f : A -> res B) (l : list A) : res (list B) :=
  match l with
  | [] => Ok []
  | x :: rest => y ← f x; ys ← res_map f rest; Ok (y :: ys)
  end.

(** [try: body / except (classes): handler]: the handler runs for an
    exception whose class is a subclass of one of [classes]; any other
    exception goes on. *)
Definition try_except {A : Type} (body : res A) (classes : list exn_class)
    (handler : res A) : res A :=
  match body with
  | Ok v => Ok v
  | Err e => if existsb (issubclass (exn_cls e)) classes then handler else Err e
  end.

(** [zip]: as long as the shorter list. *)
Fixpoint py_zip {A B : Type} (l : list A) (k : list B) : list (A * B) :=
  match l, k with
  | a :: l', b :: k' => (a, b) :: py_zip l' k'
  | _, _ => []
  end.

(** [a < b] on numbers. *)
Definition Qlt_bool (a b : Q) : bool := negb (Qle_bool b a).

(** [needle in haystack] on strings. *)
Fixpoint contains (needle haystack : string) : bool :=
  String.prefix needle haystack ||
  match haystack with
  | EmptyString => false
  | String _ rest => contains needle rest
  end.

End Py.
Export Py.

(** ** Labelled score arrays

    [brainscore.metrics.Score] is an xarray [DataArray].  It is modelled in
    long form: one [cell] per entry of the array, carrying the label of
    each of its dimensions and its value, in row-major order.  The raw
    values a score keeps under [attrs[Score.RAW_VALUES_KEY]] are [score_raw]. *)
Module Xr.

Record cell : Type := Cell { cell_coords : list (string * string); cell_value : Q }.

Record Score : Type :=
  MkScore { score_cells : list cell; score_raw : option (list cell) }.

(** The label of dimension [dim] at a cell. *)
Fixpoint label_of (dim : string) (coords : list (string * string)) : option string :=
  match coords with
  | [] => None
  | (d, l) :: rest => if String.eqb d dim then Some l else label_of dim rest
  end.

Definition drop_dim (dim : string) (coords : list (string * string))
  : list (string * string) :=
  filter (fun dl => negb (String.eqb (fst dl) dim)) coords.

Definition at_label (dim label : string) (c : cell) : bool :=
  match label_of dim (cell_coords c) with
  | Some l => String.eqb l label
  | None => false
  end.

(** A cell without its label of [dim]. *)
Definition strip (dim : string) (c : cell) : cell :=
  Cell (drop_dim dim (cell_coords c)) (cell_value c).

(** [array.sel(dim=label)]: the entries at [label], without the dimension.
    A label that is not in the index raises [KeyError]. *)
Definition sel (dim label : string) (cs : list cell) : res (list cell) :=
  match filter (at_label dim label) cs with
  | [] => Err (Exn KeyError label)
  | hit => Ok (map (strip dim) hit)
  end.

(** [score = score.expand_dims(dim); score[dim] = [label]] *)
Definition expand_dims (dim label : string) (s : Score) : Score :=
  MkScore (map (fun c => Cell ((dim, label) :: cell_coords c) (cell_value c))
               (score_cells s))
          (score_raw s).

(** [del array[dim]]: the coordinate is dropped. *)
Definition del_coord (dim : string) (cs : list cell) : list cell :=
  map (strip dim) cs.

(** [array[dim]]: the labels of the dimension, in index order. *)
Fixpoint uniq (seen l : list string) : list string :=
  match l with
  | [] => []
  | x :: rest =>
      if existsb (String.eqb x) seen then uniq seen rest
      else x :: uniq (x :: seen) rest
  end.

Definition coord_values (dim : string) (cs : list cell) : list string :=
  uniq [] (omap (fun c => label_of dim (cell_coords c)) cs).

(** The index of the first greatest value. *)
Fixpoint argmax_from (best : Q) (best_i i : nat) (vs : list Q) : nat :=
  match vs with
  | [] => best_i
  | v :: rest =>
      if Qle_bool v best then argmax_from best best_i (S i) rest
      else argmax_from v i (S i) rest
  end.

(** [array.argmax(dim)] of an array whose only dimension is [dim]; numpy
    raises [ValueError] on an empty sequence. *)
Definition argmax (cs : list cell) : res nat :=
  match map cell_value cs with
  | [] => Err (Exn ValueError "attempt to get argmax of an empty sequence")
  | v :: rest => Ok (argmax_from v 0 1 rest)
  end.

(** [dim in array.dims]: some entry carries a label of [dim]. *)
Definition has_dim (dim : string) (cs : list cell) : bool :=
  existsb (fun c => bool_decide (is_Some (label_of dim (cell_coords c)))) cs.

(** [array.argmax(dim)]: xarray raises [ValueError] for a dimension the
    array does not have. *)
Definition argmax_over (dim : string) (cs : list cell) : res nat :=
  if has_dim dim cs then argmax cs
  else Err (Exn ValueError (dim +:+ " not found in array dimensions")).

Definition Qsum (vs : list Q) : Q := fold_right Qplus 0%Q vs.

(** [array.mean()] over all entries (of an array that has some: the
    selections it follows raise on an empty result). *)
Definition mean (cs : list cell) : Q :=
  (Qsum (map cell_value cs) / inject_Z (Z.of_nat (length cs)))%Q.

(** [Score.merge] of a list of scores: the entries of all scores in one
    array, and the same for the raw values of those that have some.
    Nothing to merge raises. *)
Fixpoint merge_raw (ss : list Score) : list cell :=
  match ss with
  | [] => []
  | s :: rest =>
      match score_raw s with
      | Some r => r ++ merge_raw rest
      | None => merge_raw rest
      end
  end.

Definition merge (ss : list Score) : res Score :=
  match ss with
  | [] => Err (Exn ValueError "no scores to merge")
  | _ =>
      Ok (MkScore (flat_map score_cells ss)
                  (match merge_raw ss with
                   | [] => None
                   | rs => Some rs
                   end))
  end.

(** *** Vocabulary for the properties of scores *)

(** The ['center'] entries of an array, and the pairs of a layer and its
    ['center'] value among them. *)
Definition center_cells (cs : list cell) : list cell :=
  filter (at_label "aggregation" "center") cs.

Definition layer_center (c : cell) : option (string * Q) :=
  match label_of "layer" (cell_coords c) with
  | Some l => Some (l, cell_value c)
  | None => None
  end.

Definition layer_centers (s : Score) : list (string * Q) :=
  omap layer_center (center_cells (score_cells s)).

(** A score over layers and aggregations: it has a ['center'] entry, each
    of them belongs to a layer, no layer has two, and the layer coordinate
    lists the layers in the order of these entries. *)
Definition layerwise (s : Score) : Prop :=
  center_cells (score_cells s) <> [] /\
  Forall (fun c => is_Some (label_of "layer" (cell_coords c)))
         (center_cells (score_cells s)) /\
  NoDup (map fst (layer_centers s)) /\
  coord_values "layer" (score_cells s) = map fst (layer_centers s).

(** [v] is the ['center'] value of some layer of [s], and no layer of [s]
    has a greater one. *)
Definition best_center (s : Score) (v : Q) : Prop :=
  (exists l, (l, v) ∈ layer_centers s) /\
  (forall l' v', (l', v') ∈ layer_centers s -> (v' <= v)%Q).

#[global] Instance Q_eq_dec : EqDecision Q.
Proof. solve_decision. Defined.

#[global] Instance cell_eq_dec : EqDecision cell.
Proof. solve_decision. Defined.

(** The score of one benchmark or ceiling on one assembly: its only
    dimension is the aggregation. *)
Definition aggregate (center error : Q) : Score :=
  MkScore [Cell [("aggregation", "center")] center;
           Cell [("aggregation", "error")] error] None.

#[global] Instance layerwise_dec (s : Score) : Decision (layerwise s).
Proof. unfold layerwise. apply _. Defined.

End Xr.
Export Xr.

(** ** candidate_models/__init__.py *)
Module Scoring.

(** What the module imports from other packages.  [model_layers] is the
    dictionary of [candidate_models.models.implementations]; the three
    defaults are the attributes of its [Defaults] class.  [benchmark_call b]
    is calling the benchmark object [b], and [CartesianProduct dividers] is
    calling an instance of [brainscore.metrics.transformations.CartesianProduct]
    on an assembly with [apply=...]. *)
Class Env : Type := {
  Assembly : Type;
  model_layers : gmap string (list string);
  DeepModelDefaults_weights : pyval;
  DeepModelDefaults_pca_components : pyval;
  DeepModelDefaults_image_size : pyval;
  infer_image_size : pyval -> res pyval;
  benchmarks_load : string -> res pyval;
  stimulus_set_name : pyval -> res pyval;
  model_multi_activations :
    forall (model model_identifier weights : pyval) (multi_layers : option (list string))
           (pca_components image_size stimulus_set : pyval), res Assembly;
  benchmark_call : pyval -> Assembly -> res Score;
  CartesianProduct : list string -> Assembly -> (Assembly -> res Score) -> res Score
}.

(** [class Defaults: benchmark = 'brain-score'] *)
Definition Defaults_benchmark : string := "brain-score".

(** The keyword arguments of [score_model] and [_score_model]. *)
Record args : Type := Args {
  model : pyval;
  model_identifier : pyval;
  layers : option (list string);
  weights : pyval;
  pca_components : pyval;
  image_size : pyval;
  benchmark : pyval;
  benchmark_identifier : pyval
}.

Definition msg_layers : string := "need either known model string or list of layers".
Definition msg_model_identifier : string :=
  "need either known model string or model_identifier".
Definition msg_benchmark_identifier : string :=
  "need either known benchmark string or benchmark_identifier".

Section WithEnv.
Context `{Env}.

(** [score_model(model)] with every other argument at its default. *)
Definition default_args (m : pyval) : args :=
  {| model := m; model_identifier := PNone; layers := None;
     weights := DeepModelDefaults_weights;
     pca_components := DeepModelDefaults_pca_components;
     image_size := PNone;
     benchmark := PStr Defaults_benchmark; benchmark_identifier := PNone |}.

(** [model_layers[model]] *)
Definition model_layers_getitem (m : pyval) : res (list string) :=
  match m with
  | PStr s =>
      match model_layers !! s with
      | Some ls => Ok ls
      | None => Err (Exn KeyError s)
      end
  | _ => Err (Exn KeyError "")
  end.

(** Lines 25-34 of [score_model]: the three assertions and the defaults
    they guard.  The result holds the values of the local variables
    [layers], [model_identifier] and [benchmark_identifier] after line 34. *)
Definition score_model_checks (a : args) : res (list string * pyval * pyval) :=
  ls ← match layers a with
       | None =>
           py_assert (isinstance_str (model a)) msg_layers;;
           model_layers_getitem (model a)
       | Some ls => Ok ls
       end;
  py_assert (negb (is_None (model_identifier a)) || isinstance_str (model a))
            msg_model_identifier;;
  let mid := py_or (model_identifier a) (model a) in
  py_assert (negb (is_None (benchmark_identifier a)) || isinstance_str (benchmark a))
            msg_benchmark_identifier;;
  let bid := py_or (benchmark_identifier a) (benchmark a) in
  Ok (ls, mid, bid).

(** Lines 25-36 of [score_model]: the checks, then
    [image_size = image_size or infer_image_size(model_identifier)].  The
    result holds the arguments as the two calls of lines 39-44 pass them. *)
Definition score_model_arguments (a : args) : res args :=
  '(ls, mid, bid) ← score_model_checks a;
  size ← (if truthy (image_size a) then Ok (image_size a) else infer_image_size mid);
  Ok {| model := model a; model_identifier := mid; layers := Some ls;
        weights := weights a; pca_components := pca_components a;
        image_size := size;
        benchmark := benchmark a; benchmark_identifier := bid |}.

(** ['temporal' in benchmark_identifier]: only a string has substrings. *)
Definition temporal_in (bid : pyval) : res bool :=
  match bid with
  | PStr s => Ok (contains "temporal" s)
  | _ => Err (Exn TypeError "argument is not iterable")
  end.

(** The body of [_score_model].  Its decorator [store_xarray] (package
    result_caching) keeps the returned score on disk and is not part of the
    embedding. *)
Definition _score_model (a : args) : res Score :=
  b ← match benchmark a with
      | PStr s => benchmarks_load s
      | other => Ok other
      end;
  stimulus_set ← stimulus_set_name b;
  model_assembly ← model_multi_activations
                     (model a) (model_identifier a) (weights a) (layers a)
                     (pca_components a) (image_size a) stimulus_set;
  let cross_layer := CartesianProduct ["layer"] in
  temporal ← temporal_in (benchmark_identifier a);
  if (temporal : bool) then benchmark_call b model_assembly
  else cross_layer model_assembly (benchmark_call b).

(** [class BrainScore] *)
Record BrainScore : Type := {
  name : string;
  _benchmark_identifiers : list string
}.

(** [BrainScore.__init__] *)
Definition BrainScore_init : BrainScore :=
  {| name := "brain-score";
     _benchmark_identifiers := ["dicarlo.Majaj2015.V4"; "dicarlo.Majaj2015.IT"] |}.

(** [best_score] of [BrainScore.__call__]: the entries of the layer whose
    ['center'] value is greatest, without the layer coordinate. *)
Definition best_score (score : Score) : res Score :=
  centers ← sel "aggregation" "center" (score_cells score);
  i ← argmax_over "layer" centers;
  match coord_values "layer" (score_cells score) !! i with
  | None => Err (Exn KeyError "layer")
  | Some best_layer =>
      at_best ← sel "layer" best_layer (score_cells score);
      Ok (MkScore (del_coord "layer" at_best) (score_raw score))
  end.

(** Lines 91-104 of [BrainScore.__call__]: from the scores of the
    benchmarks to the Brain-Score. *)
Definition brain_score_of (benchmark_scores : list Score) : res Score :=
  scores ← res_map best_score benchmark_scores;
  scores ← merge scores;
  benchmark_scores ← merge benchmark_scores;
  centers ← sel "aggregation" "center" (score_cells scores);
  let brain_score := mean centers in
  Ok (MkScore [Cell [("aggregation", "center")] brain_score]
              (Some (score_cells benchmark_scores))).

(** The keyword arguments of the call of lines 84-86:
    [score_model(model=model, model_identifier=model_identifier,
    layers=layers, benchmark=benchmark, weights=weights,
    pca_components=pca_components, image_size=image_size)]. *)
Definition nested_args (a : args) (b : string) : args :=
  {| model := model a; model_identifier := model_identifier a;
     layers := layers a; weights := weights a;
     pca_components := pca_components a; image_size := image_size a;
     benchmark := PStr b; benchmark_identifier := PNone |}.

(** The loop of [BrainScore.__call__] (lines 82-89), over a [score_model]
    that may not return ([None]). *)
Fixpoint benchmark_loop (score_model : args -> option (res Score)) (a : args)
    (benchmarks : list string) : option (res (list Score)) :=
  match benchmarks with
  | [] => Some (Ok [])
  | b :: rest =>
      match score_model (nested_args a b) with
      | None => None
      | Some (Err e) => Some (Err e)
      | Some (Ok score) =>
          let score := expand_dims "benchmark" b score in
          match benchmark_loop score_model a rest with
          | None => None
          | Some (Err e) => Some (Err e)
          | Some (Ok scores) => Some (Ok (score :: scores))
          end
      end
  end.

(** [BrainScore.__call__]; the fields [benchmark] and
    [benchmark_identifier] of [a] are not among its parameters and are not
    read. *)
Definition BrainScore_call (self : BrainScore)
    (score_model : args -> option (res Score)) (a : args) : option (res Score) :=
  match benchmark_loop score_model a (_benchmark_identifiers self) with
  | None => None
  | Some (Err e) => Some (Err e)
  | Some (Ok benchmark_scores) => Some (brain_score_of benchmark_scores)
  end.

(** [score_model].  It and [BrainScore.__call__] call each other; [fuel]
    bounds the depth of these calls, and [None] is running out of it. *)
Fixpoint score_model (fuel : nat) (a : args) : option (res Score) :=
  match fuel with
  | O => None
  | S fuel' =>
      match score_model_arguments a with
      | Err e => Some (Err e)
      | Ok r =>
          if eq_str (benchmark_identifier r) "brain-score"
          then BrainScore_call BrainScore_init (score_model fuel') r
          else Some (_score_model r)
      end
  end.

(** *** Vocabulary for the properties of the scoring calls *)

(** What [needle in haystack] means: the haystack splits around a copy of
    the needle. *)
Definition substring_of (needle haystack : string) : Prop :=
  exists pre post, haystack = pre +:+ needle +:+ post.

(** What the call of lines 84-86 returns for benchmark [b]: none of the
    benchmarks of [BrainScore] is named 'brain-score', so the call takes
    the [_score_model] branch. *)
Definition score_on_benchmark (a : args) (b : string) : res Score :=
  r ← score_model_arguments (nested_args a b); _score_model r.

(** The loop over a [score_model] that always returns. *)
Fixpoint benchmark_scores_of (a : args) (bs : list string) : res (list Score) :=
  match bs with
  | [] => Ok []
  | b :: rest =>
      score ← score_on_benchmark a b;
      scores ← benchmark_scores_of a rest;
      Ok (expand_dims "benchmark" b score :: scores)
  end.

(** The three conditions of a missing argument, and the lookup that stands
    between the first assertion and the other two. *)
Definition layers_missing (a : args) : Prop :=
  layers a = None /\ isinstance_str (model a) = false.
Definition model_identifier_missing (a : args) : Prop :=
  model_identifier a = PNone /\ isinstance_str (model a) = false.
Definition benchmark_identifier_missing (a : args) : Prop :=
  benchmark_identifier a = PNone /\ isinstance_str (benchmark a) = false.
Definition unknown_model (a : args) : Prop :=
  layers a = None /\ exists s, model a = PStr s /\ model_layers !! s = None.

(** The resolved identifier as C1 words it: [benchmark_identifier], or,
    when it is [None], the [benchmark]. *)
Definition resolved_as_stated (a : args) : pyval :=
  match benchmark_identifier a with
  | PNone => benchmark a
  | bid => bid
  end.

End WithEnv.

(** *** A reference environment

    One model with two layers, the two benchmarks of the Brain-Score, and
    a cartesian product that applies the benchmark layer by layer.  The
    closed instances of the properties run the code in it. *)

Definition V4_benchmark : pyval := PObj true 1.
Definition IT_benchmark : pyval := PObj true 2.

Definition reference_load (identifier : string) : res pyval :=
  if String.eqb identifier "dicarlo.Majaj2015.V4" then Ok V4_benchmark
  else if String.eqb identifier "dicarlo.Majaj2015.IT" then Ok IT_benchmark
  else Err (Exn KeyError identifier).

Definition reference_benchmark (b : pyval) (assembly : list string) : res Score :=
  match b, assembly with
  | PObj _ 1%positive, ["conv1"] => Ok (aggregate (6 # 10) (1 # 100))
  | PObj _ 1%positive, ["fc7"] => Ok (aggregate (5 # 10) (2 # 100))
  | PObj _ 2%positive, ["conv1"] => Ok (aggregate (3 # 10) (1 # 100))
  | PObj _ 2%positive, ["fc7"] => Ok (aggregate (55 # 100) (3 # 100))
  | PObj _ _, _ => Ok (aggregate (1 # 10) (1 # 100))
  | _, _ => Err (Exn TypeError "object is not callable")
  end.

Definition reference_product (dividers : list string) (assembly : list string)
    (apply : list string -> res Score) : res Score :=
  scores ← res_map (fun l => s ← apply [l]; Ok (expand_dims "layer" l s)) assembly;
  merge scores.

#[local] Instance reference_env : Env := {|
  Assembly := list string;
  model_layers := {[ "alexnet" := ["conv1"; "fc7"] ]};
  DeepModelDefaults_weights := PStr "imagenet";
  DeepModelDefaults_pca_components := PInt 1000;
  DeepModelDefaults_image_size := PInt 224;
  infer_image_size := fun _ => Ok (PInt 224);
  benchmarks_load := reference_load;
  stimulus_set_name := fun _ => Ok (PStr "dicarlo.hvm");
  model_multi_activations := fun _ _ _ multi_layers _ _ _ =>
    Ok (default [] multi_layers);
  benchmark_call := reference_benchmark;
  CartesianProduct := reference_product
|}.

(** [score_model('alexnet')] and the arguments its branch receives. *)
Definition alexnet : args := default_args (PStr "alexnet").

Definition alexnet_resolved : args :=
  {| model := PStr "alexnet"; model_identifier := PStr "alexnet";
     layers := Some ["conv1"; "fc7"];
     weights := PStr "imagenet"; pca_components := PInt 1000;
     image_size := PInt 224;
     benchmark := PStr "brain-score"; benchmark_identifier := PStr "brain-score" |}.

Definition layer_scores (rows : list (string * Q * Q)) : Score :=
  MkScore (flat_map (fun '(l, c, e) =>
                       [Cell [("layer", l); ("aggregation", "center")] c;
                        Cell [("layer", l); ("aggregation", "error")] e]) rows)
          None.

Definition alexnet_V4 : Score :=
  layer_scores [("conv1", 6 # 10, 1 # 100); ("fc7", 5 # 10, 2 # 100)]%Q.
Definition alexnet_IT : Score :=
  layer_scores [("conv1", 3 # 10, 1 # 100); ("fc7", 55 # 100, 3 # 100)]%Q.

(** The activations of alexnet: its layers. *)
Definition alexnet_assembly : @Assembly reference_env := ["conv1"; "fc7"].

(** The arguments [_score_model] receives for alexnet on the V4 benchmark. *)
Definition alexnet_V4_resolved : args :=
  {| model := PStr "alexnet"; model_identifier := PStr "alexnet";
     layers := Some ["conv1"; "fc7"];
     weights := PStr "imagenet"; pca_components := PInt 1000;
     image_size := PInt 224;
     benchmark := PStr "dicarlo.Majaj2015.V4";
     benchmark_identifier := PStr "dicarlo.Majaj2015.V4" |}.

(** [score_model('alexnet', benchmark_identifier='')] *)
Definition alexnet_empty_benchmark_identifier : args :=
  {| model := PStr "alexnet"; model_identifier := PNone; layers := None;
     weights := PStr "imagenet"; pca_components := PInt 1000;
     image_size := PNone;
     benchmark := PStr "brain-score"; benchmark_identifier := PStr "" |}.

(** [score_model('resnet-18', benchmark=<a benchmark object>)]: a model
    string that [model_layers] does not have. *)
Definition unknown_model_no_identifier : args :=
  {| model := PStr "resnet-18"; model_identifier := PNone; layers := None;
     weights := PStr "imagenet"; pca_components := PInt 1000;
     image_size := PNone;
     benchmark := V4_benchmark; benchmark_identifier := PNone |}.

(** [score_model(None, model_identifier='', layers=['conv1'],
    image_size=224)] *)
Definition none_model_empty_identifier : args :=
  {| model := PNone; model_identifier := PStr ""; layers := Some ["conv1"];
     weights := PStr "imagenet"; pca_components := PInt 1000;
     image_size := PInt 224;
     benchmark := PStr "brain-score"; benchmark_identifier := PNone |}.

(** [score_model(<a model object>, model_identifier='')] *)
Definition object_model_empty_identifier : args :=
  {| model := PObj true 1; model_identifier := PStr ""; layers := None;
     weights := PStr "imagenet"; pca_components := PInt 1000;
     image_size := PNone;
     benchmark := PStr "brain-score"; benchmark_identifier := PNone |}.

(** [score_model('alexnet', layers=[], image_size=224)] as [BrainScore]
    receives it: activations of no layer. *)
Definition alexnet_no_layers : args :=
  {| model := PStr "alexnet"; model_identifier := PStr "alexnet";
     layers := Some [];
     weights := PStr "imagenet"; pca_components := PInt 1000;
     image_size := PInt 224;
     benchmark := PStr "brain-score"; benchmark_identifier := PStr "brain-score" |}.

(** Two layers with the same ['center'] value. *)
Definition tied_layers : Score :=
  layer_scores [("conv1", 5 # 10, 1 # 100); ("fc7", 5 # 10, 2 # 100)]%Q.

(** Three layers: the greatest value comes second, and again third. *)
Definition late_tied_layers : Score :=
  layer_scores [("conv1", 3 # 10, 1 # 100); ("conv3", 5 # 10, 1 # 100);
                ("fc7", 5 # 10, 2 # 100)]%Q.

(** The scores of three benchmarks. *)
Definition three_scores : list Score := [alexnet_V4; alexnet_IT; tied_layers].

End Scoring.

(** ** candidate_models/analyze/ceiling.py *)
Module Ceiling.

Definition upto50 : list Q :=
  [25 # 1000; 5 # 100; 1 # 10; 15 # 100; 2 # 10; 25 # 100; 3 # 10; 35 # 100;
   4 # 10; 45 # 100; 5 # 10]%Q.
Definition upto90 : list Q :=
  upto50 ++ [55 # 100; 6 # 10; 65 # 100; 7 # 10; 75 # 100; 8 # 10; 85 # 100; 9 # 10]%Q.
Definition default_size : Q := 5 # 10.

(** The calls [plot] makes on its subplots, in order.  [on_axes] is the
    index of the subplot in the figure: 0 and 1 are the two of
    [pyplot.subplots(1, 2)], 2 is the frame added at the end.  Drawing calls
    are recorded and do not raise. *)
Inductive call : Type :=
| set_title (title : string)
| scatter (x y : list Q)
| errorbar (x y err : list Q)
| plot_line (x y : list Q)
| set_xlabel (label : string)
| set_ylabel (label : string).

Record event : Type := Event { on_axes : nat; what : call }.

(** What the module takes from numpy, scipy and brainscore.
    [assembly_regions] is [np.unique(assembly['region'])] of the assembly
    that [instantiate_benchmark] loads, and [compute_ceiling] is the function
    of lines 85-92, which only calls brainscore. *)
Class Env : Type := {
  np_exp : Q -> Q;
  np_unique : list string -> list string;
  np_arange : Q -> Q -> Q -> res (list Q);
  curve_fit : (Q -> Q -> Q -> Q -> Q) -> list Q -> list Q -> res (Q * Q * Q);
  pearsonr : list Q -> list Q -> res (Q * Q);
  assembly_regions : string -> string -> res (list string);
  compute_ceiling : forall (assembly metric ceiling : string)
                           (train_size test_size : Q) (region : string), res Score
}.

(** [min(x)] and [max(x)]: [ValueError] on an empty sequence. *)
Definition py_min (xs : list Q) : res Q :=
  match xs with
  | [] => Err (Exn ValueError "min() arg is an empty sequence")
  | x :: rest => Ok (fold_left (fun m v => if Qlt_bool v m then v else m) rest x)
  end.

Definition py_max (xs : list Q) : res Q :=
  match xs with
  | [] => Err (Exn ValueError "max() arg is an empty sequence")
  | x :: rest => Ok (fold_left (fun m v => if Qlt_bool m v then v else m) rest x)
  end.

Section WithEnv.
Context `{Env}.

(** [compute_ceilings], lines 69-82. *)
Definition compute_ceilings (assembly_name metric_name ceiling : string)
    (train_size test_size : Q) : res Score :=
  dividers ← assembly_regions assembly_name metric_name;
  scores ← res_map (fun region =>
                      score ← compute_ceiling assembly_name metric_name ceiling
                                train_size test_size region;
                      Ok (expand_dims "region" region score))
                   dividers;
  merge scores.

(** [compute_ceilings(data, metric, ceiling=ceiling, ** {size_label: size})]:
    the label names the keyword the size is passed as. *)
Definition compute_ceilings_at (data metric ceiling size_label : string) (size : Q)
  : res Score :=
  if String.eqb size_label "train_size"
  then compute_ceilings data metric ceiling size default_size
  else if String.eqb size_label "test_size"
  then compute_ceilings data metric ceiling default_size size
  else Err (Exn TypeError "compute_ceilings() got an unexpected keyword argument").

(** The merged [ceilings] of lines 29-36: the score of each size, under
    its size. *)
Definition ceilings_array : Type := list (Q * Score).

(** [ceilings.sel(region=region).sel(aggregation=agg).values]: one value
    per size. *)
Definition values_at (region agg : string) (ceilings : ceilings_array)
  : res (list Q) :=
  per_size ← res_map (fun '(_, score) =>
                        at_region ← sel "region" region (score_cells score);
                        at_agg ← sel "aggregation" agg at_region;
                        Ok (map cell_value at_agg))
                     ceilings;
  Ok (concat per_size).

(** [sigmoid] of lines 39-40. *)
Definition sigmoid (x a b c : Q) : Q :=
  ((1 - c) / (1 + np_exp (- b * (x - a))))%Q.

(** The body of the [try] of lines 53-58. *)
Definition fit_and_draw (ax : nat) (x y : list Q) : res (list event) :=
  '(a, b, c) ← curve_fit sigmoid x y;
  let fit_y := map (fun v => sigmoid v a b c) x in
  '(r, p) ← pearsonr y fit_y;
  if Qlt_bool p (5 # 100)
  then
    lo ← py_min x;
    hi ← py_max x;
    x_fitplot ← np_arange lo hi ((hi - lo) / 100);
    Ok [Event ax (plot_line x_fitplot (map (fun v => sigmoid v a b c) x_fitplot))]
  else Ok [].

(** What a region always gets, lines 44-50. *)
Definition region_points (ax : nat) (region : string) (x y err : list Q)
  : list event :=
  [Event ax (set_title region); Event ax (scatter x y); Event ax (errorbar x y err)].

(** One round of the loop of lines 43-60. *)
Definition plot_region (sizes : list Q) (ceilings : ceilings_array)
    (ax : nat) (region : string) : res (list event) :=
  let x := sizes in
  y ← values_at region "center" ceilings;
  err ← values_at region "error" ceilings;
  fitted ← try_except (fit_and_draw ax x y) [RuntimeError; OptimizeWarning] (Ok []);
  Ok (region_points ax region x y err ++ fitted).

(** The loop of lines 43-60 over [zip(axes, regions)]. *)
Fixpoint plot_regions (sizes : list Q) (ceilings : ceilings_array)
    (todo : list (nat * string)) : res (list event) :=
  match todo with
  | [] => Ok []
  | (ax, region) :: rest =>
      drawn ← plot_region sizes ceilings ax region;
      later ← plot_regions sizes ceilings rest;
      Ok (drawn ++ later)
  end.

(** [plot], lines 26-66; the figure is the list of the calls made on its
    subplots.  A call that raises gives its exception alone; what it has
    drawn by then is given by [plot_trace] below. *)
Definition plot (sizes : list Q) (size_label data metric ceiling : string)
  : res (list event) :=
  ceilings ← res_map (fun size =>
                        score ← compute_ceilings_at data metric ceiling size_label size;
                        Ok (size, score))
                     sizes;
  match ceilings with
  | [] => Err (Exn ValueError "no arrays to merge")
  | _ =>
      let regions :=
        np_unique (flat_map (fun '(_, score) =>
                               coord_values "region" (score_cells score)) ceilings) in
      let axes := [0; 1]%nat in
      drawn ← plot_regions sizes ceilings (py_zip axes regions);
      Ok (drawn ++ [Event 2 (set_xlabel size_label);
                    Event 2 (set_ylabel "goodness-of-fit")])
  end.

(** *** What has been drawn when [plot] raises

    [plot] above gives the calls of a call that returns.  The functions
    below give, for every call, the calls made on the subplots up to its
    end, and the exception that has ended it, if one has: the title of a
    region is set before its ceilings are selected, and its points and
    error bars are drawn before the fit is tried. *)
Definition plot_region_trace (sizes : list Q) (ceilings : ceilings_array)
    (ax : nat) (region : string) : list event * option exn :=
  let title := [Event ax (set_title region)] in
  match values_at region "center" ceilings with
  | Err e => (title, Some e)
  | Ok y =>
      match values_at region "error" ceilings with
      | Err e => (title, Some e)
      | Ok err =>
          let points :=
            title ++ [Event ax (scatter sizes y); Event ax (errorbar sizes y err)] in
          match try_except (fit_and_draw ax sizes y)
                           [RuntimeError; OptimizeWarning] (Ok []) with
          | Ok fitted => (points ++ fitted, None)
          | Err e => (points, Some e)
          end
      end
  end.

Fixpoint plot_regions_trace (sizes : list Q) (ceilings : ceilings_array)
    (todo : list (nat * string)) : list event * option exn :=
  match todo with
  | [] => ([], None)
  | (ax, region) :: rest =>
      match plot_region_trace sizes ceilings ax region with
      | (drawn, Some e) => (drawn, Some e)
      | (drawn, None) =>
          let '(later, raised) := plot_regions_trace sizes ceilings rest in
          (drawn ++ later, raised)
      end
  end.

Definition plot_trace (sizes : list Q) (size_label data metric ceiling : string)
  : list event * option exn :=
  match res_map (fun size =>
                   score ← compute_ceilings_at data metric ceiling size_label size;
                   Ok (size, score))
                sizes with
  | Err e => ([], Some e)
  | Ok [] => ([], Some (Exn ValueError "no arrays to merge"))
  | Ok ceilings =>
      let regions :=
        np_unique (flat_map (fun '(_, score) =>
                               coord_values "region" (score_cells score)) ceilings) in
      let axes := [0; 1]%nat in
      match plot_regions_trace sizes ceilings (py_zip axes regions) with
      | (drawn, Some e) => (drawn, Some e)
      | (drawn, None) =>
          (drawn ++ [Event 2 (set_xlabel size_label);
                     Event 2 (set_ylabel "goodness-of-fit")], None)
      end
  end.

(** The result of a call, from its trace. *)
Definition result_of (trace : list event * option exn) : res (list event) :=
  match trace with
  | (drawn, None) => Ok drawn
  | (_, Some e) => Err e
  end.

End WithEnv.

(** *** A reference environment for the ceiling plot

    Two regions, ceilings that do not depend on the size, and a fit that
    fails with the exception given. *)

Definition reference_env (fit_failure : exn) : Env := {|
  np_exp := fun _ => 1%Q;
  np_unique := fun labels => labels;
  np_arange := fun lo _ _ => Ok [lo];
  curve_fit := fun _ _ _ => Err fit_failure;
  pearsonr := fun _ _ => Ok (1%Q, 0%Q);
  assembly_regions := fun _ _ => Ok ["IT"; "V4"];
  compute_ceiling := fun _ _ _ _ _ region =>
    if String.eqb region "IT" then Ok (aggregate (8 # 10) (1 # 100))
    else Ok (aggregate (9 # 10) (2 # 100))
|}.

Definition not_converged : exn :=
  Exn RuntimeError "Optimal parameters not found".
Definition bad_input : exn :=
  Exn ValueError "array must not contain infs or NaNs".

Definition two_sizes : list Q := [25 # 100; 5 # 10]%Q.

Definition region_ceilings : Score :=
  MkScore [Cell [("region", "IT"); ("aggregation", "center")] (8 # 10);
           Cell [("region", "IT"); ("aggregation", "error")] (1 # 100);
           Cell [("region", "V4"); ("aggregation", "center")] (9 # 10);
           Cell [("region", "V4"); ("aggregation", "error")] (2 # 100)] None.

Definition two_ceilings : ceilings_array :=
  [(25 # 100, region_ceilings); (5 # 10, region_ceilings)]%Q.

(** The titles a list of calls sets, in order. *)
Definition titles (events : list event) : list string :=
  omap (fun e => match what e with
                 | set_title title => Some title
                 | _ => None
                 end) events.

(** An environment with the regions given (sorted, as [np.unique] returns
    them), the same ceilings for each, and a fit that does not converge. *)
Definition regions_env (regions : list string) : Env := {|
  np_exp := fun _ => 1%Q;
  np_unique := uniq [];
  np_arange := fun lo _ _ => Ok [lo];
  curve_fit := fun _ _ _ => Err not_converged;
  pearsonr := fun _ _ => Ok (1%Q, 0%Q);
  assembly_regions := fun _ _ => Ok regions;
  compute_ceiling := fun _ _ _ _ _ _ => Ok (aggregate (8 # 10) (1 # 100))
|}.

Definition three_regions : list string := ["IT"; "V1"; "V4"].

(** An environment in which the fit succeeds, with the p-value given. *)
Definition fitted_env (p : Q) : Env := {|
  np_exp := fun _ => 1%Q;
  np_unique := uniq [];
  np_arange := fun lo _ _ => Ok [lo];
  curve_fit := fun _ _ _ => Ok (0, 1, 0)%Q;
  pearsonr := fun _ _ => Ok (1%Q, p);
  assembly_regions := fun _ _ => Ok ["IT"; "V4"];
  compute_ceiling := fun _ _ _ _ _ region =>
    if String.eqb region "IT" then Ok (aggregate (8 # 10) (1 # 100))
    else Ok (aggregate (9 # 10) (2 # 100))
|}.

End Ceiling.

(** ** candidate_models/analyze/figures.py *)
Module Figures.

(** A row of the results table that [DataCollector] returns, and the
    table. *)
Record row : Type := Row {
  row_model : string;
  row_benchmark : string;
  row_score : Q;
  row_error : Q
}.
Definition DataFrame : Type := list row.

(** A numpy array of at most one dimension. *)
Inductive ndarray : Type :=
| Scalar (v : Q)
| Vector (vs : list Q).

(** [column.values.squeeze()]: a column with one value becomes a 0-d array. *)
Definition squeeze (vs : list Q) : ndarray :=
  match vs with
  | [v] => Scalar v
  | _ => Vector vs
  end.

(** Iterating an array, and [len] of it: a 0-d array has neither. *)
Definition iter_ndarray (a : ndarray) : res (list Q) :=
  match a with
  | Vector vs => Ok vs
  | Scalar _ => Err (Exn TypeError "iteration over a 0-d array")
  end.

Definition len_ndarray (a : ndarray) : res nat :=
  match a with
  | Vector vs => Ok (length vs)
  | Scalar _ => Err (Exn TypeError "len() of unsized object")
  end.

(** An argument annotated [Union[float, list]] with default [None]. *)
Inductive float_or_list (A : Type) : Type :=
| AFloat (v : Q)
| AList (l : list A)
| ANone.
Arguments AFloat {A} v.
Arguments AList {A} l.
Arguments ANone {A}.

Definition iter_arg {A : Type} (a : float_or_list A) : res (list A) :=
  match a with
  | AList l => Ok l
  | AFloat _ => Err (Exn TypeError "'float' object is not iterable")
  | ANone => Err (Exn TypeError "'NoneType' object is not iterable")
  end.

(** A matplotlib colour: a name or hex string, or a number. *)
Inductive colour : Type :=
| colour_str (s : string)
| colour_float (v : Q).

(** The limits of the axes at the time they are asked for. *)
Record axes : Type := Axes { xlim : Q * Q; ylim : Q * Q }.

(** The calls made on the axes and the figure, in order.  They are
    recorded as they are made: what matplotlib does with their arguments
    (with a float given as a colour, say) is not part of the model.
    [fig_savefig] is a call of [fig.savefig] that has returned; one that
    raises is [savefig] of the environment below. *)
Inductive call : Type :=
| ax_scatter (x y : ndarray) (color : colour) (alpha : Q) (s : Z)
| ax_errorbar (x y : ndarray) (yerr : option Q) (color : colour) (alpha : Q)
| ax_plot (x y : list Q) (color : string) (linewidth : Q)
| ax_text (x y : Q) (label : string) (fontsize : option Z)
| ax_set_title (title : string)
| ax_set_xlabel (label : string)
| ax_set_ylabel (label : string)
| ax_tick_right
| ax_hide_yticklabels
| seaborn_despine
| fig_savefig (path format : string)
| py_print (text : string).

(** What the module takes from [candidate_models.analyze], scipy,
    matplotlib and the interpreter: [module_dir] is
    [os.path.dirname(__file__)]; [savefig path format] is
    [fig.savefig(path, format=format)], which writes the file or raises
    ([FileNotFoundError] when the directory of the path does not exist). *)
Class Env : Type := {
  DataCollector : res DataFrame;
  is_basenet : string -> bool;
  align : DataFrame -> DataFrame -> string -> DataFrame;
  pearsonr : ndarray -> ndarray -> res (Q * Q);
  module_dir : string;
  savefig : string -> string -> res unit
}.

(** The classes of plots and their bases. *)
Inductive plot_class : Type :=
| Plot | BrainScorePlot | BrainScoreZoomPlot
| IndividualPlot | V1Plot | V4Plot | ITPlot | BehaviorPlot.

#[global] Instance plot_class_eq_dec : EqDecision plot_class.
Proof. solve_decision. Defined.

Definition superclass (c : plot_class) : option plot_class :=
  match c with
  | Plot => None
  | BrainScorePlot | IndividualPlot => Some Plot
  | BrainScoreZoomPlot => Some BrainScorePlot
  | V1Plot | V4Plot | ITPlot | BehaviorPlot => Some IndividualPlot
  end.

(** [True] for [IndividualPlot] and the classes derived from it. *)
Definition is_individual (c : plot_class) : bool :=
  match c with
  | IndividualPlot | V1Plot | V4Plot | ITPlot | BehaviorPlot => true
  | _ => false
  end.

(** An instance: its class and the attributes the constructors set.
    [_benchmark], [_ceiling] and [_plot_ceiling] are those of
    [IndividualPlot.__init__]; the colours and alphas are those of
    [BrainScorePlot.__init__]. *)
Record plotter : Type := Plotter {
  cls : plot_class;
  _highlighted_models : list string;
  _benchmark : option string;
  _ceiling : option Q;
  _plot_ceiling : bool
}.

Definition _nonbasenet_color : string := "#078930".
Definition _basenet_color : string := "#878789".
Definition _nonbasenet_alpha : Q := 7 # 10.
Definition _basenet_alpha : Q := 3 # 10.

Definition Plot_init (highlighted_models : list string) : plotter :=
  Plotter Plot highlighted_models None None false.
Definition BrainScorePlot_init (highlighted_models : list string) : plotter :=
  Plotter BrainScorePlot highlighted_models None None false.
Definition BrainScoreZoomPlot_init (highlighted_models : list string) : plotter :=
  Plotter BrainScoreZoomPlot highlighted_models None None false.
Definition IndividualPlot_init (benchmark : string) (ceiling : option Q)
    (highlighted_models : list string) : plotter :=
  Plotter IndividualPlot highlighted_models (Some benchmark) ceiling true.

(** [V1Plot.__init__] calls [IndividualPlot.__init__] without [benchmark]. *)
Definition V1Plot_init (highlighted_models : list string) : res plotter :=
  Err (Exn TypeError "__init__() missing 1 required positional argument: 'benchmark'").
Definition V4Plot_init (highlighted_models : list string) : plotter :=
  Plotter V4Plot highlighted_models (Some "dicarlo.Majaj2015.V4") (Some (892 # 1000)) true.
Definition ITPlot_init (highlighted_models : list string) : plotter :=
  Plotter ITPlot highlighted_models (Some "dicarlo.Majaj2015.IT") (Some (817 # 1000)) true.
Definition BehaviorPlot_init (highlighted_models : list string) : plotter :=
  Plotter BehaviorPlot highlighted_models (Some "dicarlo.Rajalingham2018")
          (Some (479 # 1000)) true.

(** The title and axis label each subclass of [IndividualPlot] sets in its
    [apply], after the [apply] of the base class. *)
Definition apply_labels (c : plot_class) : list call :=
  match c with
  | V1Plot => [ax_set_title "V1"; ax_set_ylabel "Neural Predictivity"]
  | V4Plot => [ax_set_title "V4"; ax_set_ylabel "Neural Predictivity"]
  | ITPlot => [ax_set_title "IT"; ax_hide_yticklabels]
  | BehaviorPlot =>
      [ax_set_title "Behavior"; ax_tick_right; ax_set_ylabel "Behavioral Predictivity"]
  | _ => []
  end.

(** [f'{r:.2f}']: the sign, and the magnitude rounded to two decimals,
    ties to even. *)
Definition round_half_even (q : Q) : Z :=
  let n := Qnum q in
  let d := Zpos (Qden q) in
  let floor := (n / d)%Z in
  let twice_rest := (2 * (n mod d))%Z in
  if (twice_rest <? d)%Z then floor
  else if (d <? twice_rest)%Z then (floor + 1)%Z
  else if Z.even floor then floor else (floor + 1)%Z.

Definition two_digits (n : Z) : string :=
  if (n <? 10)%Z then "0" +:+ pretty n else pretty n.

Definition format_2f (r : Q) : string :=
  let hundredths := round_half_even (Qabs r * 100) in
  (if Qlt_bool r 0 then "-" else "")
  +:+ pretty (hundredths / 100)%Z +:+ "." +:+ two_digits (hundredths mod 100)%Z.

(** [os.path.join] of posixpath. *)
Definition starts_with_sep (s : string) : bool :=
  match s with
  | String c _ => Ascii.eqb c "/"
  | EmptyString => false
  end.

Fixpoint ends_with_sep (s : string) : bool :=
  match s with
  | EmptyString => false
  | String c EmptyString => Ascii.eqb c "/"
  | String _ rest => ends_with_sep rest
  end.

Definition join2 (path b : string) : string :=
  if starts_with_sep b then b
  else if String.eqb path "" || ends_with_sep path then path +:+ b
  else path +:+ "/" +:+ b.

Definition path_join (a : string) (p : list string) : string :=
  fold_left join2 p a.

Section WithEnv.
Context `{Env}.

(** [data[data['benchmark'] == benchmark]] *)
Definition select_benchmark (benchmark : string) (data : DataFrame) : DataFrame :=
  filter (fun r => String.eqb (row_benchmark r) benchmark) data.

(** [data[data['model'] == model]] *)
Definition select_model (model : string) (data : DataFrame) : DataFrame :=
  filter (fun r => String.eqb (row_model r) model) data.

(** Lines 97-101 and 176-180, shared by the two [get_xye]: the aligned
    ImageNet scores against the scores and errors of [benchmark]. *)
Definition xye_of (benchmark : string) (data : DataFrame)
  : ndarray * ndarray * ndarray * list string :=
  let imagenet_data := select_benchmark "ImageNet" data in
  let benchmark_data := select_benchmark benchmark data in
  let imagenet_data := align imagenet_data benchmark_data "model" in
  let x := squeeze (map row_score imagenet_data) in
  let y := squeeze (map row_score benchmark_data) in
  let yerr := squeeze (map row_error benchmark_data) in
  (x, y, yerr, map row_model imagenet_data).

(** [BrainScorePlot.get_xye(data, get_models=True)] *)
Definition BrainScorePlot_get_xye_models (data : DataFrame)
  : ndarray * ndarray * ndarray * list string :=
  xye_of "Brain-Score" data.

(** [self.get_xye(data)], by the class of [self]. *)
Definition get_xye (self : plotter) (data : DataFrame)
  : res (ndarray * ndarray * ndarray) :=
  match cls self with
  | Plot => Err (Exn NotImplementedError "")
  | BrainScorePlot | BrainScoreZoomPlot =>
      let '(x, y, yerr, _) := BrainScorePlot_get_xye_models data in Ok (x, y, yerr)
  | IndividualPlot | V1Plot | V4Plot | ITPlot | BehaviorPlot =>
      match _benchmark self with
      | Some benchmark => let '(x, y, yerr, _) := xye_of benchmark data in Ok (x, y, yerr)
      | None => Err (Exn TypeError "'_benchmark' is not set")
      end
  end.

(** [self.collect_results()], by the class of [self]. *)
Definition collect_results (self : plotter) : res DataFrame :=
  data ← DataCollector;
  match cls self with
  | Plot | BrainScorePlot => Ok data
  | BrainScoreZoomPlot =>
      let imagenet_data := select_benchmark "ImageNet" data in
      let imagenet_data := filter (fun r => Qlt_bool 70 (row_score r)) imagenet_data in
      Ok (filter (fun r => bool_decide (row_model r ∈ map row_model imagenet_data)) data)
  | IndividualPlot | V1Plot | V4Plot | ITPlot | BehaviorPlot =>
      let data :=
        filter (fun r => negb (bool_decide
                                 (row_model r ∈ ["cornet_z"; "cornet_r"; "cornet_r2"])))
               data in
      Ok (filter (fun r => negb (is_basenet (row_model r))) data)
  end.

(** [self._text(ax, x, y, label, ** kwargs)], by the class of [self]; the
    only keyword the callers pass is [fontsize]. *)
Definition _text (self : plotter) (x y : Q) (label : string) (fontsize : option Z)
  : list call :=
  match cls self with
  | BrainScoreZoomPlot => [ax_text x y label (Some 30%Z)]
  | IndividualPlot | V1Plot | V4Plot | ITPlot | BehaviorPlot =>
      [ax_text x y label (Some 10%Z)]
  | Plot | BrainScorePlot => [ax_text x y label fontsize]
  end.

(** [Plot._highlight] *)
Definition Plot__highlight (self : plotter) (ax : axes) (label : string) (x y : Q)
  : list call :=
  let dx := ((snd (xlim ax) - fst (xlim ax)) * (2 # 100))%Q in
  let dy := ((snd (ylim ax) - fst (ylim ax)) * (2 # 100))%Q in
  ax_plot [x; x + dx]%Q [y; y + dy]%Q "black" 1 :: _text self (x + dx) (y + dy) label (Some 20%Z).

(** [self._highlight(ax, label, x, y)], by the class of [self]. *)
Definition _highlight (self : plotter) (ax : axes) (label : string) (x y : Q)
  : list call :=
  match cls self with
  | BrainScorePlot =>
      if Qlt_bool 72 x then [] else Plot__highlight self ax label x y
  | _ => Plot__highlight self ax label x y
  end.

(** [Plot.indicate_correlation] *)
Definition indicate_correlation (self : plotter) (ax : axes) (data : DataFrame)
  : res (list call) :=
  '(x, y, error) ← get_xye self data;
  '(r, p) ← pearsonr x y;
  let significance_threshold := (5 # 100)%Q in
  let text :=
    if Qlt_bool p significance_threshold then "r = " +:+ format_2f r
    else "r n.s." in
  let text_x := (snd (xlim ax) - (15 # 100) * (snd (xlim ax) - fst (xlim ax)))%Q in
  let text_y := (fst (ylim ax) + (2 # 100) * (snd (ylim ax) - fst (ylim ax)))%Q in
  Ok (_text self text_x text_y text None).

(** [bool(error)] of a list. *)
Definition truthy_list {A : Type} (l : option (list A)) : bool :=
  match l with
  | Some (_ :: _) => true
  | _ => false
  end.

(** [_plot] of [BrainScorePlot.plot]: [error] is the argument of the
    enclosing [plot], [_error] what is drawn. *)
Definition BrainScorePlot__plot (error : option (list Q)) (marker_size : Z)
    (_x _y : ndarray) (_error : option Q) (color : colour) (alpha : Q) : list call :=
  ax_scatter _x _y color alpha marker_size ::
  (if truthy_list error then [ax_errorbar _x _y _error color alpha] else []).

(** [BrainScorePlot.plot].  With two floats there is one call of [_plot]
    for all points; it is recorded with the float as its colour, and what
    [ax.scatter] does with such a colour is matplotlib's. *)
Definition BrainScorePlot_plot (x y : ndarray) (error : option (list Q))
    (color : float_or_list colour) (marker_size : Z) (alpha : float_or_list Q)
  : res (list call) :=
  match alpha, color with
  | AFloat a, AFloat c =>
      Ok (BrainScorePlot__plot error marker_size x y None (colour_float c) a)
  | _, _ =>
      errors ← match error with
               | Some es => Ok (map Some es)
               | None => n ← len_ndarray x; Ok (repeat None n)
               end;
      xs ← iter_ndarray x;
      ys ← iter_ndarray y;
      colors ← iter_arg color;
      alphas ← iter_arg alpha;
      Ok (flat_map
            (fun '(_x, (_y, (_error, (_color, _alpha)))) =>
               BrainScorePlot__plot error marker_size
                 (Scalar _x) (Scalar _y) _error _color _alpha)
            (py_zip xs (py_zip ys (py_zip errors (py_zip colors alphas)))))
  end.

(** [self.plot(...)] with [marker_size] left out: 50 in [BrainScorePlot],
    300 in [BrainScoreZoomPlot]. *)
Definition default_marker_size (self : plotter) : Z :=
  match cls self with
  | BrainScoreZoomPlot => 300%Z
  | _ => 50%Z
  end.

(** [BrainScorePlot.apply], inherited by [BrainScoreZoomPlot]. *)
Definition BrainScorePlot_apply (self : plotter) (data : DataFrame) : res (list call) :=
  let '(x, y, error, models) := BrainScorePlot_get_xye_models data in
  let color := map (fun model => if negb (is_basenet model)
                                 then colour_str _nonbasenet_color
                                 else colour_str _basenet_color) models in
  let alpha := map (fun model => if negb (is_basenet model)
                                 then _nonbasenet_alpha
                                 else _basenet_alpha) models in
  drawn ← BrainScorePlot_plot x y None (AList color) (default_marker_size self)
                              (AList alpha);
  Ok (drawn ++ [ax_set_xlabel "Imagenet performance (% top-1)";
                ax_set_ylabel "Brain-Score";
                seaborn_despine]).

(** [class PaperFigures] *)
Record PaperFigures : Type := {
  _savedir : string;
  _save_formats : list string
}.

Definition PaperFigures_init : PaperFigures :=
  {| _savedir := path_join module_dir [".."; ".."; "results"];
     _save_formats := ["svg"; "pdf"; "png"] |}.

(** The loop of [PaperFigures.save], lines 330-333, over the formats
    still to save: the calls that have returned, and the exception of
    [fig.savefig] that has ended the loop, if one has. *)
Fixpoint save_formats (savedir name : string) (formats : list string)
  : list call * option exn :=
  match formats with
  | [] => ([], None)
  | extension :: rest =>
      let savepath := path_join savedir [name +:+ "." +:+ extension] in
      match savefig savepath extension with
      | Err e => ([], Some e)
      | Ok _ =>
          let '(later, raised) := save_formats savedir name rest in
          (fig_savefig savepath extension
             :: py_print ("Saved to " +:+ savepath) :: later,
           raised)
      end
  end.

(** [PaperFigures.save] *)
Definition save (self : PaperFigures) (name : string) : list call * option exn :=
  save_formats (_savedir self) name (_save_formats self).

End WithEnv.

(** *** Vocabulary for the properties of the figures *)

(** The files a list of calls saves, and the points it scatters. *)
Definition saved_files (calls : list call) : list (string * string) :=
  omap (fun c => match c with
                 | fig_savefig path format => Some (path, format)
                 | _ => None
                 end) calls.

Definition is_scatter (c : call) : bool :=
  match c with ax_scatter _ _ _ _ _ => true | _ => false end.

Definition scatters (calls : list call) : list call := filter is_scatter calls.

(** A point of [BrainScorePlot.plot] when [color] and [alpha] are lists. *)
Definition scatter_point (marker_size : Z)
    (z : Q * (Q * (option Q * (colour * Q)))) : call :=
  let '(_x, (_y, (_error, (_color, _alpha)))) := z in
  ax_scatter (Scalar _x) (Scalar _y) _color _alpha marker_size.

(** *** A reference environment for the figures

    Three models, one of them a basenet, with their ImageNet and
    Brain-Score rows; [align] orders the first table by the models of the
    second. *)

Definition reference_data : DataFrame :=
  [Row "alexnet" "ImageNet" (577 # 10) 0;
   Row "basenet-12" "ImageNet" (60 # 1) 0;
   Row "resnet-101_v2" "ImageNet" (77 # 1) 0;
   Row "resnet-101_v2" "Brain-Score" (40 # 100) (1 # 100);
   Row "alexnet" "Brain-Score" (35 # 100) (1 # 100);
   Row "basenet-12" "Brain-Score" (30 # 100) (2 # 100);
   Row "alexnet" "dicarlo.Majaj2015.V4" (58 # 100) (1 # 100);
   Row "basenet-12" "dicarlo.Majaj2015.V4" (50 # 100) (1 # 100);
   Row "cornet_z" "dicarlo.Majaj2015.V4" (55 # 100) (1 # 100)]%Q.

Definition reference_align (table by_table : DataFrame) (on : string) : DataFrame :=
  flat_map (fun b => filter (fun r => String.eqb (row_model r) (row_model b)) table)
           by_table.

#[local] Instance reference_env : Env := {|
  DataCollector := Ok reference_data;
  is_basenet := String.prefix "basenet";
  align := reference_align;
  pearsonr := fun _ _ => Ok (9126 # 10000, 1 # 1000)%Q;
  module_dir := "/repo/candidate_models/analyze";
  savefig := fun _ _ => Ok tt
|}.

(** What [BrainScorePlot.apply] draws for the reference data. *)
Definition reference_drawn : list call :=
  [ax_scatter (Scalar (77 # 1)) (Scalar (40 # 100)) (colour_str "#078930") (7 # 10) 50;
   ax_scatter (Scalar (577 # 10)) (Scalar (35 # 100)) (colour_str "#078930") (7 # 10) 50;
   ax_scatter (Scalar (60 # 1)) (Scalar (30 # 100)) (colour_str "#878789") (3 # 10) 50;
   ax_set_xlabel "Imagenet performance (% top-1)";
   ax_set_ylabel "Brain-Score";
   seaborn_despine]%Q.

Definition reference_axes : axes := Axes (50 # 1, 85 # 1)%Q (20 # 100, 45 # 100)%Q.

(** *** [Plot.__call__], [highlight_models] and [PaperFigures.__call__] *)

(** [x.size] *)
Definition size (a : ndarray) : nat :=
  match a with
  | Scalar _ => 1
  | Vector vs => length vs
  end.

(** What a call of a plot does besides the calls on its axes:
    [warnings.warn], [pyplot.subplots(figsize=...)] and
    [fig.tight_layout()].  [highlight_arrays] stands for the two calls of
    [Plot._highlight], [ax.plot] and [self._text], when [x] or [y] is not
    a single number: what matplotlib makes of arrays there is its own. *)
Inductive action : Type :=
| draw (c : call)
| warn (message : string)
| highlight_arrays (label : string) (x y : ndarray)
| subplots (width height : Z)
| tight_layout.

(** [ax.get_xlim()] and [ax.get_ylim()], from what has been done on the
    axes so far. *)
Class Canvas : Type := {
  limits : list action -> axes
}.

Definition draws (done : list action) : list call :=
  omap (fun a => match a with
                 | draw c => Some c
                 | _ => None
                 end) done.

(** The labels written by highlighting. *)
Definition highlight_labels (done : list action) : list string :=
  omap (fun a => match a with
                 | draw (ax_text _ _ label _) => Some label
                 | highlight_arrays label _ _ => Some label
                 | _ => None
                 end) done.

Definition not_found (highlighted_model : string) : string :=
  "Model " +:+ highlighted_model +:+ " not found in data".

Definition ambiguous_truth_value : exn :=
  Exn ValueError
      "The truth value of an array with more than one element is ambiguous. Use a.any() or a.all()".

(** The models [PaperFigures.__call__] highlights, lines 307-318. *)
Definition paper_highlighted_models : list string :=
  ["cornet_s"; "resnet-101_v2"; "resnet-152_v2"; "densenet-169"; "densenet-201";
   "pnasnet_large"; "alexnet"; "mobilenet_v2_1.0_224"; "mobilenet_v1_1.0.224";
   "inception_v4"; "vgg-19"; "xception"].

Section Calls.
Context `{Env} `{Canvas}.

(** [self._highlight(ax, label, x, y)] with the arrays [get_xye] returns.
    [BrainScorePlot._highlight] tests [x > 72], which has no truth value
    for an array of two elements or more; for an empty array it is false. *)
Definition highlight_at (self : plotter) (ax : axes) (label : string)
    (x y : ndarray) : res (list action) :=
  match x, y with
  | Scalar v, Scalar w => Ok (map draw (_highlight self ax label v w))
  | Scalar v, Vector _ =>
      match cls self with
      | BrainScorePlot =>
          if Qlt_bool 72 v then Ok [] else Ok [highlight_arrays label x y]
      | _ => Ok [highlight_arrays label x y]
      end
  | Vector vs, _ =>
      match cls self with
      | BrainScorePlot =>
          match vs with
          | [] => Ok [highlight_arrays label x y]
          | [v] => if Qlt_bool 72 v then Ok [] else Ok [highlight_arrays label x y]
          | _ => Err ambiguous_truth_value
          end
      | _ => Ok [highlight_arrays label x y]
      end
  end.

(** [Plot.highlight_models], lines 46-53: the loop over the models still
    to highlight, after [done] on the axes; the result is [done] and what
    the loop adds. *)
Fixpoint highlight_models_from (self : plotter) (data : DataFrame)
    (models : list string) (done : list action) : res (list action) :=
  match models with
  | [] => Ok done
  | highlighted_model :: rest =>
      let model_data := select_model highlighted_model data in
      '(x, y, error) ← get_xye self model_data;
      if (size x =? 0)%nat
      then highlight_models_from self data rest
             (done ++ [warn (not_found highlighted_model)])
      else
        new ← highlight_at self (limits done) highlighted_model x y;
        highlight_models_from self data rest (done ++ new)
  end.

Definition highlight_models (self : plotter) (data : DataFrame)
    (done : list action) : res (list action) :=
  highlight_models_from self data (_highlighted_models self) done.

(** [BrainScorePlot.__call__()], lines 88-90, with [Plot.__call__], lines
    23-34, for [ax=None]: the seaborn context is not recorded.  [super]
    refuses an object that is no [BrainScorePlot]. *)
Definition BrainScorePlot_call (self : plotter) : res (list action) :=
  match cls self with
  | BrainScorePlot | BrainScoreZoomPlot =>
      data ← collect_results self;
      let fig := [subplots 10 8] in
      drawn ← BrainScorePlot_apply self data;
      done ← highlight_models self data (fig ++ map draw drawn);
      text ← indicate_correlation self (limits done) data;
      Ok (done ++ map draw text ++ [tight_layout])
  | _ => Err (Exn TypeError "super(type, obj): obj must be an instance or subtype of type")
  end.

(** [PaperFigures.__call__], lines 306-328: each figure is made and
    saved before the next one is made. *)
Definition paper_figs : list (string * plotter) :=
  [("brain-score", BrainScorePlot_init paper_highlighted_models);
   ("brain-score-zoom", BrainScoreZoomPlot_init paper_highlighted_models)].

Fixpoint make_and_save (self : PaperFigures) (figs : list (string * plotter))
  : res (list action) :=
  match figs with
  | [] => Ok []
  | (name, fig_maker) :: rest =>
      fig ← BrainScorePlot_call fig_maker;
      match save self name with
      | (_, Some e) => Err e
      | (saved, None) =>
          later ← make_and_save self rest;
          Ok (fig ++ map draw saved ++ later)
      end
  end.

Definition PaperFigures_call (self : PaperFigures) : res (list action) :=
  make_and_save self paper_figs.

End Calls.

(** *** Data for the further properties *)

(** A table in which 'vgg-19' has a Brain-Score and no ImageNet score. *)
Definition unaligned_data : DataFrame :=
  [Row "resnet-101_v2" "ImageNet" (77 # 1) 0;
   Row "alexnet" "ImageNet" (577 # 10) 0;
   Row "resnet-101_v2" "Brain-Score" (40 # 100) (1 # 100);
   Row "vgg-19" "Brain-Score" (38 # 100) (1 # 100);
   Row "alexnet" "Brain-Score" (35 # 100) (1 # 100)]%Q.

(** A table with two models above 70% top-1. *)
Definition paper_data : DataFrame :=
  [Row "alexnet" "ImageNet" (577 # 10) 0;
   Row "resnet-101_v2" "ImageNet" (77 # 1) 0;
   Row "pnasnet_large" "ImageNet" (829 # 10) 0;
   Row "basenet-12" "ImageNet" (60 # 1) 0;
   Row "alexnet" "Brain-Score" (35 # 100) (1 # 100);
   Row "resnet-101_v2" "Brain-Score" (40 # 100) (1 # 100);
   Row "pnasnet_large" "Brain-Score" (39 # 100) (1 # 100);
   Row "basenet-12" "Brain-Score" (30 # 100) (2 # 100)]%Q.

Definition paper_env : Env := {|
  DataCollector := Ok paper_data;
  is_basenet := String.prefix "basenet";
  align := reference_align;
  pearsonr := fun _ _ => Ok (9126 # 10000, 1 # 1000)%Q;
  module_dir := "/repo/candidate_models/analyze";
  savefig := fun _ _ => Ok tt
|}.

(** The same without the results directory: nothing can be saved. *)
Definition no_such_directory : exn :=
  Exn FileNotFoundError "[Errno 2] No such file or directory".

Definition missing_results_env : Env := {|
  DataCollector := Ok paper_data;
  is_basenet := String.prefix "basenet";
  align := reference_align;
  pearsonr := fun _ _ => Ok (9126 # 10000, 1 # 1000)%Q;
  module_dir := "/repo/candidate_models/analyze";
  savefig := fun _ _ => Err no_such_directory
|}.

(** A disk that is full after the first file. *)
Definition full_after_svg_env : Env := {|
  DataCollector := Ok paper_data;
  is_basenet := String.prefix "basenet";
  align := reference_align;
  pearsonr := fun _ _ => Ok (9126 # 10000, 1 # 1000)%Q;
  module_dir := "/repo/candidate_models/analyze";
  savefig := fun _ format =>
    if String.eqb format "svg" then Ok tt
    else Err (Exn OSError "[Errno 28] No space left on device")
|}.

(** Axes whose limits stay as they are. *)
Definition fixed_canvas : Canvas := {| limits := fun _ => reference_axes |}.

End Figures.

(** * Properties

    ** Facts about labelled arrays *)
Module XrFacts.

Lemma label_of_drop_dim (d d' : string) coords :
  d <> d' -> label_of d (drop_dim d' coords) = label_of d coords.
Proof.
  intros Hne. unfold drop_dim.
  induction coords as [|[e l] coords IH]; [reflexivity|].
  rewrite filter_cons. simpl.
  destruct (String.eqb_spec e d') as [->|He]; simpl.
  - destruct (String.eqb_spec d' d) as [->|_]; [congruence | exact IH].
  - now rewrite IH.
Qed.

Lemma at_label_strip (d d' l : string) (c : cell) :
  d <> d' -> at_label d l (strip d' c) = at_label d l c.
Proof. intros Hne. unfold at_label, strip. simpl. now rewrite label_of_drop_dim. Qed.

Lemma cell_value_strip d c : cell_value (strip d c) = cell_value c.
Proof. reflexivity. Qed.

Lemma filter_map_strip (d d' l : string) (cs : list cell) :
  d <> d' ->
  filter (at_label d l) (map (strip d') cs) = map (strip d') (filter (at_label d l) cs).
Proof.
  intros Hne. induction cs as [|c cs IH]; [reflexivity|].
  cbn [map]. rewrite !filter_cons, at_label_strip by exact Hne.
  destruct (decide (at_label d l c)); cbn [map]; now rewrite IH.
Qed.

Lemma filter_swap {A} (P Q : A -> bool) (l : list A) :
  filter P (filter Q l) = filter Q (filter P l).
Proof.
  induction l as [|x l IH]; [reflexivity|].
  rewrite !filter_cons.
  destruct (decide (Q x)), (decide (P x)); rewrite ?filter_cons;
    repeat (rewrite decide_True by assumption);
    repeat (rewrite decide_False by assumption); now rewrite IH.
Qed.

Lemma sel_Ok dim label cs :
  filter (at_label dim label) cs <> [] ->
  sel dim label cs = Ok (map (strip dim) (filter (at_label dim label) cs)).
Proof. unfold sel. destruct (filter _ cs); [congruence | reflexivity]. Qed.

(** [argmax_from] returns the index of a greatest value. *)
Lemma argmax_from_spec (vs pre : list Q) (best : Q) (best_i : nat) :
  pre !! best_i = Some best ->
  (forall v : Q, v ∈ pre -> (v <= best)%Q) ->
  exists v, (pre ++ vs) !! argmax_from best best_i (length pre) vs = Some v /\
            (forall v' : Q, v' ∈ pre ++ vs -> (v' <= v)%Q).
Proof.
  revert pre best best_i.
  induction vs as [|x vs IH]; intros pre best best_i Hbest Hmax.
  - exists best. rewrite app_nil_r. simpl. auto.
  - cbn [argmax_from].
    replace (pre ++ x :: vs) with ((pre ++ [x]) ++ vs) by now rewrite <- app_assoc.
    replace (S (length pre)) with (length (pre ++ [x]))
      by (rewrite length_app; simpl; lia).
    destruct (Qle_bool x best) eqn:Hle.
    + apply Qle_bool_iff in Hle. apply IH.
      * apply lookup_app_l_Some. exact Hbest.
      * intros v [Hv | Hv]%elem_of_app; [now apply Hmax|].
        apply list_elem_of_singleton in Hv. now subst.
    + assert (best < x)%Q as Hlt.
      { apply Qnot_le_lt. intros Hc. apply Qle_bool_iff in Hc. congruence. }
      apply IH.
      * rewrite lookup_app_r by lia. now rewrite Nat.sub_diag.
      * intros v [Hv | Hv]%elem_of_app.
        -- apply Qle_trans with best; [now apply Hmax | now apply Qlt_le_weak].
        -- apply list_elem_of_singleton in Hv. subst. apply Qle_refl.
Qed.

Lemma argmax_spec (cs : list cell) :
  cs <> [] ->
  exists i c, argmax cs = Ok i /\ cs !! i = Some c /\
              (forall c' : cell, c' ∈ cs -> (cell_value c' <= cell_value c)%Q).
Proof.
  intros Hne. destruct cs as [|c0 cs]; [congruence|].
  unfold argmax. cbn [map].
  destruct (argmax_from_spec (map cell_value cs) [cell_value c0] (cell_value c0) 0)
    as (v & Hv & Hmax).
  - reflexivity.
  - intros v Hv. apply list_elem_of_singleton in Hv. subst. apply Qle_refl.
  - change ([cell_value c0] ++ map cell_value cs)
      with (map cell_value (c0 :: cs)) in Hv, Hmax.
    change (length [cell_value c0]) with 1 in Hv.
    rewrite list_lookup_fmap in Hv.
    destruct ((c0 :: cs) !! argmax_from (cell_value c0) 0 1 (map cell_value cs))
      as [c|] eqn:Hc; [|discriminate].
    simpl in Hv. injection Hv as <-.
    eexists _, c. split; [reflexivity|]. split; [exact Hc|].
    intros c' Hc'. apply Hmax. apply list_elem_of_fmap. eauto.
Qed.

(** An array whose ['center'] entries belong to layers has the dimension
    [layer]. *)
Lemma argmax_over_layer (cc : list cell) :
  cc <> [] ->
  Forall (fun c => is_Some (label_of "layer" (cell_coords c))) cc ->
  argmax_over "layer" (map (strip "aggregation") cc)
  = argmax (map (strip "aggregation") cc).
Proof.
  intros Hne Hall. unfold argmax_over, has_dim.
  destruct Hall as [|c cc Hc _]; [congruence|].
  cbn [map existsb strip cell_coords].
  rewrite label_of_drop_dim by discriminate.
  now rewrite (bool_decide_eq_true_2 _ Hc).
Qed.

Lemma at_label_true d l c :
  at_label d l c = true <-> label_of d (cell_coords c) = Some l.
Proof.
  unfold at_label. destruct (label_of d (cell_coords c)) as [l'|]; [|easy].
  destruct (String.eqb_spec l' l); split; congruence.
Qed.

Lemma layer_centers_lookup (cc : list cell) i c :
  Forall (fun c => is_Some (label_of "layer" (cell_coords c))) cc ->
  cc !! i = Some c ->
  exists l, label_of "layer" (cell_coords c) = Some l /\
            omap layer_center cc !! i = Some (l, cell_value c).
Proof.
  intros Hall. revert i. induction Hall as [|c0 cc [l0 Hl0] _ IH]; intros i Hi.
  - discriminate.
  - cbn [omap list_omap]. unfold layer_center at 1. rewrite Hl0.
    destruct i as [|i]; simpl in Hi.
    + injection Hi as <-. exists l0. auto.
    + apply IH. exact Hi.
Qed.

Lemma layer_centers_elem (cc : list cell) l v :
  (l, v) ∈ omap layer_center cc ->
  exists c, c ∈ cc /\ label_of "layer" (cell_coords c) = Some l /\ cell_value c = v.
Proof.
  intros (c & Hc & Hlc)%list_elem_of_omap. exists c. split; [exact Hc|].
  unfold layer_center in Hlc.
  destruct (label_of "layer" (cell_coords c)); [|discriminate].
  injection Hlc as -> ->. auto.
Qed.

Lemma elem_layer_centers (cc : list cell) c l :
  c ∈ cc -> label_of "layer" (cell_coords c) = Some l ->
  (l, cell_value c) ∈ omap layer_center cc.
Proof.
  intros Hc Hl. apply list_elem_of_omap. exists c. split; [exact Hc|].
  unfold layer_center. now rewrite Hl.
Qed.

Lemma filter_none {A} (P : A -> bool) (l : list A) :
  (forall x, x ∈ l -> P x = false) -> filter P l = [].
Proof.
  induction l as [|x l IH]; intros Hl; [reflexivity|].
  rewrite filter_cons, decide_False.
  - apply IH. intros y Hy. apply Hl. now right.
  - rewrite (Hl x) by now left. intros [].
Qed.

(** With one entry per layer, selecting a layer leaves its entry alone. *)
Lemma unique_at_layer (cc : list cell) i c l :
  Forall (fun c => is_Some (label_of "layer" (cell_coords c))) cc ->
  NoDup (map fst (omap layer_center cc)) ->
  cc !! i = Some c ->
  label_of "layer" (cell_coords c) = Some l ->
  filter (at_label "layer" l) cc = [c].
Proof.
  intros Hall. revert i.
  induction Hall as [|c0 cc [l0 Hl0] Hall IH]; intros i Hnd Hi Hl.
  - discriminate.
  - cbn [omap list_omap] in Hnd. unfold layer_center at 1 in Hnd. rewrite Hl0 in Hnd.
    cbn [map fst] in Hnd. apply NoDup_cons in Hnd as [Hfresh Hnd].
    rewrite filter_cons.
    destruct i as [|i]; simpl in Hi.
    + injection Hi as <-. assert (l0 = l) as -> by congruence.
      rewrite decide_True by (apply Is_true_true, at_label_true; exact Hl).
      f_equal. apply filter_none. intros c' Hc'.
      destruct (at_label "layer" l c') eqn:Hat; [|reflexivity].
      exfalso. apply Hfresh. apply at_label_true in Hat.
      apply list_elem_of_fmap. exists (l, cell_value c'). split; [reflexivity|].
      now apply elem_layer_centers.
    + assert (l <> l0) as Hne.
      { intros ->. apply Hfresh.
        apply list_elem_of_fmap. exists (l0, cell_value c). split; [reflexivity|].
        apply elem_layer_centers; [|exact Hl]. eapply list_elem_of_lookup_2, Hi. }
      rewrite decide_False.
      * eapply IH; eauto.
      * intros Hat%Is_true_true%at_label_true. congruence.
Qed.

End XrFacts.
Export XrFacts.

(** ** Properties of the scoring entry points *)
Module ScoringProps.
Import Scoring.

Section Properties.
Context `{Env}.

Ltac unfold_res := unfold mbind, res_bind, mret, res_ret, py_assert in *.

Lemma append_String c (s t : string) : String c s +:+ t = String c (s +:+ t).
Proof. reflexivity. Qed.

Lemma append_Empty (t : string) : "" +:+ t = t.
Proof. reflexivity. Qed.

Lemma prefix_split (p s : string) :
  String.prefix p s = true <-> exists post, s = p +:+ post.
Proof.
  revert s. induction p as [|c p IH]; intros s.
  - split; [intros _; exists s; reflexivity | intros _; now destruct s].
  - destruct s as [|d s]; simpl.
    + split; [discriminate | intros [post Hpost]; discriminate].
    + destruct (Ascii.ascii_dec c d) as [->|Hne].
      * rewrite IH. split; intros [post Hpost]; exists post.
        -- rewrite append_String. now rewrite Hpost.
        -- rewrite append_String in Hpost. congruence.
      * split; [discriminate|].
        intros [post Hpost]. rewrite append_String in Hpost. congruence.
Qed.

Lemma contains_spec (p s : string) :
  contains p s = true <-> substring_of p s.
Proof.
  unfold substring_of.
  induction s as [|c s IH]; cbn [contains].
  - rewrite orb_false_r, prefix_split. split.
    + intros [post Hpost]. exists "", post. exact Hpost.
    + intros [pre [post Hs]]. destruct pre; [|discriminate].
      exists post. exact Hs.
  - rewrite orb_true_iff, prefix_split, IH. split.
    + intros [[post Hpost] | [pre [post Hs]]].
      * exists "", post. exact Hpost.
      * exists (String c pre), post. rewrite append_String. now rewrite Hs.
    + intros [pre [post Hs]]. destruct pre as [|d pre].
      * left. exists post. exact Hs.
      * right. exists pre, post. rewrite append_String in Hs. congruence.
Qed.

Lemma score_model_checks_Ok a ls mid bid :
  score_model_checks a = Ok (ls, mid, bid) ->
  mid = py_or (model_identifier a) (model a) /\
  bid = py_or (benchmark_identifier a) (benchmark a).
Proof.
  unfold score_model_checks. unfold_res. intros Hr.
  repeat match type of Hr with
         | context [match ?x with _ => _ end] => destruct x eqn:?; try discriminate
         end.
  all: inversion Hr; subst; auto.
Qed.

Lemma score_model_arguments_Ok a r :
  score_model_arguments a = Ok r ->
  model r = model a /\
  model_identifier r = py_or (model_identifier a) (model a) /\
  benchmark r = benchmark a /\
  benchmark_identifier r = py_or (benchmark_identifier a) (benchmark a) /\
  weights r = weights a /\ pca_components r = pca_components a /\
  (exists ls, layers r = Some ls).
Proof.
  unfold score_model_arguments. unfold_res. intros Hr.
  destruct (score_model_checks a) as [[[ls mid] bid]|e] eqn:Hc; [|discriminate].
  apply score_model_checks_Ok in Hc as [-> ->].
  destruct (truthy (image_size a)); [|destruct (infer_image_size _); [|discriminate]].
  all: inversion Hr; subst; simpl; eauto 10.
Qed.

Lemma score_model_nested n a b :
  eq_str (PStr b) "brain-score" = false ->
  score_model (S n) (nested_args a b) = Some (score_on_benchmark a b).
Proof.
  intros Hb. unfold score_on_benchmark. simpl. unfold_res.
  destruct (score_model_arguments (nested_args a b)) as [r|e] eqn:Hr; [|reflexivity].
  apply score_model_arguments_Ok in Hr as (_ & _ & _ & Hbid & _).
  rewrite Hbid. simpl. unfold py_or. simpl. simpl in Hb. now rewrite Hb.
Qed.

Lemma benchmark_loop_ext f g a bs :
  (forall b, In b bs -> f (nested_args a b) = g (nested_args a b)) ->
  benchmark_loop f a bs = benchmark_loop g a bs.
Proof.
  induction bs as [|b bs IH]; intros Hfg; [reflexivity|].
  simpl.
  rewrite (Hfg b (or_introl eq_refl)).
  rewrite IH; [reflexivity|]. intros b' Hb'. apply Hfg. now right.
Qed.

Lemma benchmark_loop_total n a bs :
  forallb (fun b => negb (eq_str (PStr b) "brain-score")) bs = true ->
  benchmark_loop (score_model (S n)) a bs = Some (benchmark_scores_of a bs).
Proof.
  induction bs as [|b bs IH]; intros Hbs; [reflexivity|].
  simpl in Hbs. apply andb_true_iff in Hbs as [Hb Hbs].
  apply negb_true_iff in Hb.
  cbn [benchmark_loop benchmark_scores_of].
  rewrite score_model_nested by exact Hb.
  rewrite IH by exact Hbs. unfold_res.
  destruct (score_on_benchmark a b); [|reflexivity].
  destruct (benchmark_scores_of a bs); reflexivity.
Qed.

(** With two levels of calls available, [BrainScore.__call__] returns,
    and more fuel changes nothing. *)
Lemma BrainScore_call_total n a :
  BrainScore_call BrainScore_init (score_model (S n)) a =
  Some (scores ← benchmark_scores_of a (_benchmark_identifiers BrainScore_init);
        brain_score_of scores).
Proof.
  unfold BrainScore_call. rewrite benchmark_loop_total by reflexivity.
  unfold_res. destruct (benchmark_scores_of _ _); reflexivity.
Qed.

Lemma score_model_S n a :
  score_model (S n) a =
  match score_model_arguments a with
  | Err e => Some (Err e)
  | Ok r =>
      if eq_str (benchmark_identifier r) "brain-score"
      then BrainScore_call BrainScore_init (score_model n) r
      else Some (_score_model r)
  end.
Proof. reflexivity. Qed.

Lemma score_model_total n a : score_model (S (S n)) a = score_model 2 a.
Proof.
  rewrite !(score_model_S (S _)).
  destruct (score_model_arguments a) as [r|e]; [|reflexivity].
  destruct (eq_str _ _); [|reflexivity].
  now rewrite !BrainScore_call_total.
Qed.

Lemma score_model_returns n a : is_Some (score_model (S (S n)) a).
Proof.
  rewrite score_model_S.
  destruct (score_model_arguments a) as [r|e]; [|eauto].
  destruct (eq_str _ _); [|eauto].
  rewrite BrainScore_call_total. eauto.
Qed.

Lemma eq_str_decide (v : pyval) (s : string) :
  eq_str v s = bool_decide (v = PStr s).
Proof.
  destruct v as [|t| |]; simpl; try reflexivity.
  destruct (String.eqb_spec t s) as [->|Hne].
  - symmetry. now apply bool_decide_eq_true.
  - symmetry. apply bool_decide_eq_false. congruence.
Qed.

(** C1 (as amended).  A call that fails the checks of lines 25-36 raises
    their exception.  Every other call takes exactly one of two branches,
    decided by [benchmark_identifier or benchmark] - the identifier when it
    is truthy, the [benchmark] argument when it is [None], [''] or falsy in
    another way: on ['brain-score'] the call returns what a [BrainScore]
    instance returns for the model (and that instance does return), on
    anything else what [_score_model] returns for the benchmark. *)
Theorem score_model_branch n a :
  let bid := py_or (benchmark_identifier a) (benchmark a) in
  match score_model_arguments a with
  | Err e => score_model (S (S n)) a = Some (Err e)
  | Ok r =>
      benchmark_identifier r = bid /\
      (if bool_decide (bid = PStr "brain-score")
       then score_model (S (S n)) a =
              BrainScore_call BrainScore_init (score_model (S n)) r
            /\ is_Some (BrainScore_call BrainScore_init (score_model (S n)) r)
       else score_model (S (S n)) a = Some (_score_model r))
  end.
Proof.
  intros bid. rewrite score_model_S.
  destruct (score_model_arguments a) as [r|e] eqn:Hr; [|reflexivity].
  apply score_model_arguments_Ok in Hr as (_ & _ & _ & Hbid & _).
  split; [exact Hbid|].
  rewrite eq_str_decide, Hbid. fold bid.
  destruct (bool_decide (bid = PStr "brain-score")); [|reflexivity].
  split; [reflexivity|]. rewrite BrainScore_call_total. eauto.
Qed.

(** C3 (as amended).  One of the three assertions of a call fires if and
    only if one of the three conditions holds and the call does not stop
    before at [model_layers[model]] with a [KeyError] ([layers] is [None]
    and [model] is a string the dictionary does not have); the exception
    of a failed check is what [score_model] raises. *)
Theorem score_model_assertions a :
  ((exists e, score_model_checks a = Err e /\ exn_cls e = AssertionError) <->
   (layers_missing a \/ model_identifier_missing a \/ benchmark_identifier_missing a)
   /\ ~ unknown_model a)
  /\ (forall n e, score_model_checks a = Err e -> score_model (S n) a = Some (Err e)).
Proof.
  split.
  - unfold layers_missing, model_identifier_missing, benchmark_identifier_missing,
      unknown_model, score_model_checks, model_layers_getitem.
    unfold_res.
    destruct a as [m mi ls w p i b bi]; simpl.
    destruct ls as [ls|]; destruct m as [|s| |]; simpl;
      try destruct (model_layers !! s) eqn:Hs; simpl;
      destruct mi; simpl; destruct bi; simpl; destruct b; simpl.
    all: split.
    all: try (intros (e & He & Hcls); inversion He; subst; try discriminate;
              (split;
               [ first [ left; split; reflexivity
                       | right; left; split; reflexivity
                       | right; right; split; reflexivity ]
               | intros (Hl & s' & Hm & Hn); try discriminate;
                 inversion Hm; subst; congruence ])).
    all: intros (Hcond & Hknown).
    all: first [ eexists; split; reflexivity
               | exfalso; destruct Hcond as [[? ?]|[[? ?]|[? ?]]]; discriminate
               | exfalso; apply Hknown;
                 (split; [ reflexivity
                         | eexists; (split; [reflexivity | assumption]) ]) ].
  - intros n e He. rewrite score_model_S.
    unfold score_model_arguments. unfold_res. now rewrite He.
Qed.

(** Whatever [model_layers] holds, some model string is not in it: a
    string longer than every key. *)
Lemma length_append (a b : string) :
  String.length (a +:+ b) = String.length a + String.length b.
Proof. induction a as [|c a IH]; [reflexivity|]. rewrite append_String. simpl. now rewrite IH. Qed.

Lemma longer_than_keys (keys : list string) (k : string) :
  k ∈ keys -> String.length k < String.length (fold_right String.append "x" keys).
Proof.
  assert (forall l, 0 < String.length (fold_right String.append "x" l)) as Hpos.
  { induction l as [|k0 l IH]; cbn [fold_right]; [simpl; lia|].
    rewrite length_append. lia. }
  induction keys as [|k0 keys IH]; intros Hk.
  - now apply elem_of_nil in Hk.
  - cbn [fold_right]. rewrite length_append. specialize (Hpos keys).
    apply elem_of_cons in Hk as [->|Hk]; [lia|]. apply IH in Hk. lia.
Qed.

Lemma unknown_model_exists : exists s, model_layers !! s = None.
Proof.
  set (keys := map fst (map_to_list model_layers)).
  exists (fold_right String.append "x" keys).
  destruct (model_layers !! _) as [ls|] eqn:Hs; [|reflexivity].
  exfalso. apply elem_of_map_to_list in Hs.
  assert (fold_right String.append "x" keys ∈ keys) as Hin.
  { apply list_elem_of_fmap. eexists. split; [|exact Hs]. reflexivity. }
  apply longer_than_keys in Hin. lia.
Qed.

(** In every environment some call meets the third condition of C3 and
    raises the [KeyError] of the lookup. *)
Lemma lookup_preempts_assertion :
  exists a s,
    benchmark_identifier_missing a /\
    forall n, score_model (S n) a = Some (Err (Exn KeyError s)).
Proof.
  destruct unknown_model_exists as [s Hs].
  exists (Args (PStr s) PNone None PNone PNone PNone (PObj true 1) PNone), s.
  split; [split; reflexivity|].
  intros n. rewrite score_model_S.
  unfold score_model_arguments, score_model_checks, model_layers_getitem.
  unfold_res. simpl. now rewrite Hs.
Qed.

(** C4.  Once the benchmark is loaded and the activations are computed,
    [_score_model] returns the benchmark applied through
    [CartesianProduct(dividers=['layer'])] when the identifier's text has no
    substring 'temporal', and the benchmark applied to the assembly itself
    when it has one. *)
Theorem score_model_temporal a (bid : string) (b stimulus_set : pyval)
    (model_assembly : Assembly) :
  benchmark_identifier a = PStr bid ->
  match benchmark a with PStr s => benchmarks_load s | other => Ok other end = Ok b ->
  stimulus_set_name b = Ok stimulus_set ->
  model_multi_activations (model a) (model_identifier a) (weights a) (layers a)
    (pca_components a) (image_size a) stimulus_set = Ok model_assembly ->
  (~ substring_of "temporal" bid ->
   _score_model a = CartesianProduct ["layer"] model_assembly (benchmark_call b)) /\
  (substring_of "temporal" bid ->
   _score_model a = benchmark_call b model_assembly).
Proof.
  intros Hbid Hb Hstim Hact. unfold _score_model. unfold_res.
  rewrite Hb, Hstim, Hact, Hbid. simpl.
  destruct (contains "temporal" bid) eqn:Hc; split; intros Hsub; try reflexivity.
  - exfalso. apply Hsub. now apply contains_spec.
  - apply contains_spec in Hsub. congruence.
Qed.

(** C9 (as amended).  An empty string as [model_identifier] passes the
    assertion of line 29 for every model, a string or not, and the model
    takes its place; the same holds of [benchmark_identifier] and the
    benchmark.  When [layers] is given, the checks of such a call come
    down to the one on the other identifier, and [infer_image_size] and
    the scoring calls receive the model as the identifier. *)
Theorem empty_identifier_replaced m mi ls w p i b bi :
  let a_model := Args m (PStr "") (Some ls) w p i b bi in
  let a_benchmark := Args m mi (Some ls) w p i b (PStr "") in
  score_model_checks a_model =
    (if negb (is_None bi) || isinstance_str b
     then Ok (ls, m, py_or bi b)
     else Err (Exn AssertionError msg_benchmark_identifier)) /\
  score_model_checks a_benchmark =
    (if negb (is_None mi) || isinstance_str m
     then Ok (ls, py_or mi m, b)
     else Err (Exn AssertionError msg_model_identifier)) /\
  (forall r, score_model_arguments a_model = Ok r -> model_identifier r = m) /\
  (forall r, score_model_arguments a_benchmark = Ok r -> benchmark_identifier r = b) /\
  (forall ls', score_model_checks (Args m (PStr "") ls' w p i b bi)
               <> Err (Exn AssertionError msg_model_identifier)) /\
  (forall ls', score_model_checks (Args m mi ls' w p i b (PStr ""))
               <> Err (Exn AssertionError msg_benchmark_identifier)).
Proof.
  intros a_model a_benchmark. subst a_model a_benchmark.
  repeat split.
  - unfold score_model_checks. unfold_res. simpl.
    destruct (negb (is_None bi) || isinstance_str b); reflexivity.
  - unfold score_model_checks. unfold_res. simpl.
    destruct (negb (is_None mi) || isinstance_str m); reflexivity.
  - intros r Hr. now apply score_model_arguments_Ok in Hr as (_ & -> & _).
  - intros r Hr. now apply score_model_arguments_Ok in Hr as (_ & _ & _ & -> & _).
  - intros ls'. unfold score_model_checks, model_layers_getitem. unfold_res. simpl.
    destruct ls'; destruct m as [|s| |]; simpl;
      try destruct (model_layers !! s); simpl; try discriminate;
      destruct bi; simpl; try discriminate; destruct b; discriminate.
  - intros ls'. unfold score_model_checks, model_layers_getitem. unfold_res. simpl.
    destruct ls'; destruct m as [|s| |]; simpl;
      try destruct (model_layers !! s); simpl; try discriminate;
      destruct mi; discriminate.
Qed.

Lemma argmax_strip d (cs : list cell) : argmax (map (strip d) cs) = argmax cs.
Proof.
  unfold argmax. rewrite map_map.
  now rewrite (map_ext _ cell_value (cell_value_strip d)).
Qed.

Lemma best_score_spec (s : Score) :
  layerwise s ->
  exists s' c, best_score s = Ok s' /\
               center_cells (score_cells s') = [c] /\
               best_center s (cell_value c).
Proof.
  intros (Hne & Hall & Hnd & Hcoord).
  unfold best_score. unfold_res.
  rewrite sel_Ok by exact Hne. fold (center_cells (score_cells s)).
  rewrite argmax_over_layer by assumption.
  rewrite argmax_strip.
  destruct (argmax_spec _ Hne) as (i & c & -> & Hi & Hmax).
  destruct (layer_centers_lookup _ _ _ Hall Hi) as (l & Hl & Hlc).
  rewrite Hcoord.
  change (map fst (layer_centers s)) with (fst <$> layer_centers s).
  rewrite list_lookup_fmap. unfold layer_centers. rewrite Hlc. simpl.
  assert (c ∈ score_cells s) as Hc.
  { apply list_elem_of_lookup_2 in Hi. now apply list_elem_of_filter in Hi as [_ ?]. }
  assert (c ∈ filter (at_label "layer" l) (score_cells s)) as Hsel.
  { apply list_elem_of_filter. split; [|exact Hc].
    now apply Is_true_true, at_label_true. }
  rewrite sel_Ok by (intros Hnil; rewrite Hnil in Hsel; now apply elem_of_nil in Hsel).
  eexists _, (strip "layer" (strip "layer" c)). split; [reflexivity|]. split.
  - cbn [score_cells]. unfold center_cells, del_coord.
    rewrite !filter_map_strip by discriminate.
    rewrite filter_swap. fold (center_cells (score_cells s)).
    now rewrite (unique_at_layer _ i c l).
  - rewrite !cell_value_strip. split.
    + exists l. eapply list_elem_of_lookup_2, Hlc.
    + intros l' v' (c' & Hc' & _ & <-)%layer_centers_elem. now apply Hmax.
Qed.

Lemma res_map_best_score (scores : list Score) :
  Forall layerwise scores ->
  exists bests cc,
    res_map best_score scores = Ok bests /\
    length bests = length scores /\
    center_cells (flat_map score_cells bests) = cc /\
    Forall2 (fun s c => best_center s (cell_value c)) scores cc.
Proof.
  induction 1 as [|s scores Hs _ (bests & cc & Hmap & Hlen & Hcc & Hbest)].
  - exists [], []. repeat split. constructor.
  - destruct (best_score_spec s Hs) as (s' & c & Hs' & Hc & Hv).
    exists (s' :: bests), (c :: cc). cbn [res_map]. unfold_res.
    rewrite Hs', Hmap. repeat split.
    + simpl. now rewrite Hlen.
    + cbn [flat_map]. unfold center_cells in *. now rewrite filter_app, Hc, Hcc.
    + now constructor.
Qed.

Lemma merge_Ok (ss : list Score) :
  ss <> [] -> exists raw, merge ss = Ok (MkScore (flat_map score_cells ss) raw).
Proof. destruct ss; [congruence|]. eexists. reflexivity. Qed.

(** Lines 91-104 on layer-wise scores: one entry, labelled 'center',
    whose value is the mean of one best ['center'] value per score. *)
Lemma brain_score_of_spec (benchmark_scores : list Score) :
  benchmark_scores <> [] ->
  Forall layerwise benchmark_scores ->
  exists vs raw,
    brain_score_of benchmark_scores =
      Ok (MkScore [Cell [("aggregation", "center")]
                        (Qsum vs / inject_Z (Z.of_nat (length vs)))%Q] raw) /\
    Forall2 best_center benchmark_scores vs.
Proof.
  intros Hne Hall.
  destruct (res_map_best_score _ Hall) as (bests & cc & Hmap & Hlen & Hcc & Hbest).
  assert (bests <> []) as Hbests by (destruct bests, benchmark_scores; simpl in *; congruence).
  destruct (merge_Ok _ Hbests) as (raw1 & Hm1).
  destruct (merge_Ok _ Hne) as (raw2 & Hm2).
  unfold brain_score_of. unfold_res. rewrite Hmap, Hm1, Hm2. cbn [score_cells].
  assert (cc <> []) as Hcc_ne.
  { apply Forall2_length in Hbest. destruct cc, benchmark_scores; simpl in *; congruence. }
  fold (center_cells (flat_map score_cells bests)) in *.
  unfold center_cells in Hcc. rewrite sel_Ok by now rewrite Hcc.
  rewrite Hcc. exists (map cell_value cc). eexists. split.
  - unfold mean. rewrite map_map, !length_map.
    now rewrite (map_ext _ cell_value (cell_value_strip "aggregation")).
  - clear -Hbest. induction Hbest; constructor; auto.
Qed.

Lemma omap_map {A B C} (f : B -> option C) (g : A -> B) (l : list A) :
  omap f (map g l) = omap (fun x => f (g x)) l.
Proof.
  induction l as [|x l IH]; [reflexivity|].
  cbn. destruct (f (g x)); [f_equal|]; exact IH.
Qed.

Lemma filter_map_ext {A B} (P : B -> bool) (Q : A -> bool) (g : A -> B) (l : list A) :
  (forall x, P (g x) = Q x) -> filter P (map g l) = map g (filter Q l).
Proof.
  intros Hpq. induction l as [|x l IH]; [reflexivity|].
  cbn [map]. rewrite !filter_cons, Hpq.
  destruct (decide (Q x)); cbn [map]; now rewrite IH.
Qed.

(** Labelling a score with its benchmark changes neither its layers nor
    their ['center'] values. *)
Lemma expand_dims_benchmark (b : string) (s : Score) :
  layer_centers (expand_dims "benchmark" b s) = layer_centers s /\
  (layerwise s -> layerwise (expand_dims "benchmark" b s)).
Proof.
  set (tag := fun c => Cell (("benchmark", b) :: cell_coords c) (cell_value c)).
  assert (center_cells (score_cells (expand_dims "benchmark" b s))
          = map tag (center_cells (score_cells s))) as Hcc.
  { unfold center_cells, expand_dims. cbn [score_cells].
    now apply filter_map_ext. }
  assert (layer_centers (expand_dims "benchmark" b s) = layer_centers s) as Hlc.
  { unfold layer_centers. rewrite Hcc, omap_map. reflexivity. }
  split; [exact Hlc|].
  intros (Hne & Hall & Hnd & Hcoord). unfold layerwise.
  rewrite Hlc, Hcc. repeat split.
  - destruct (center_cells (score_cells s)); [congruence | discriminate].
  - apply Forall_forall. intros c (c0 & -> & Hc0)%list_elem_of_fmap.
    rewrite Forall_forall in Hall. exact (Hall c0 Hc0).
  - exact Hnd.
  - rewrite <- Hcoord. unfold coord_values, expand_dims. cbn [score_cells].
    now rewrite omap_map.
Qed.

(** C2 (as amended).  [BrainScore.__call__] scores the model on the two
    benchmarks of its list, 'dicarlo.Majaj2015.V4' and
    'dicarlo.Majaj2015.IT'.  When both scores are layer-wise, it returns a
    score with the single entry 'center', whose value is the mean of two
    values: for each benchmark, the ['center'] value of a layer that no
    other layer of that benchmark exceeds. *)
Theorem brain_score_mean_of_best n a (sV4 sIT : Score) :
  score_model (S n) (nested_args a "dicarlo.Majaj2015.V4") = Some (Ok sV4) ->
  score_model (S n) (nested_args a "dicarlo.Majaj2015.IT") = Some (Ok sIT) ->
  layerwise sV4 -> layerwise sIT ->
  _benchmark_identifiers BrainScore_init
    = ["dicarlo.Majaj2015.V4"; "dicarlo.Majaj2015.IT"] /\
  exists v cV4 cIT raw,
    BrainScore_call BrainScore_init (score_model (S n)) a
      = Some (Ok (MkScore [Cell [("aggregation", "center")] v] raw)) /\
    best_center sV4 cV4 /\ best_center sIT cIT /\
    (v == (cV4 + cIT) / 2)%Q.
Proof.
  intros HV4 HIT HwV4 HwIT. split; [reflexivity|].
  unfold BrainScore_call. cbn [_benchmark_identifiers BrainScore_init benchmark_loop].
  rewrite HV4, HIT.
  set (scores := [expand_dims "benchmark" "dicarlo.Majaj2015.V4" sV4;
                  expand_dims "benchmark" "dicarlo.Majaj2015.IT" sIT]).
  destruct (brain_score_of_spec scores) as (vs & raw & Hbs & Hbest).
  - discriminate.
  - repeat constructor; now apply expand_dims_benchmark.
  - inversion Hbest as [|s1 c1 ss1 vs1 Hb1 Hrest]; subst.
    inversion Hrest as [|s2 c2 ss2 vs2 Hb2 Hnil]; subst.
    inversion Hnil; subst.
    exists (Qsum [c1; c2] / inject_Z (Z.of_nat 2))%Q, c1, c2, raw.
    split; [now rewrite Hbs|].
    unfold best_center in *.
    rewrite (proj1 (expand_dims_benchmark _ sV4)) in Hb1.
    rewrite (proj1 (expand_dims_benchmark _ sIT)) in Hb2.
    repeat split; try tauto.
    unfold Qsum. simpl. field.
Qed.

End Properties.

(** *** Closed instances, in the reference environment *)

#[local] Existing Instance reference_env.

Example alexnet_arguments : score_model_arguments alexnet = Ok alexnet_resolved.
Proof. reflexivity. Qed.

Example alexnet_on_V4 :
  score_model 1 (nested_args alexnet_resolved "dicarlo.Majaj2015.V4")
  = Some (Ok alexnet_V4).
Proof. reflexivity. Qed.

Example alexnet_on_IT :
  score_model 1 (nested_args alexnet_resolved "dicarlo.Majaj2015.IT")
  = Some (Ok alexnet_IT).
Proof. reflexivity. Qed.

Example alexnet_brain_score :
  exists v raw,
    score_model 2 alexnet = Some (Ok (MkScore [Cell [("aggregation", "center")] v] raw))
    /\ (v == 575 # 1000)%Q.
Proof. eexists _, _. split; [reflexivity|]. reflexivity. Qed.

Lemma brain_score_mean_of_best_alexnet :
  (score_model 1 (nested_args alexnet_resolved "dicarlo.Majaj2015.V4")
     = Some (Ok alexnet_V4) /\
   score_model 1 (nested_args alexnet_resolved "dicarlo.Majaj2015.IT")
     = Some (Ok alexnet_IT) /\
   layerwise alexnet_V4 /\ layerwise alexnet_IT) /\
  (_benchmark_identifiers BrainScore_init
     = ["dicarlo.Majaj2015.V4"; "dicarlo.Majaj2015.IT"] /\
   exists v cV4 cIT raw,
     BrainScore_call BrainScore_init (score_model 1) alexnet_resolved
       = Some (Ok (MkScore [Cell [("aggregation", "center")] v] raw)) /\
     best_center alexnet_V4 cV4 /\ best_center alexnet_IT cIT /\
     (v == (cV4 + cIT) / 2)%Q).
Proof.
  assert (layerwise alexnet_V4) as HV4 by (apply (bool_decide_unpack _); vm_compute; exact I).
  assert (layerwise alexnet_IT) as HIT by (apply (bool_decide_unpack _); vm_compute; exact I).
  split; [split; [reflexivity | split; [reflexivity | split; assumption]]|].
  apply (brain_score_mean_of_best 0 alexnet_resolved alexnet_V4 alexnet_IT);
    try reflexivity; assumption.
Defined.

Lemma score_model_temporal_alexnet :
  (benchmark_identifier alexnet_V4_resolved = PStr "dicarlo.Majaj2015.V4" /\
   benchmarks_load "dicarlo.Majaj2015.V4" = Ok V4_benchmark /\
   stimulus_set_name V4_benchmark = Ok (PStr "dicarlo.hvm") /\
   model_multi_activations (PStr "alexnet") (PStr "alexnet") (PStr "imagenet")
     (Some ["conv1"; "fc7"]) (PInt 1000) (PInt 224) (PStr "dicarlo.hvm")
     = Ok alexnet_assembly) /\
  ((~ substring_of "temporal" "dicarlo.Majaj2015.V4" ->
    _score_model alexnet_V4_resolved
    = CartesianProduct ["layer"] alexnet_assembly (benchmark_call V4_benchmark)) /\
   (substring_of "temporal" "dicarlo.Majaj2015.V4" ->
    _score_model alexnet_V4_resolved
    = benchmark_call V4_benchmark alexnet_assembly)).
Proof.
  split; [repeat split; reflexivity|].
  apply (score_model_temporal alexnet_V4_resolved "dicarlo.Majaj2015.V4"
           V4_benchmark (PStr "dicarlo.hvm") alexnet_assembly); reflexivity.
Defined.

(** Both sides of C4 occur: an identifier with and one without 'temporal'. *)
Example temporal_identifiers :
  substring_of "temporal" "dicarlo.Kar2018.temporal" /\
  ~ substring_of "temporal" "dicarlo.Majaj2015.V4".
Proof.
  split.
  - now apply contains_spec.
  - intros Hsub%contains_spec. discriminate.
Qed.

(** C1, counterexample.  With [benchmark_identifier=''] the identifier is
    not [None] and is not 'brain-score', yet the call takes the
    [BrainScore] branch and returns its score, and not what [_score_model]
    gives for these arguments. *)
Lemma empty_benchmark_identifier_brain_score :
  resolved_as_stated alexnet_empty_benchmark_identifier = PStr "" /\
  score_model_arguments alexnet_empty_benchmark_identifier = Ok alexnet_resolved /\
  score_model 2 alexnet_empty_benchmark_identifier
    = BrainScore_call BrainScore_init (score_model 1) alexnet_resolved /\
  (exists bs, score_model 2 alexnet_empty_benchmark_identifier = Some (Ok bs)) /\
  _score_model alexnet_resolved = Err (Exn KeyError "brain-score").
Proof. repeat split; try reflexivity. eexists. reflexivity. Qed.

(** C3, counterexample.  [benchmark_identifier] is [None] and [benchmark]
    is not a string, but the call raises the [KeyError] of
    [model_layers[model]], and no [AssertionError]. *)
Lemma unknown_model_raises_KeyError :
  benchmark_identifier_missing unknown_model_no_identifier /\
  score_model_checks unknown_model_no_identifier = Err (Exn KeyError "resnet-18") /\
  score_model 2 unknown_model_no_identifier = Some (Err (Exn KeyError "resnet-18")).
Proof. repeat split. Qed.

(** C9, counterexample.  For a model that is not a string, with
    [model_identifier=''] and [layers] left at [None], an assertion fires:
    the one of line 26. *)
Lemma object_model_without_layers_asserts :
  isinstance_str (model object_model_empty_identifier) = false /\
  model_identifier object_model_empty_identifier = PStr "" /\
  score_model 2 object_model_empty_identifier
    = Some (Err (Exn AssertionError msg_layers)).
Proof. repeat split. Qed.

(** A model that is [None] with [model_identifier='']: the checks of the
    call pass and [None] becomes the identifier; the assertion that fires
    is the one of the call that [BrainScore.__call__] makes. *)
Example none_model_asserts_in_nested_call :
  (exists ls, score_model_checks none_model_empty_identifier
              = Ok (ls, PNone, PStr "brain-score")) /\
  score_model 2 none_model_empty_identifier
    = Some (Err (Exn AssertionError msg_model_identifier)).
Proof. split; [eexists|]; reflexivity. Qed.

End ScoringProps.

(** ** Further properties of the scoring entry points *)
Module ScoringExtra.
Import Scoring ScoringProps.

Section Properties.
Context `{Env}.

Ltac unfold_res := unfold mbind, res_bind, mret, res_ret, py_assert in *.

#[local] Set Warnings "-clear-no-such-hyp".

(** X1.  [score_model] and [BrainScore.__call__] call each other two
    levels deep and no deeper: with two levels every call returns, further
    levels change nothing, and one level falls short exactly for the calls
    that pass the checks and take the 'brain-score' branch. *)
Theorem score_model_depth n a :
  is_Some (score_model (S (S n)) a) /\
  score_model (S (S n)) a = score_model 2 a /\
  (score_model 1 a = None <->
   exists r, score_model_arguments a = Ok r /\
             py_or (benchmark_identifier a) (benchmark a) = PStr "brain-score").
Proof.
  split; [apply score_model_returns|]. split; [apply score_model_total|].
  rewrite score_model_S.
  destruct (score_model_arguments a) as [r|e] eqn:Hr.
  - pose proof (score_model_arguments_Ok _ _ Hr) as (_ & _ & _ & Hbid & _).
    rewrite eq_str_decide, Hbid.
    destruct (bool_decide_reflect
                (py_or (benchmark_identifier a) (benchmark a) = PStr "brain-score"))
      as [Hbs|Hbs].
    + split; [intros _; eauto|]. intros _. reflexivity.
    + split; [discriminate|]. intros (r' & _ & Hc). contradiction.
  - split; [discriminate|]. intros (r' & Hc & _). discriminate.
Qed.

(** X2.  Of the three assertions the first that fails gives the message:
    the one about layers whenever [layers] is [None] and the model is not a
    string; the one about [model_identifier] only when [layers] is given;
    the one about [benchmark_identifier] only when the two before pass and
    the lookup of the model's layers does not raise. *)
Theorem assertion_messages a :
  (score_model_checks a = Err (Exn AssertionError msg_layers)
   <-> layers_missing a) /\
  (score_model_checks a = Err (Exn AssertionError msg_model_identifier)
   <-> layers a <> None /\ model_identifier_missing a) /\
  (score_model_checks a = Err (Exn AssertionError msg_benchmark_identifier)
   <-> ~ layers_missing a /\ ~ unknown_model a /\ ~ model_identifier_missing a
       /\ benchmark_identifier_missing a).
Proof.
  unfold layers_missing, model_identifier_missing, benchmark_identifier_missing,
    unknown_model, score_model_checks, model_layers_getitem.
  unfold_res.
  destruct a as [m mi ls w p i b bi]; simpl.
  destruct ls as [ls|]; destruct m as [|s| |]; simpl;
    try destruct (model_layers !! s) eqn:Hs; simpl;
    destruct mi; simpl; destruct bi; simpl; destruct b; simpl.
  all: (split; [|split]);
    (split;
     [ intros Hx; first [ vm_compute in Hx; discriminate | naive_solver ]
     | intros Hx; first [ reflexivity | exfalso; naive_solver ] ]).
Qed.

(** X3.  The loop of [BrainScore.__call__] stops at the first benchmark
    whose scoring raises: when the benchmarks before it are scored and it
    raises [e], the call raises [e], whatever the benchmarks after it
    would give. *)
Theorem first_failure_propagates (self : BrainScore) n a
    (pre post : list string) (b : string) (e : exn) :
  _benchmark_identifiers self = pre ++ b :: post ->
  Forall (fun b' => exists s, score_model (S n) (nested_args a b') = Some (Ok s)) pre ->
  score_model (S n) (nested_args a b) = Some (Err e) ->
  BrainScore_call self (score_model (S n)) a = Some (Err e).
Proof.
  intros Hbs Hpre Hb. unfold BrainScore_call. rewrite Hbs. clear Hbs.
  assert (benchmark_loop (score_model (S n)) a (pre ++ b :: post) = Some (Err e)) as ->;
    [|reflexivity].
  induction Hpre as [|b' pre [s Hs] _ IH].
  - cbn [app benchmark_loop]. now rewrite Hb.
  - cbn [app benchmark_loop]. now rewrite Hs, IH.
Qed.










(** [argmax_from] returns the first index of a greatest value: the values
    before it are smaller. *)
Lemma argmax_from_first (vs pre : list Q) (best : Q) (best_i : nat) :
  pre !! best_i = Some best ->
  (forall v : Q, v ∈ pre -> (v <= best)%Q) ->
  (forall (j : nat) (v : Q), j < best_i -> pre !! j = Some v -> (v < best)%Q) ->
  exists w, (pre ++ vs) !! argmax_from best best_i (length pre) vs = Some w /\
            forall (j : nat) (v : Q),
              j < argmax_from best best_i (length pre) vs ->
              (pre ++ vs) !! j = Some v -> (v < w)%Q.
Proof.
  revert pre best best_i.
  induction vs as [|x vs IH]; intros pre best best_i Hbest Hmax Hfirst.
  - exists best. rewrite app_nil_r. simpl. auto.
  - cbn [argmax_from].
    replace (pre ++ x :: vs) with ((pre ++ [x]) ++ vs) by now rewrite <- app_assoc.
    replace (S (length pre)) with (length (pre ++ [x]))
      by (rewrite length_app; simpl; lia).
    assert (best_i < length pre) as Hlt by (eapply lookup_lt_Some, Hbest).
    destruct (Qle_bool x best) eqn:Hle.
    + apply Qle_bool_iff in Hle. apply IH.
      * apply lookup_app_l_Some. exact Hbest.
      * intros v [Hv | Hv]%elem_of_app; [now apply Hmax|].
        apply list_elem_of_singleton in Hv. now subst.
      * intros j v Hj Hv. rewrite lookup_app_l in Hv by lia. eauto.
    + assert (best < x)%Q as Hbx.
      { apply Qnot_le_lt. intros Hc. apply Qle_bool_iff in Hc. congruence. }
      apply IH.
      * rewrite lookup_app_r by lia. now rewrite Nat.sub_diag.
      * intros v [Hv | Hv]%elem_of_app.
        -- apply Qle_trans with best; [now apply Hmax | now apply Qlt_le_weak].
        -- apply list_elem_of_singleton in Hv. subst. apply Qle_refl.
      * intros j v Hj Hv. rewrite lookup_app_l in Hv by exact Hj.
        apply Qle_lt_trans with best; [|exact Hbx].
        apply Hmax. eapply list_elem_of_lookup_2, Hv.
Qed.

Lemma argmax_first (cs : list cell) (i : nat) :
  argmax cs = Ok i ->
  exists c, cs !! i = Some c /\
    forall (j : nat) (c' : cell),
      j < i -> cs !! j = Some c' -> (cell_value c' < cell_value c)%Q.
Proof.
  destruct cs as [|c0 cs]; [discriminate|].
  unfold argmax. cbn [map]. intros Hi. injection Hi as <-.
  destruct (argmax_from_first (map cell_value cs) [cell_value c0] (cell_value c0) 0)
    as (w & Hw & Hfirst).
  - reflexivity.
  - intros v Hv. apply list_elem_of_singleton in Hv. subst. apply Qle_refl.
  - intros j v Hj. lia.
  - change ([cell_value c0] ++ map cell_value cs)
      with (map cell_value (c0 :: cs)) in Hw, Hfirst.
    change (length [cell_value c0]) with 1 in Hw, Hfirst.
    rewrite list_lookup_fmap in Hw.
    destruct ((c0 :: cs) !! argmax_from (cell_value c0) 0 1 (map cell_value cs))
      as [c|] eqn:Hc; [|discriminate].
    simpl in Hw. injection Hw as <-. exists c. split; [reflexivity|].
    intros j c' Hj Hc'. apply (Hfirst j (cell_value c') Hj).
    rewrite list_lookup_fmap, Hc'. reflexivity.
Qed.

(** X7.  [best_score] keeps a layer whose ['center'] value is the
    greatest, and when several layers share that value, the first of them
    in the order of the layer coordinate: no layer has a greater value
    than the one it keeps, every layer before it has a smaller value, and
    what it returns are the entries of that layer. *)
Theorem best_score_first_layer (s : Score) :
  layerwise s ->
  exists (i : nat) (l : string) (v : Q) (s' : Score),
    layer_centers s !! i = Some (l, v) /\
    (forall (l' : string) (v' : Q), (l', v') ∈ layer_centers s -> (v' <= v)%Q) /\
    (forall (j : nat) (l' : string) (v' : Q),
       j < i -> layer_centers s !! j = Some (l', v') -> (v' < v)%Q) /\
    best_score s = Ok s' /\
    score_cells s' =
      map (strip "layer")
          (map (strip "layer") (filter (at_label "layer" l) (score_cells s))).
Proof.
  intros (Hne & Hall & Hnd & Hcoord).
  unfold best_score. unfold_res.
  rewrite sel_Ok by exact Hne. fold (center_cells (score_cells s)).
  rewrite argmax_over_layer by assumption.
  rewrite argmax_strip.
  destruct (argmax_spec _ Hne) as (i & c & Hi & Hc & Hmax).
  destruct (argmax_first _ _ Hi) as (c1 & Hc1 & Hfirst).
  assert (c1 = c) as -> by congruence. rewrite Hi.
  destruct (layer_centers_lookup _ _ _ Hall Hc) as (l & Hl & Hlc).
  exists i, l, (cell_value c).
  rewrite Hcoord.
  change (map fst (layer_centers s)) with (fst <$> layer_centers s).
  rewrite list_lookup_fmap. unfold layer_centers at 4. rewrite Hlc. simpl.
  assert (c ∈ filter (at_label "layer" l) (score_cells s)) as Hsel.
  { apply list_elem_of_filter. split.
    - now apply Is_true_true, at_label_true.
    - apply list_elem_of_lookup_2 in Hc. now apply list_elem_of_filter in Hc as [_ ?]. }
  rewrite sel_Ok by (intros Hnil; rewrite Hnil in Hsel; now apply elem_of_nil in Hsel).
  eexists. split; [exact Hlc|].
  split; [intros l' v' (c' & Hc' & _ & <-)%layer_centers_elem; now apply Hmax|].
  split; [|split; reflexivity].
  intros j l' v' Hj Hj'. unfold layer_centers in Hj'.
  assert (j < length (center_cells (score_cells s))) as Hjlen
    by (apply lookup_lt_Some in Hc; lia).
  destruct (lookup_lt_is_Some_2 _ _ Hjlen) as [cj Hcj].
  destruct (layer_centers_lookup _ _ _ Hall Hcj) as (lj & _ & Hlcj).
  rewrite Hlcj in Hj'. injection Hj' as _ <-.
  exact (Hfirst j cj Hj Hcj).
Qed.

Lemma res_map_Err {A B} (f : A -> res B) (l : list A) (x : A) :
  x ∈ l -> (exists e, f x = Err e) -> exists e, res_map f l = Err e.
Proof.
  induction l as [|y l IH]; intros Hx Hfx; [now apply elem_of_nil in Hx|].
  cbn [res_map]. unfold_res.
  destruct (f y) as [fy|ey] eqn:Hy; [|eauto].
  apply elem_of_cons in Hx as [->|Hx].
  - destruct Hfx as [e He]. congruence.
  - destruct (IH Hx Hfx) as [e ->]. eauto.
Qed.

(** X8.  The Brain-Score needs layers in every score: when one of the
    benchmark scores has no entry that belongs to a layer (the score of a
    benchmark applied without the cartesian product, say), lines 91-104
    raise and return no score. *)
Theorem brain_score_needs_layers (benchmark_scores : list Score) (s : Score) :
  s ∈ benchmark_scores ->
  Forall (fun c => label_of "layer" (cell_coords c) = None) (score_cells s) ->
  exists e, brain_score_of benchmark_scores = Err e.
Proof.
  intros Hs Hnone.
  assert (exists e, best_score s = Err e) as Hbest.
  { unfold best_score. unfold_res.
    destruct (sel "aggregation" "center" (score_cells s)) as [centers|]; [|eauto].
    destruct (argmax_over "layer" centers) as [i|]; [|eauto].
    assert (coord_values "layer" (score_cells s) = []) as ->; [|simpl; eauto].
    unfold coord_values.
    assert (omap (fun c => label_of "layer" (cell_coords c)) (score_cells s) = [])
      as ->; [|reflexivity].
    induction Hnone as [|c cs Hc _ IH]; [reflexivity|].
    cbn. rewrite Hc. exact IH. }
  destruct (res_map_Err best_score _ _ Hs Hbest) as [e He].
  exists e. unfold brain_score_of. unfold_res. now rewrite He.
Qed.

End Properties.
(** *** Closed instances, in the reference environment *)

#[local] Existing Instance reference_env.

Ltac layerwise_by_computation :=
  apply (bool_decide_unpack _); vm_compute; exact I.

Lemma first_failure_propagates_no_layers :
  (_benchmark_identifiers BrainScore_init
     = [] ++ "dicarlo.Majaj2015.V4" :: ["dicarlo.Majaj2015.IT"] /\
   score_model 1 (nested_args alexnet_no_layers "dicarlo.Majaj2015.V4")
     = Some (Err (Exn ValueError "no scores to merge"))) /\
  BrainScore_call BrainScore_init (score_model 1) alexnet_no_layers
    = Some (Err (Exn ValueError "no scores to merge")).
Proof.
  split; [split; reflexivity|].
  apply (first_failure_propagates BrainScore_init 0 alexnet_no_layers []
           ["dicarlo.Majaj2015.IT"] "dicarlo.Majaj2015.V4");
    [reflexivity | constructor | reflexivity].
Defined.




(** The best layers of the three scores are conv1, fc7 and conv1: the
    value is the mean of 0.6, 0.55 and 0.5; taking fc7 throughout gives
    the mean of 0.5, 0.55 and 0.5. *)
Example brain_score_of_three_scores :
  exists v raw,
    brain_score_of three_scores
      = Ok (MkScore [Cell [("aggregation", "center")] v] raw) /\
    (v == 55 # 100)%Q /\
    (Qsum [5 # 10; 55 # 100; 5 # 10] / 3 < v)%Q.
Proof. eexists _, _. split; [reflexivity|]. split; reflexivity. Qed.



Lemma best_score_first_layer_tied :
  layerwise late_tied_layers /\
  exists (i : nat) (l : string) (v : Q) (s' : Score),
    layer_centers late_tied_layers !! i = Some (l, v) /\
    (forall (l' : string) (v' : Q),
       (l', v') ∈ layer_centers late_tied_layers -> (v' <= v)%Q) /\
    (forall (j : nat) (l' : string) (v' : Q),
       j < i -> layer_centers late_tied_layers !! j = Some (l', v') -> (v' < v)%Q) /\
    best_score late_tied_layers = Ok s' /\
    score_cells s' =
      map (strip "layer")
          (map (strip "layer")
               (filter (at_label "layer" l) (score_cells late_tied_layers))).
Proof.
  assert (layerwise late_tied_layers) as Htied by layerwise_by_computation.
  split; [exact Htied|]. apply (best_score_first_layer late_tied_layers Htied).
Defined.

(** Of conv1 at 0.3 and conv3 and fc7 at 0.5, conv3 is the layer kept; of
    two tied layers the first, conv1, is. *)
Example best_score_late_tied_layers :
  best_score late_tied_layers =
  Ok (MkScore [Cell [("aggregation", "center")] (5 # 10);
               Cell [("aggregation", "error")] (1 # 100)] None) /\
  layer_centers late_tied_layers
  = [("conv1", 3 # 10); ("conv3", 5 # 10); ("fc7", 5 # 10)]%Q.
Proof. split; reflexivity. Qed.

Example best_score_tied_layers :
  best_score tied_layers =
  Ok (MkScore [Cell [("aggregation", "center")] (5 # 10);
               Cell [("aggregation", "error")] (1 # 100)] None).
Proof. reflexivity. Qed.

Lemma brain_score_needs_layers_aggregate :
  (aggregate (6 # 10) (1 # 100) ∈ [alexnet_V4; aggregate (6 # 10) (1 # 100)] /\
   Forall (fun c => label_of "layer" (cell_coords c) = None)
          (score_cells (aggregate (6 # 10) (1 # 100)))) /\
  exists e, brain_score_of [alexnet_V4; aggregate (6 # 10) (1 # 100)] = Err e.
Proof.
  assert (aggregate (6 # 10) (1 # 100) ∈ [alexnet_V4; aggregate (6 # 10) (1 # 100)])
    as Hin by apply list_elem_of_further, list_elem_of_here.
  assert (Forall (fun c => label_of "layer" (cell_coords c) = None)
                 (score_cells (aggregate (6 # 10) (1 # 100)))) as Hnone
    by (repeat constructor).
  split; [split; assumption|].
  apply (brain_score_needs_layers _ _ Hin Hnone).
Defined.

End ScoringExtra.

(** ** Properties of the ceiling plot *)
Module CeilingProps.
Import Ceiling.

Section Properties.
Context `{Env}.

Ltac unfold_res := unfold mbind, res_bind, mret, res_ret in *.

Lemma plot_regions_app sizes ceilings (done rest : list (nat * string)) :
  plot_regions sizes ceilings (done ++ rest) =
  (before ← plot_regions sizes ceilings done;
   later ← plot_regions sizes ceilings rest;
   Ok (before ++ later)).
Proof.
  induction done as [|[ax region] done IH]; cbn [plot_regions app]; unfold_res.
  - destruct (plot_regions sizes ceilings rest); reflexivity.
  - destruct (plot_region sizes ceilings ax region) as [drawn|e]; [|reflexivity].
    unfold_res. rewrite IH.
    destruct (plot_regions sizes ceilings done) as [before|e]; [|reflexivity].
    destruct (plot_regions sizes ceilings rest) as [later|e]; [|reflexivity].
    now rewrite app_assoc.
Qed.

(** The traces agree with [plot]: a call returns what its trace has
    drawn, or raises the exception that has ended the trace. *)
Lemma plot_region_trace_result sizes ceilings ax region :
  plot_region sizes ceilings ax region
  = result_of (plot_region_trace sizes ceilings ax region).
Proof.
  unfold plot_region, plot_region_trace. unfold_res.
  destruct (values_at region "center" ceilings) as [y|]; [|reflexivity].
  destruct (values_at region "error" ceilings) as [err|]; [|reflexivity].
  destruct (try_except _ _ _); reflexivity.
Qed.

Lemma plot_regions_trace_result sizes ceilings todo :
  plot_regions sizes ceilings todo
  = result_of (plot_regions_trace sizes ceilings todo).
Proof.
  induction todo as [|[ax region] todo IH]; [reflexivity|].
  cbn [plot_regions plot_regions_trace]. unfold_res.
  rewrite plot_region_trace_result, IH.
  destruct (plot_region_trace sizes ceilings ax region) as [drawn [e|]];
    [reflexivity|].
  destruct (plot_regions_trace sizes ceilings todo) as [later [e|]]; reflexivity.
Qed.

Lemma plot_trace_result sizes size_label data metric ceiling :
  plot sizes size_label data metric ceiling
  = result_of (plot_trace sizes size_label data metric ceiling).
Proof.
  unfold plot, plot_trace. unfold_res.
  destruct (res_map _ sizes) as [[|c0 cs]|]; [reflexivity| |reflexivity].
  rewrite plot_regions_trace_result.
  destruct (plot_regions_trace _ _ _) as [drawn [e|]]; reflexivity.
Qed.

Lemma plot_regions_trace_app sizes ceilings (done rest : list (nat * string)) :
  plot_regions_trace sizes ceilings (done ++ rest) =
  match plot_regions_trace sizes ceilings done with
  | (before, Some e) => (before, Some e)
  | (before, None) =>
      let '(later, raised) := plot_regions_trace sizes ceilings rest in
      (before ++ later, raised)
  end.
Proof.
  induction done as [|[ax region] done IH]; cbn [plot_regions_trace app].
  - now destruct (plot_regions_trace sizes ceilings rest).
  - destruct (plot_region_trace sizes ceilings ax region) as [drawn [e|]];
      [reflexivity|].
    rewrite IH.
    destruct (plot_regions_trace sizes ceilings done) as [before [e|]];
      [reflexivity|].
    destruct (plot_regions_trace sizes ceilings rest) as [later raised].
    now rewrite app_assoc.
Qed.

Lemma plot_regions_trace_Ok sizes ceilings todo drawn :
  plot_regions sizes ceilings todo = Ok drawn ->
  plot_regions_trace sizes ceilings todo = (drawn, None).
Proof.
  rewrite plot_regions_trace_result.
  destruct (plot_regions_trace sizes ceilings todo) as [evs [e|]];
    [discriminate|].
  intros Hd. now injection Hd as <-.
Qed.

(** The classes of the hierarchy that the [except] clause of line 59
    catches: [RuntimeError], its subclasses, and [OptimizeWarning]. *)
Lemma except_clause_classes (c : exn_class) :
  existsb (issubclass c) [RuntimeError; OptimizeWarning] = true <->
  c ∈ [RuntimeError; NotImplementedError; RecursionError; OptimizeWarning].
Proof.
  destruct c; vm_compute; split; intros Hc; try discriminate; try reflexivity;
    try (repeat (first [apply list_elem_of_here | apply list_elem_of_further]); fail);
    exfalso; repeat (apply elem_of_cons in Hc as [Hc|Hc]; [discriminate|]);
    now apply elem_of_nil in Hc.
Qed.

(** C5.  Take a call of [plot] whose ceilings are computed and whose loop
    has reached a region, where the body of the [try] raises [e].  If [e]
    is a [RuntimeError] or an [OptimizeWarning], what is drawn for the
    region is its title, the scatter of the ceilings against the sizes and
    their error bars, these three calls and no other, and [plot] goes on
    with the regions that follow; if it is neither, [plot] raises [e],
    with the same three calls the last ones made on the subplots. *)
Theorem curve_fit_exceptions (sizes : list Q) (size_label data metric ceiling : string)
    (ceilings : ceilings_array) (done rest : list (nat * string))
    (before : list event) (ax : nat) (region : string) (y err : list Q) (e : exn) :
  res_map (fun size =>
             score ← compute_ceilings_at data metric ceiling size_label size;
             Ok (size, score)) sizes = Ok ceilings ->
  ceilings <> [] ->
  py_zip [0; 1]%nat
    (np_unique (flat_map (fun '(_, score) =>
                            coord_values "region" (score_cells score)) ceilings))
    = done ++ (ax, region) :: rest ->
  plot_regions sizes ceilings done = Ok before ->
  values_at region "center" ceilings = Ok y ->
  values_at region "error" ceilings = Ok err ->
  fit_and_draw ax sizes y = Err e ->
  (issubclass (exn_cls e) RuntimeError = true \/
   issubclass (exn_cls e) OptimizeWarning = true ->
   plot_region sizes ceilings ax region
     = Ok [Event ax (set_title region);
           Event ax (scatter sizes y);
           Event ax (errorbar sizes y err)] /\
   plot sizes size_label data metric ceiling =
     (later ← plot_regions sizes ceilings rest;
      Ok ((before ++ [Event ax (set_title region);
                      Event ax (scatter sizes y);
                      Event ax (errorbar sizes y err)] ++ later)
          ++ [Event 2 (set_xlabel size_label);
              Event 2 (set_ylabel "goodness-of-fit")]))) /\
  (issubclass (exn_cls e) RuntimeError = false /\
   issubclass (exn_cls e) OptimizeWarning = false ->
   plot_region sizes ceilings ax region = Err e /\
   plot sizes size_label data metric ceiling = Err e /\
   plot_trace sizes size_label data metric ceiling
     = (before ++ [Event ax (set_title region);
                   Event ax (scatter sizes y);
                   Event ax (errorbar sizes y err)], Some e)).
Proof.
  intros Hceil Hne Hzip Hdone Hy Herr Hfit.
  assert (forall r, plot_region sizes ceilings ax region = r ->
            plot sizes size_label data metric ceiling =
            (drawn ← r; later ← plot_regions sizes ceilings rest;
             Ok ((before ++ drawn ++ later)
                 ++ [Event 2 (set_xlabel size_label);
                     Event 2 (set_ylabel "goodness-of-fit")]))) as Hplot.
  { intros r Hr. unfold plot. unfold_res. rewrite Hceil.
    destruct ceilings as [|c0 cs]; [congruence|].
    rewrite Hzip, plot_regions_app. unfold_res. rewrite Hdone.
    cbn [plot_regions]. unfold_res. rewrite Hr.
    destruct r as [drawn|e']; [|reflexivity].
    destruct (plot_regions sizes (c0 :: cs) rest); reflexivity. }
  split.
  - intros Hcaught. apply orb_true_iff in Hcaught.
    assert (plot_region sizes ceilings ax region
            = Ok [Event ax (set_title region);
                  Event ax (scatter sizes y);
                  Event ax (errorbar sizes y err)]) as Hregion.
    { unfold plot_region. unfold_res. rewrite Hy, Herr, Hfit.
      unfold try_except. cbn [existsb]. rewrite orb_false_r, Hcaught.
      reflexivity. }
    split; [exact Hregion|]. now rewrite (Hplot _ Hregion).
  - intros [Hrt How].
    assert (plot_region_trace sizes ceilings ax region
            = ([Event ax (set_title region);
                Event ax (scatter sizes y);
                Event ax (errorbar sizes y err)], Some e)) as Htrace.
    { unfold plot_region_trace. rewrite Hy, Herr, Hfit.
      unfold try_except. cbn [existsb]. rewrite Hrt, How. reflexivity. }
    assert (plot_region sizes ceilings ax region = Err e) as Hregion
      by (now rewrite plot_region_trace_result, Htrace).
    split; [exact Hregion|]. split; [now rewrite (Hplot _ Hregion)|].
    unfold plot_trace. rewrite Hceil.
    destruct ceilings as [|c0 cs]; [congruence|].
    rewrite Hzip, plot_regions_trace_app, (plot_regions_trace_Ok _ _ _ _ Hdone).
    cbn [plot_regions_trace]. rewrite Htrace. reflexivity.
Qed.

End Properties.

(** *** Closed instances, in the reference environment *)

Lemma curve_fit_exceptions_not_converged :
  let E := reference_env not_converged in
  (res_map (fun size =>
              score ← @compute_ceilings_at E "dicarlo.Majaj2015" "pls_fit"
                        "splitrep" "train_size" size;
              Ok (size, score)) two_sizes = Ok two_ceilings /\
   two_ceilings <> [] /\
   py_zip [0; 1]%nat
     (@np_unique E (flat_map (fun '(_, score) =>
                                coord_values "region" (score_cells score))
                             two_ceilings))
     = [] ++ (0%nat, "IT") :: [(1%nat, "V4")] /\
   @plot_regions E two_sizes two_ceilings [] = Ok [] /\
   @values_at "IT" "center" two_ceilings = Ok [8 # 10; 8 # 10]%Q /\
   @values_at "IT" "error" two_ceilings = Ok [1 # 100; 1 # 100]%Q /\
   @fit_and_draw E 0 two_sizes [8 # 10; 8 # 10]%Q = Err not_converged) /\
  ((issubclass (exn_cls not_converged) RuntimeError = true \/
    issubclass (exn_cls not_converged) OptimizeWarning = true ->
    @plot_region E two_sizes two_ceilings 0 "IT"
      = Ok [Event 0 (set_title "IT");
            Event 0 (scatter two_sizes [8 # 10; 8 # 10]%Q);
            Event 0 (errorbar two_sizes [8 # 10; 8 # 10]%Q [1 # 100; 1 # 100]%Q)] /\
    @plot E two_sizes "train_size" "dicarlo.Majaj2015" "pls_fit" "splitrep" =
      (later ← @plot_regions E two_sizes two_ceilings [(1%nat, "V4")];
       Ok (([] ++ [Event 0 (set_title "IT");
                   Event 0 (scatter two_sizes [8 # 10; 8 # 10]%Q);
                   Event 0 (errorbar two_sizes [8 # 10; 8 # 10]%Q
                                     [1 # 100; 1 # 100]%Q)] ++ later)
           ++ [Event 2 (set_xlabel "train_size");
               Event 2 (set_ylabel "goodness-of-fit")]))) /\
   (issubclass (exn_cls not_converged) RuntimeError = false /\
    issubclass (exn_cls not_converged) OptimizeWarning = false ->
    @plot_region E two_sizes two_ceilings 0 "IT" = Err not_converged /\
    @plot E two_sizes "train_size" "dicarlo.Majaj2015" "pls_fit" "splitrep"
      = Err not_converged /\
    @plot_trace E two_sizes "train_size" "dicarlo.Majaj2015" "pls_fit" "splitrep"
      = ([] ++ [Event 0 (set_title "IT");
                Event 0 (scatter two_sizes [8 # 10; 8 # 10]%Q);
                Event 0 (errorbar two_sizes [8 # 10; 8 # 10]%Q [1 # 100; 1 # 100]%Q)],
         Some not_converged))).
Proof.
  intros E. split.
  - repeat split; try reflexivity. discriminate.
  - apply (@curve_fit_exceptions E two_sizes "train_size" "dicarlo.Majaj2015"
             "pls_fit" "splitrep" two_ceilings [] [(1%nat, "V4")] [] 0%nat "IT"
             [8 # 10; 8 # 10]%Q [1 # 100; 1 # 100]%Q not_converged);
      try reflexivity. discriminate.
Defined.

(** The two outcomes, run: a fit that does not converge leaves both
    regions with their points; a [ValueError] of the fit ends [plot]. *)
Example plot_not_converged :
  @plot (reference_env not_converged) two_sizes "train_size" "dicarlo.Majaj2015"
        "pls_fit" "splitrep"
  = Ok [Event 0 (set_title "IT");
        Event 0 (scatter two_sizes [8 # 10; 8 # 10]);
        Event 0 (errorbar two_sizes [8 # 10; 8 # 10] [1 # 100; 1 # 100]);
        Event 1 (set_title "V4");
        Event 1 (scatter two_sizes [9 # 10; 9 # 10]);
        Event 1 (errorbar two_sizes [9 # 10; 9 # 10] [2 # 100; 2 # 100]);
        Event 2 (set_xlabel "train_size");
        Event 2 (set_ylabel "goodness-of-fit")]%Q.
Proof. reflexivity. Qed.

Example plot_bad_input :
  @plot (reference_env bad_input) two_sizes "train_size" "dicarlo.Majaj2015"
        "pls_fit" "splitrep"
  = Err bad_input /\
  @plot_trace (reference_env bad_input) two_sizes "train_size" "dicarlo.Majaj2015"
              "pls_fit" "splitrep"
  = ([Event 0 (set_title "IT");
      Event 0 (scatter two_sizes [8 # 10; 8 # 10]);
      Event 0 (errorbar two_sizes [8 # 10; 8 # 10] [1 # 100; 1 # 100])]%Q,
     Some bad_input).
Proof. split; reflexivity. Qed.

End CeilingProps.

(** ** Further properties of the ceiling plot *)
Module CeilingExtra.
Import Ceiling CeilingProps.

Section Properties.
Context `{Env}.

Ltac unfold_res := unfold mbind, res_bind, mret, res_ret in *.

Lemma Qlt_bool_lt (a b : Q) : Qlt_bool a b = true -> (a < b)%Q.
Proof.
  unfold Qlt_bool. rewrite negb_true_iff. intros Hle.
  apply Qnot_le_lt. intros Hc. apply Qle_bool_iff in Hc. congruence.
Qed.

Lemma titles_app (l k : list event) : titles (l ++ k) = titles l ++ titles k.
Proof. unfold titles. apply omap_app. Qed.

Lemma fit_and_draw_titles ax x y drawn :
  fit_and_draw ax x y = Ok drawn -> titles drawn = [].
Proof.
  unfold fit_and_draw. unfold_res.
  destruct (curve_fit sigmoid x y) as [[[a b] c]|]; [|discriminate].
  destruct (pearsonr _ _) as [[r p]|]; [|discriminate].
  destruct (Qlt_bool p (5 # 100)).
  - destruct (py_min x); [|discriminate]. destruct (py_max x); [|discriminate].
    destruct (np_arange _ _ _); [|discriminate].
    intros Hd. now injection Hd as <-.
  - intros Hd. now injection Hd as <-.
Qed.

Lemma plot_region_titles sizes ceilings ax region drawn :
  plot_region sizes ceilings ax region = Ok drawn -> titles drawn = [region].
Proof.
  unfold plot_region. unfold_res.
  destruct (values_at region "center" ceilings) as [y|]; [|discriminate].
  destruct (values_at region "error" ceilings) as [err|]; [|discriminate].
  unfold try_except.
  destruct (fit_and_draw ax sizes y) as [fitted|e] eqn:Hfit.
  - intros Hd. injection Hd as <-.
    change (titles (region_points ax region sizes y err ++ fitted) = [region]).
    rewrite titles_app. now rewrite (fit_and_draw_titles _ _ _ _ Hfit).
  - destruct (existsb _ _); [|discriminate].
    intros Hd. now injection Hd as <-.
Qed.

Lemma plot_regions_titles sizes ceilings todo drawn :
  plot_regions sizes ceilings todo = Ok drawn -> titles drawn = map snd todo.
Proof.
  revert drawn. induction todo as [|[ax region] todo IH]; intros drawn.
  - intros Hd. now injection Hd as <-.
  - cbn [plot_regions]. unfold_res.
    destruct (plot_region sizes ceilings ax region) as [first|] eqn:Hfirst;
      [|discriminate].
    destruct (plot_regions sizes ceilings todo) as [later|]; [|discriminate].
    intros Hd. injection Hd as <-. rewrite titles_app.
    rewrite (plot_region_titles _ _ _ _ _ Hfirst), (IH later eq_refl). reflexivity.
Qed.

Lemma py_zip_two_axes (regions : list string) :
  map snd (py_zip [0; 1] regions) = take 2 regions.
Proof. destruct regions as [|r1 [|r2 regions]]; reflexivity. Qed.

(** X9.  [plot] draws two regions at most: the figure has two subplots,
    and of the regions of the ceilings only the first two, in the order
    [np.unique] gives them, get a title and points; a third region is
    left out without a message. *)
Theorem plot_two_regions (sizes : list Q) (size_label data metric ceiling : string)
    (drawn : list event) :
  plot sizes size_label data metric ceiling = Ok drawn ->
  exists ceilings,
    res_map (fun size =>
               score ← compute_ceilings_at data metric ceiling size_label size;
               Ok (size, score)) sizes = Ok ceilings /\
    titles drawn =
      take 2 (np_unique (flat_map (fun '(_, score) =>
                                     coord_values "region" (score_cells score))
                                  ceilings)).
Proof.
  unfold plot. unfold_res.
  destruct (res_map _ sizes) as [ceilings|]; [|discriminate].
  destruct ceilings as [|c0 cs]; [discriminate|].
  destruct (plot_regions _ _ _) as [regions_drawn|] eqn:Hregions; [|discriminate].
  intros Hd. injection Hd as <-. eexists. split; [reflexivity|].
  rewrite titles_app, (plot_regions_titles _ _ _ _ Hregions), py_zip_two_axes.
  apply app_nil_r.
Qed.

(** X10.  The size label is the name of a keyword of [compute_ceilings]:
    with at least one size and a label other than 'train_size' and
    'test_size', [plot] raises a [TypeError] before anything is drawn. *)
Theorem plot_unknown_size_label (size : Q) (sizes : list Q)
    (size_label data metric ceiling : string) :
  size_label <> "train_size" ->
  size_label <> "test_size" ->
  exists message,
    plot (size :: sizes) size_label data metric ceiling
    = Err (Exn TypeError message).
Proof.
  intros Htrain Htest. unfold plot. cbn [res_map]. unfold_res.
  unfold compute_ceilings_at.
  destruct (String.eqb_spec size_label "train_size"); [contradiction|].
  destruct (String.eqb_spec size_label "test_size"); [contradiction|].
  eexists. reflexivity.
Qed.

(** X11.  What [plot] draws for a region is its title, the scatter of
    the ceilings against the sizes and their error bars, these three calls
    in this order, followed by one fitted curve or none; a curve is there
    only if the fit returned parameters and the correlation between the
    ceilings and the fitted values has a p-value below 0.05, and it is
    then drawn over [np.arange] from the smallest to the greatest size. *)
Theorem fitted_curve_only_when_significant (sizes : list Q)
    (ceilings : ceilings_array) (ax : nat) (region : string) (drawn : list event) :
  plot_region sizes ceilings ax region = Ok drawn ->
  exists y err fitted,
    values_at region "center" ceilings = Ok y /\
    values_at region "error" ceilings = Ok err /\
    drawn = [Event ax (set_title region);
             Event ax (scatter sizes y);
             Event ax (errorbar sizes y err)] ++ fitted /\
    (fitted = [] \/
     exists a b c r p lo hi x_fitplot,
       curve_fit sigmoid sizes y = Ok (a, b, c) /\
       pearsonr y (map (fun v => sigmoid v a b c) sizes) = Ok (r, p) /\
       (p < 5 # 100)%Q /\
       py_min sizes = Ok lo /\ py_max sizes = Ok hi /\
       np_arange lo hi ((hi - lo) / 100) = Ok x_fitplot /\
       fitted = [Event ax (plot_line x_fitplot
                             (map (fun v => sigmoid v a b c) x_fitplot))]).
Proof.
  unfold plot_region. unfold_res.
  destruct (values_at region "center" ceilings) as [y|]; [|discriminate].
  destruct (values_at region "error" ceilings) as [err|]; [|discriminate].
  unfold try_except, fit_and_draw. unfold_res.
  destruct (curve_fit sigmoid sizes y) as [[[a b] c]|e] eqn:Hc.
  - destruct (pearsonr _ _) as [[r p]|e] eqn:Hr.
    + destruct (Qlt_bool p (5 # 100)) eqn:Hp.
      * destruct (py_min sizes) as [lo|e] eqn:Hlo.
        -- destruct (py_max sizes) as [hi|e] eqn:Hhi.
           ++ destruct (np_arange _ _ _) as [x_fitplot|e] eqn:Hx.
              ** intros Hd. injection Hd as <-.
                 exists y, err. eexists.
                 split; [reflexivity|]. split; [reflexivity|].
                 split; [reflexivity|]. right.
                 exists a, b, c, r, p, lo, hi, x_fitplot.
                 split; [exact Hc|]. split; [exact Hr|].
                 split; [apply Qlt_bool_lt; exact Hp|].
                 split; [reflexivity|]. split; [reflexivity|].
                 split; [exact Hx|reflexivity].
              ** destruct (existsb _ _); [|discriminate].
                 intros Hd. injection Hd as <-. exists y, err, []. auto.
           ++ destruct (existsb _ _); [|discriminate].
              intros Hd. injection Hd as <-. exists y, err, []. auto.
        -- destruct (existsb _ _); [|discriminate].
           intros Hd. injection Hd as <-. exists y, err, []. auto.
      * intros Hd. injection Hd as <-. exists y, err, []. auto.
    + destruct (existsb _ _); [|discriminate].
      intros Hd. injection Hd as <-. exists y, err, []. auto.
  - destruct (existsb _ _); [|discriminate].
    intros Hd. injection Hd as <-. exists y, err, []. auto.
Qed.

Lemma filter_all {A} (P : A -> bool) (l : list A) :
  (forall x, x ∈ l -> P x = true) -> filter P l = l.
Proof.
  induction l as [|x l IH]; intros Hl; [reflexivity|].
  rewrite filter_cons, decide_True.
  - f_equal. apply IH. intros y Hy. apply Hl. now right.
  - rewrite (Hl x) by now left. exact I.
Qed.

Lemma filter_expand_dims (region divider : string) (score : Score) :
  filter (at_label "region" region)
         (score_cells (expand_dims "region" divider score))
  = if String.eqb divider region
    then score_cells (expand_dims "region" divider score)
    else [].
Proof.
  cbn [expand_dims score_cells].
  destruct (String.eqb divider region) eqn:Heq.
  - apply filter_all. intros c (c0 & -> & _)%list_elem_of_fmap.
    unfold at_label. cbn. exact Heq.
  - apply filter_none. intros c (c0 & -> & _)%list_elem_of_fmap.
    unfold at_label. cbn. exact Heq.
Qed.

Lemma drop_dim_absent (dim : string) (coords : list (string * string)) :
  label_of dim coords = None -> drop_dim dim coords = coords.
Proof.
  unfold drop_dim. induction coords as [|[d l] coords IH]; [reflexivity|].
  cbn [label_of]. rewrite filter_cons. cbn [fst].
  destruct (String.eqb d dim); [discriminate|].
  intros Hrest. rewrite decide_True by exact I. now rewrite IH.
Qed.

Lemma strip_expand_dims (region : string) (score : Score) :
  Forall (fun c => label_of "region" (cell_coords c) = None) (score_cells score) ->
  map (strip "region") (score_cells (expand_dims "region" region score))
  = score_cells score.
Proof.
  cbn [expand_dims score_cells]. rewrite map_map.
  induction 1 as [|[coords v] cs Hc _ IH]; [reflexivity|].
  cbn [map]. rewrite IH. f_equal.
  unfold strip, drop_dim. cbn [cell_coords cell_value].
  rewrite filter_cons. cbn [fst String.eqb Ascii.eqb Bool.eqb negb].
  rewrite decide_False by (intros []).
  f_equal. apply (drop_dim_absent "region"). exact Hc.
Qed.

Lemma other_regions_filtered (compute : string -> res Score) (region : string)
    (dividers : list string) (scores : list Score) :
  region ∉ dividers ->
  res_map (fun divider => score ← compute divider;
                          Ok (expand_dims "region" divider score)) dividers
    = Ok scores ->
  filter (at_label "region" region) (flat_map score_cells scores) = [].
Proof.
  revert scores. induction dividers as [|d dividers IH]; intros scores Hnot.
  - intros Hs. now injection Hs as <-.
  - cbn [res_map]. unfold_res.
    destruct (compute d) as [s|]; [|discriminate].
    destruct (res_map _ dividers) as [rest|]; [|discriminate].
    intros Hs. injection Hs as <-. cbn [flat_map].
    rewrite filter_app, filter_expand_dims.
    destruct (String.eqb_spec d region) as [->|Hne].
    + exfalso. apply Hnot. now left.
    + apply IH; [|reflexivity]. intros Hin. apply Hnot. now right.
Qed.

Lemma region_filtered (compute : string -> res Score) (region : string)
    (dividers : list string) (scores : list Score) (score : Score) :
  NoDup dividers ->
  region ∈ dividers ->
  res_map (fun divider => score ← compute divider;
                          Ok (expand_dims "region" divider score)) dividers
    = Ok scores ->
  compute region = Ok score ->
  filter (at_label "region" region) (flat_map score_cells scores)
  = score_cells (expand_dims "region" region score).
Proof.
  intros Hnodup. revert scores.
  induction Hnodup as [|d dividers Hd Hnodup IH]; intros scores Hin.
  - now apply elem_of_nil in Hin.
  - cbn [res_map]. unfold_res.
    destruct (compute d) as [s|] eqn:Hs; [|discriminate].
    destruct (res_map _ dividers) as [rest|] eqn:Hrest; [|discriminate].
    intros Hscores Hscore. injection Hscores as <-. cbn [flat_map].
    rewrite filter_app, filter_expand_dims.
    destruct (String.eqb_spec d region) as [->|Hne].
    + rewrite Hscore in Hs. injection Hs as <-.
      rewrite (other_regions_filtered compute region dividers rest Hd Hrest).
      apply app_nil_r.
    + apply elem_of_cons in Hin as [->|Hin]; [congruence|].
      cbn [app]. now apply IH.
Qed.

(** X12.  Selecting a region from what [compute_ceilings] returns gives
    back the ceiling [compute_ceiling] computed for that region, entry by
    entry: the merged array keeps the regions apart.  The regions are
    those of the assembly, each once; the ceiling of the region has
    entries and no 'region' dimension of its own. *)
Theorem compute_ceilings_sel (assembly_name metric_name ceiling : string)
    (train_size test_size : Q) (dividers : list string) (region : string)
    (merged score : Score) :
  assembly_regions assembly_name metric_name = Ok dividers ->
  NoDup dividers ->
  region ∈ dividers ->
  compute_ceilings assembly_name metric_name ceiling train_size test_size = Ok merged ->
  compute_ceiling assembly_name metric_name ceiling train_size test_size region
    = Ok score ->
  score_cells score <> [] ->
  Forall (fun c => label_of "region" (cell_coords c) = None) (score_cells score) ->
  sel "region" region (score_cells merged) = Ok (score_cells score).
Proof.
  intros Hdividers Hnodup Hin Hmerged Hscore Hcells Hfresh.
  unfold compute_ceilings in Hmerged. unfold_res. rewrite Hdividers in Hmerged.
  destruct (res_map _ dividers) as [scores|] eqn:Hscores; [|discriminate].
  unfold merge in Hmerged. destruct scores as [|s0 scores]; [discriminate|].
  injection Hmerged as <-. cbn [score_cells].
  pose proof (region_filtered _ region dividers _ score Hnodup Hin Hscores Hscore)
    as Hfilter.
  unfold sel. cbn [flat_map] in Hfilter |- *. rewrite Hfilter.
  destruct (score_cells (expand_dims "region" region score)) as [|c cs] eqn:Hexp.
  - exfalso. apply Hcells. cbn [expand_dims score_cells] in Hexp.
    now apply map_eq_nil in Hexp.
  - rewrite <- Hexp. now rewrite strip_expand_dims by exact Hfresh.
Qed.

End Properties.

(** *** The properties at concrete environments *)

(** Three regions: V4, the third, is neither titled nor drawn. *)
Lemma plot_two_regions_of_three :
  exists drawn ceilings,
    @plot (regions_env three_regions) two_sizes "train_size"
          "dicarlo.Majaj2015" "pls_fit" "splitrep" = Ok drawn /\
    @res_map _ _ (fun size =>
               score ← @compute_ceilings_at (regions_env three_regions)
                          "dicarlo.Majaj2015" "pls_fit" "splitrep" "train_size" size;
               Ok (size, score)) two_sizes = Ok ceilings /\
    titles drawn = ["IT"; "V1"] /\
    coord_values "region" (flat_map (fun '(_, score) => score_cells score) ceilings)
    = three_regions.
Proof.
  destruct (@plot (regions_env three_regions) two_sizes "train_size"
                  "dicarlo.Majaj2015" "pls_fit" "splitrep") as [drawn|e] eqn:Hplot;
    [|vm_compute in Hplot; discriminate].
  destruct (@plot_two_regions (regions_env three_regions) _ _ _ _ _ _ Hplot)
    as (ceilings & Hceilings & Htitles).
  exists drawn, ceilings. split; [reflexivity|]. split; [exact Hceilings|].
  vm_compute in Hceilings. injection Hceilings as <-.
  split; [rewrite Htitles|]; reflexivity.
Defined.

Lemma plot_unknown_size_label_sizes :
  exists message,
    @plot (reference_env not_converged) two_sizes "sizes" "dicarlo.Majaj2015"
          "pls_fit" "splitrep"
    = Err (Exn TypeError message).
Proof.
  apply (@plot_unknown_size_label (reference_env not_converged)); discriminate.
Defined.

Lemma compute_ceilings_sel_V4 :
  sel "region" "V4" (score_cells region_ceilings)
  = Ok (score_cells (aggregate (9 # 10) (2 # 100))).
Proof.
  apply (@compute_ceilings_sel (reference_env not_converged)
           "dicarlo.Majaj2015" "pls_fit" "splitrep" default_size default_size
           ["IT"; "V4"] "V4" region_ceilings (aggregate (9 # 10) (2 # 100))).
  - reflexivity.
  - apply (bool_decide_unpack _). vm_compute. exact I.
  - apply (bool_decide_unpack _). vm_compute. exact I.
  - reflexivity.
  - reflexivity.
  - discriminate.
  - repeat apply Forall_cons_2; try apply Forall_nil_2; reflexivity.
Defined.

(** A fit with a p-value of 0.01 is drawn; the same fit with 0.5 is not. *)
Lemma fitted_curve_significant :
  exists y err fitted,
    @values_at "IT" "center" two_ceilings = Ok y /\
    @values_at "IT" "error" two_ceilings = Ok err /\
    [Event 0 (set_title "IT");
     Event 0 (scatter two_sizes [8 # 10; 8 # 10]%Q);
     Event 0 (errorbar two_sizes [8 # 10; 8 # 10]%Q [1 # 100; 1 # 100]%Q);
     Event 0 (plot_line [25 # 100]%Q [1 # 2]%Q)]
    = [Event 0 (set_title "IT");
       Event 0 (scatter two_sizes y);
       Event 0 (errorbar two_sizes y err)] ++ fitted /\
    (fitted = [] \/
     exists a b c r p lo hi x_fitplot,
       @curve_fit (fitted_env (1 # 100)) (@sigmoid (fitted_env (1 # 100))) two_sizes y
       = Ok (a, b, c) /\
       @pearsonr (fitted_env (1 # 100)) y
          (map (fun v => @sigmoid (fitted_env (1 # 100)) v a b c) two_sizes)
       = Ok (r, p) /\
       (p < 5 # 100)%Q /\
       py_min two_sizes = Ok lo /\ py_max two_sizes = Ok hi /\
       @np_arange (fitted_env (1 # 100)) lo hi ((hi - lo) / 100) = Ok x_fitplot /\
       fitted = [Event 0 (plot_line x_fitplot
                   (map (fun v => @sigmoid (fitted_env (1 # 100)) v a b c) x_fitplot))]).
Proof.
  apply (@fitted_curve_only_when_significant (fitted_env (1 # 100))
           two_sizes two_ceilings 0%nat "IT").
  reflexivity.
Defined.

Example insignificant_fit_not_drawn :
  @plot_region (fitted_env (5 # 10)) two_sizes two_ceilings 0 "IT"
  = Ok [Event 0 (set_title "IT");
        Event 0 (scatter two_sizes [8 # 10; 8 # 10]%Q);
        Event 0 (errorbar two_sizes [8 # 10; 8 # 10]%Q [1 # 100; 1 # 100]%Q)].
Proof. reflexivity. Qed.

End CeilingExtra.

(** ** Properties of the figures *)
Module FiguresProps.
Import Figures.

Section Properties.
Context `{Env}.

Ltac unfold_res := unfold mbind, res_bind, mret, res_ret in *.

Lemma string_app_String c (s t : string) : String c s +:+ t = String c (s +:+ t).
Proof. reflexivity. Qed.

Lemma ends_with_sep_app (a b : string) :
  b <> "" -> ends_with_sep (a +:+ b) = ends_with_sep b.
Proof.
  intros Hb. induction a as [|c a IH]; [reflexivity|].
  rewrite string_app_String. cbn [ends_with_sep].
  destruct (a +:+ b) as [|d rest] eqn:Hab.
  - destruct a; [|discriminate]. now destruct b.
  - exact IH.
Qed.

Lemma join2_relative (dir file : string) :
  starts_with_sep file = false ->
  (exists stem, dir = stem +:+ "results") ->
  join2 dir file = dir +:+ "/" +:+ file.
Proof.
  intros Hfile [stem ->]. unfold join2. rewrite Hfile.
  rewrite ends_with_sep_app by discriminate.
  destruct stem; reflexivity.
Qed.

Lemma string_app_assoc (a b c : string) : (a +:+ b) +:+ c = a +:+ b +:+ c.
Proof. induction a as [|x a IH]; [reflexivity|]. rewrite !string_app_String. now rewrite IH. Qed.

(** The directory of [PaperFigures] is [results], two levels above the
    directory of the module. *)
Lemma savedir_results :
  exists stem, _savedir PaperFigures_init = stem +:+ "results".
Proof.
  cbn [_savedir PaperFigures_init path_join fold_left].
  set (up := join2 (join2 module_dir "..") "..").
  unfold join2 at 1. cbn [starts_with_sep Ascii.eqb]. simpl (Ascii.eqb _ _).
  cbv iota.
  destruct (String.eqb up "" || ends_with_sep up).
  - now exists up.
  - exists (up +:+ "/"). now rewrite string_app_assoc.
Qed.

Lemma starts_with_sep_file (name extension : string) :
  starts_with_sep (name +:+ "." +:+ extension) = starts_with_sep name.
Proof. destruct name; reflexivity. Qed.

(** The path [save] passes to [fig.savefig]: [os.path.join] of the
    results directory and the file name. *)
Lemma save_path (name extension : string) :
  path_join (_savedir PaperFigures_init) [name +:+ "." +:+ extension]
  = if starts_with_sep name then name +:+ "." +:+ extension
    else _savedir PaperFigures_init +:+ "/" +:+ name +:+ "." +:+ extension.
Proof.
  cbn [path_join fold_left].
  destruct (starts_with_sep name) eqn:Hname.
  - unfold join2. now rewrite starts_with_sep_file, Hname.
  - apply join2_relative; [now rewrite starts_with_sep_file | apply savedir_results].
Qed.

(** C6 (as amended).  [save] calls [fig.savefig] for svg, pdf and png in
    this order, each time with the path [os.path.join] makes of the
    results directory and [<name>.<extension>]: the string
    [<results directory>/<name>.<extension>] for a name that does not
    begin with '/', and [<name>.<extension>] for one that does.  After
    each call that returns it prints the path.  If the three calls return,
    these three files are what [save] has written; if one raises, [save]
    raises its exception and the formats after it are not saved. *)
Theorem save_three_formats (name : string) :
  let results := _savedir PaperFigures_init in
  let path := fun extension : string =>
    if starts_with_sep name then name +:+ "." +:+ extension
    else results +:+ "/" +:+ name +:+ "." +:+ extension in
  let saved := fun extension : string =>
    [fig_savefig (path extension) extension;
     py_print ("Saved to " +:+ path extension)] in
  results = path_join module_dir [".."; ".."; "results"] /\
  (savefig (path "svg") "svg" = Ok tt ->
   savefig (path "pdf") "pdf" = Ok tt ->
   savefig (path "png") "png" = Ok tt ->
   save PaperFigures_init name = (saved "svg" ++ saved "pdf" ++ saved "png", None) /\
   saved_files (fst (save PaperFigures_init name))
   = [(path "svg", "svg"); (path "pdf", "pdf"); (path "png", "png")]) /\
  (forall e : exn,
     savefig (path "svg") "svg" = Err e ->
     save PaperFigures_init name = ([], Some e)) /\
  (forall e : exn,
     savefig (path "svg") "svg" = Ok tt ->
     savefig (path "pdf") "pdf" = Err e ->
     save PaperFigures_init name = (saved "svg", Some e)) /\
  (forall e : exn,
     savefig (path "svg") "svg" = Ok tt ->
     savefig (path "pdf") "pdf" = Ok tt ->
     savefig (path "png") "png" = Err e ->
     save PaperFigures_init name = (saved "svg" ++ saved "pdf", Some e)).
Proof.
  intros results path saved. split; [reflexivity|].
  unfold save.
  change (_save_formats PaperFigures_init) with ["svg"; "pdf"; "png"].
  cbn [save_formats]. rewrite !save_path. fold results.
  change (if starts_with_sep name then name +:+ "." +:+ "svg"
          else results +:+ "/" +:+ name +:+ "." +:+ "svg") with (path "svg").
  change (if starts_with_sep name then name +:+ "." +:+ "pdf"
          else results +:+ "/" +:+ name +:+ "." +:+ "pdf") with (path "pdf").
  change (if starts_with_sep name then name +:+ "." +:+ "png"
          else results +:+ "/" +:+ name +:+ "." +:+ "png") with (path "png").
  split; [|split; [|split]].
  - intros -> -> ->. split; reflexivity.
  - intros e ->. reflexivity.
  - intros e -> ->. reflexivity.
  - intros e -> -> ->. reflexivity.
Qed.

Lemma py_zip_lookup {A B} (l : list A) (k : list B) i a b :
  py_zip l k !! i = Some (a, b) -> l !! i = Some a /\ k !! i = Some b.
Proof.
  revert k i. induction l as [|x l IH]; intros [|y k] i Hi; try discriminate.
  destruct i as [|i]; simpl in Hi.
  - injection Hi as -> ->. auto.
  - simpl. now apply IH.
Qed.

Lemma lookup_map {A B} (f : A -> B) (l : list A) (i : nat) :
  map f l !! i = f <$> l !! i.
Proof. apply (list_lookup_fmap f l i). Qed.

Lemma scatters_app (l k : list call) : scatters (l ++ k) = scatters l ++ scatters k.
Proof. unfold scatters. apply filter_app. Qed.

Lemma BrainScorePlot_plot_lists xs ys colors alphas marker_size :
  BrainScorePlot_plot (Vector xs) (Vector ys) None (AList colors) marker_size
                      (AList alphas)
  = Ok (map (scatter_point marker_size)
            (py_zip xs (py_zip ys (py_zip (repeat None (length xs))
                                          (py_zip colors alphas))))).
Proof.
  unfold BrainScorePlot_plot. unfold_res. cbn [len_ndarray iter_ndarray iter_arg].
  f_equal.
  induction (py_zip xs _) as [|[_x [_y [_e [_c _a]]]] zs IH]; [reflexivity|].
  cbn [flat_map map]. rewrite IH. reflexivity.
Qed.

Lemma scatters_points marker_size zs :
  scatters (map (scatter_point marker_size) zs) = map (scatter_point marker_size) zs.
Proof.
  induction zs as [|[_x [_y [_e [_c _a]]]] zs IH]; [reflexivity|].
  cbn [map]. unfold scatters in *. rewrite filter_cons. cbn. now rewrite IH.
Qed.

(** C7.  In what [BrainScorePlot.apply] draws, the i-th scattered point
    belongs to the i-th model, and has the colour and alpha of a basenet
    exactly when [is_basenet] holds of it, those of the other models
    exactly when it does not; the rows [IndividualPlot.collect_results]
    returns are rows of the collected data, none of a basenet. *)
Theorem basenet_treatment (self : plotter) (data : DataFrame) :
  (forall drawn, BrainScorePlot_apply self data = Ok drawn ->
   forall i point, scatters drawn !! i = Some point ->
   exists model x y color alpha,
     snd (BrainScorePlot_get_xye_models data) !! i = Some model /\
     point = ax_scatter (Scalar x) (Scalar y) (colour_str color) alpha
                        (default_marker_size self) /\
     ((color = _basenet_color /\ alpha = _basenet_alpha)
      <-> is_basenet model = true) /\
     ((color = _nonbasenet_color /\ alpha = _nonbasenet_alpha)
      <-> is_basenet model = false)) /\
  (is_individual (cls self) = true ->
   forall rows, collect_results self = Ok rows ->
   exists collected,
     DataCollector = Ok collected /\
     (forall r, r ∈ rows -> r ∈ collected /\ is_basenet (row_model r) = false) /\
     (forall r, r ∈ collected -> is_basenet (row_model r) = true -> r ∉ rows)).
Proof.
  split.
  - intros drawn Happly i point Hi.
    unfold BrainScorePlot_apply in Happly.
    destruct (BrainScorePlot_get_xye_models data) as [[[x y] yerr] models] eqn:Hxye.
    cbn [snd]. unfold_res.
    destruct x as [x|xs]; [discriminate|].
    destruct y as [y|ys]; [discriminate|].
    rewrite BrainScorePlot_plot_lists in Happly.
    injection Happly as <-.
    rewrite scatters_app in Hi.
    change (scatters [ax_set_xlabel "Imagenet performance (% top-1)";
                      ax_set_ylabel "Brain-Score"; seaborn_despine])
      with (@nil call) in Hi.
    rewrite app_nil_r, scatters_points in Hi.
    rewrite lookup_map in Hi.
    destruct (_ !! i) as [[xi [yi [ei [ci ai]]]]|] eqn:Hz; [|discriminate].
    injection Hi as <-.
    apply py_zip_lookup in Hz as [_ Hz]. apply py_zip_lookup in Hz as [_ Hz].
    apply py_zip_lookup in Hz as [_ Hz]. apply py_zip_lookup in Hz as [Hc Ha].
    rewrite lookup_map in Hc. rewrite lookup_map in Ha.
    destruct (models !! i) as [model|]; [|discriminate].
    simpl in Hc, Ha. injection Hc as <-. injection Ha as <-.
    destruct (is_basenet model) eqn:Hbasenet; cbn [negb].
    + exists model, xi, yi, _basenet_color, _basenet_alpha.
      split; [reflexivity | split; [reflexivity | split; split]].
      all: first [ intros _; assumption | intros _; split; reflexivity
                 | intros [Hcolor _]; vm_compute in Hcolor; discriminate
                 | intros Hx; congruence ].
    + exists model, xi, yi, _nonbasenet_color, _nonbasenet_alpha.
      split; [reflexivity | split; [reflexivity | split; split]].
      all: first [ intros _; assumption | intros _; split; reflexivity
                 | intros [Hcolor _]; vm_compute in Hcolor; discriminate
                 | intros Hx; congruence ].
  - intros Hind rows Hrows. unfold collect_results in Hrows. unfold_res.
    destruct DataCollector as [collected|e]; [|discriminate].
    exists collected. split; [reflexivity|].
    assert (rows = filter (fun r => negb (is_basenet (row_model r)))
                     (filter (fun r => negb (bool_decide
                                (row_model r ∈ ["cornet_z"; "cornet_r"; "cornet_r2"])))
                             collected)) as ->
      by (destruct (cls self); try discriminate; now injection Hrows as <-).
    split.
    + intros r [Hb [_ Hr]%list_elem_of_filter]%list_elem_of_filter.
      split; [exact Hr|]. now apply Is_true_true, negb_true_iff in Hb.
    + intros r _ Hb [Hnb _]%list_elem_of_filter.
      rewrite Hb in Hnb. exact Hnb.
Qed.

Lemma Qlt_bool_iff (a b : Q) : Qlt_bool a b = true <-> (a < b)%Q.
Proof.
  unfold Qlt_bool. rewrite negb_true_iff. split.
  - intros Hle. apply Qnot_le_lt. intros Hc. apply Qle_bool_iff in Hc. congruence.
  - intros Hlt. destruct (Qle_bool b a) eqn:Hle; [|reflexivity].
    apply Qle_bool_iff in Hle. exfalso. exact (Qlt_not_le _ _ Hlt Hle).
Qed.

(** *** The format [.2f] *)

(** Two digits, tens first. *)
Lemma two_digits_spec (n : Z) :
  (0 <= n < 100)%Z ->
  two_digits n = pretty (n / 10)%Z +:+ pretty (n mod 10)%Z.
Proof.
  intros Hn.
  assert (forallb (fun k => String.eqb (two_digits (Z.of_nat k))
                              (pretty (Z.of_nat k / 10)%Z
                               +:+ pretty (Z.of_nat k mod 10)%Z))
                  (seq 0 100) = true) as Hall by (vm_compute; reflexivity).
  rewrite forallb_forall in Hall. specialize (Hall (Z.to_nat n)).
  rewrite Z2Nat.id in Hall by lia.
  apply String.eqb_eq, Hall, in_seq. lia.
Qed.

(** Rounding to the nearest integer: the result is at most one half away,
    and even when it is exactly one half away. *)
Lemma round_half_even_spec (q : Q) :
  (0 <= q)%Q ->
  (0 <= round_half_even q)%Z /\
  (Qabs (q - inject_Z (round_half_even q)) <= 1 # 2)%Q /\
  ((Qabs (q - inject_Z (round_half_even q)) == 1 # 2)%Q ->
   Z.even (round_half_even q) = true).
Proof.
  destruct q as [n d]. intros Hq.
  assert (0 <= n)%Z as Hn by (unfold Qle in Hq; simpl in Hq; lia).
  unfold round_half_even. cbn [Qnum Qden].
  pose proof (Z.div_mod n (Z.pos d) ltac:(lia)) as Hdm.
  pose proof (Z.mod_pos_bound n (Z.pos d) ltac:(lia)) as Hmod.
  pose proof (Z.div_pos n (Z.pos d) Hn ltac:(lia)) as Hdiv.
  set (floor := (n / Z.pos d)%Z) in *. set (rest := (n mod Z.pos d)%Z) in *.
  assert (forall h : Z,
            (Qabs ((n # d) - inject_Z h) <= 1 # 2)%Q <->
            (- Z.pos d <= 2 * (n - h * Z.pos d) <= Z.pos d)%Z) as Hle.
  { intros h. rewrite Qabs_Qle_condition.
    unfold Qle, Qminus, Qplus, Qopp, inject_Z. cbn [Qnum Qden].
    rewrite ?Pos.mul_1_r. lia. }
  assert (forall h : Z,
            (Qabs ((n # d) - inject_Z h) == 1 # 2)%Q ->
            (2 * (n - h * Z.pos d) = Z.pos d \/ 2 * (n - h * Z.pos d) = - Z.pos d)%Z)
    as Heq.
  { intros h. unfold Qabs, Qeq, Qminus, Qplus, Qopp, inject_Z. cbn [Qnum Qden].
    rewrite ?Pos.mul_1_r. lia. }
  destruct (Z.ltb_spec (2 * rest) (Z.pos d)) as [Hlt|Hge].
  - split; [lia|]. split; [apply Hle; nia|].
    intros Htie. apply Heq in Htie. nia.
  - destruct (Z.ltb_spec (Z.pos d) (2 * rest)) as [Hgt|Hle'].
    + split; [lia|]. split; [apply Hle; nia|].
      intros Htie. apply Heq in Htie. nia.
    + destruct (Z.even floor) eqn:Heven.
      * split; [lia|]. split; [apply Hle; nia|]. intros _. exact Heven.
      * split; [lia|]. split; [apply Hle; nia|]. intros _.
        rewrite Z.even_add, Heven. reflexivity.
Qed.

(** [format_2f r] is a sign, the digits of a whole number, a point and
    two digits; the number they write is at most 0.005 away from the
    magnitude of [r], and its last digit is even when it is exactly 0.005
    away. *)
Lemma format_2f_two_decimals (r : Q) :
  exists (sign : string) (whole d1 d2 : Z),
    ((r < 0)%Q -> sign = "-") /\
    (~ (r < 0)%Q -> sign = "") /\
    (0 <= whole)%Z /\ (0 <= d1 <= 9)%Z /\ (0 <= d2 <= 9)%Z /\
    (Qabs (Qabs r - inject_Z (100 * whole + 10 * d1 + d2) / 100) <= 1 # 200)%Q /\
    ((Qabs (Qabs r - inject_Z (100 * whole + 10 * d1 + d2) / 100) == 1 # 200)%Q ->
     Z.even d2 = true) /\
    format_2f r = sign +:+ pretty whole +:+ "." +:+ pretty d1 +:+ pretty d2.
Proof.
  unfold format_2f.
  assert (0 <= Qabs r * 100)%Q as Hq.
  { apply Qmult_le_0_compat; [apply Qabs_nonneg | discriminate]. }
  destruct (round_half_even_spec _ Hq) as (Hh & Hclose & Htie).
  set (h := round_half_even (Qabs r * 100)) in *.
  pose proof (Z.div_mod h 100 ltac:(lia)) as Hdm.
  pose proof (Z.mod_pos_bound h 100 ltac:(lia)) as Hmod.
  pose proof (Z.div_pos h 100 Hh ltac:(lia)) as Hdiv.
  pose proof (Z.div_mod (h mod 100) 10 ltac:(lia)) as Hdm'.
  pose proof (Z.mod_pos_bound (h mod 100) 10 ltac:(lia)) as Hmod'.
  assert (0 <= (h mod 100) / 10 <= 9)%Z as Hd1.
  { split; [apply Z.div_pos; lia|]. apply Z.lt_succ_r, Z.div_lt_upper_bound; lia. }
  exists (if Qlt_bool r 0 then "-" else ""), (h / 100)%Z,
         ((h mod 100) / 10)%Z, ((h mod 100) mod 10)%Z.
  assert (100 * (h / 100) + 10 * (h mod 100 / 10) + (h mod 100) mod 10 = h)%Z
    as Hsum by lia.
  rewrite Hsum.
  assert (Qabs r - inject_Z h / 100
          == (Qabs r * 100 - inject_Z h) * (1 # 100))%Q as Hscale by (field).
  assert (Qabs (Qabs r - inject_Z h / 100)
          == Qabs (Qabs r * 100 - inject_Z h) * (1 # 100))%Q as Habs.
  { rewrite Hscale, Qabs_Qmult. reflexivity. }
  split; [|split; [|split; [|split; [|split; [|split; [|split]]]]]].
  - intros Hneg. unfold Qlt_bool.
    destruct (Qle_bool 0 r) eqn:Hle; [|reflexivity].
    apply Qle_bool_iff in Hle. exfalso. exact (Qlt_not_le _ _ Hneg Hle).
  - intros Hpos. unfold Qlt_bool.
    destruct (Qle_bool 0 r) eqn:Hle; [reflexivity|].
    exfalso. apply Hpos. apply Qnot_le_lt. intros Hc.
    apply Qle_bool_iff in Hc. congruence.
  - exact Hdiv.
  - exact Hd1.
  - lia.
  - rewrite Habs. lra.
  - intros Hhalf. rewrite Habs in Hhalf.
    assert (Qabs (Qabs r * 100 - inject_Z h) == 1 # 2)%Q as Hhalf' by lra.
    specialize (Htie Hhalf').
    replace h with (10 * (10 * (h / 100) + h mod 100 / 10) + (h mod 100) mod 10)%Z
      in Htie by lia.
    rewrite Z.even_add, Z.even_mul in Htie. cbn [Z.even orb] in Htie.
    destruct (Z.even ((h mod 100) mod 10)); [reflexivity | discriminate].
  - rewrite two_digits_spec by lia. reflexivity.
Qed.

(** C8.  When the data give [x] and [y] and their correlation is [r] with
    p-value [p], [indicate_correlation] writes one text: 'r = ' and [r]
    to two decimals if and only if [p < 0.05], and 'r n.s.' if and only
    if not.  To two decimals: after 'r = ' come a minus sign exactly when
    [r] is negative, a whole number, a point and two digits, which write
    the magnitude of [r] rounded to the nearest hundredth, to the even
    one of two that are equally near. *)
Theorem correlation_annotation (self : plotter) (ax : axes) (data : DataFrame)
    (x y error : ndarray) (r p : Q) :
  get_xye self data = Ok (x, y, error) ->
  pearsonr x y = Ok (r, p) ->
  exists text_x text_y label fontsize,
    indicate_correlation self ax data = Ok [ax_text text_x text_y label fontsize] /\
    (label = "r = " +:+ format_2f r <-> (p < 5 # 100)%Q) /\
    (label = "r n.s." <-> ~ (p < 5 # 100)%Q) /\
    ((p < 5 # 100)%Q ->
     exists (sign : string) (whole d1 d2 : Z),
       ((r < 0)%Q -> sign = "-") /\
       (~ (r < 0)%Q -> sign = "") /\
       (0 <= whole)%Z /\ (0 <= d1 <= 9)%Z /\ (0 <= d2 <= 9)%Z /\
       (Qabs (Qabs r - inject_Z (100 * whole + 10 * d1 + d2) / 100) <= 1 # 200)%Q /\
       ((Qabs (Qabs r - inject_Z (100 * whole + 10 * d1 + d2) / 100) == 1 # 200)%Q ->
        Z.even d2 = true) /\
       label = "r = " +:+ sign +:+ pretty whole +:+ "." +:+ pretty d1 +:+ pretty d2).
Proof.
  intros Hxye Hr. unfold indicate_correlation. unfold_res. rewrite Hxye, Hr.
  pose proof (Qlt_bool_iff p (5 # 100)) as Hlt.
  destruct (Qlt_bool p (5 # 100)).
  - unfold _text. destruct (cls self); do 4 eexists; (split; [reflexivity|]).
    all: split; [split; [intros _; now apply Hlt | reflexivity]|].
    all: split; [split; [discriminate | intros Hn; exfalso; apply Hn; now apply Hlt]|].
    all: intros _.
    all: destruct (format_2f_two_decimals r)
           as (sign & whole & d1 & d2 & Hneg & Hpos & Hw & Hd1 & Hd2 & Hnear & Heven & ->).
    all: exists sign, whole, d1, d2; auto 10.
  - assert (~ (p < 5 # 100)%Q) as Hn by (intros Hc; apply Hlt in Hc; discriminate).
    unfold _text. destruct (cls self); do 4 eexists; (split; [reflexivity|]).
    all: split; [split; [discriminate | intros Hc; now apply Hn in Hc]|].
    all: split; [split; [intros _; exact Hn | reflexivity]|].
    all: intros Hc; now apply Hn in Hc.
Qed.

(** C10.  [BrainScorePlot._highlight] draws nothing for an x above 72 and
    what [Plot._highlight] draws otherwise; [BrainScoreZoomPlot._highlight]
    is [Plot._highlight] for every x: a line to the label and the label. *)
Theorem highlight_guard (highlighted_models : list string) (ax : axes)
    (label : string) (x y : Q) :
  let base := BrainScorePlot_init highlighted_models in
  let zoom := BrainScoreZoomPlot_init highlighted_models in
  let dx := ((snd (xlim ax) - fst (xlim ax)) * (2 # 100))%Q in
  let dy := ((snd (ylim ax) - fst (ylim ax)) * (2 # 100))%Q in
  _highlight base ax label x y =
    (if Qlt_bool 72 x then [] else Plot__highlight base ax label x y) /\
  ((72 < x)%Q -> _highlight base ax label x y = []) /\
  _highlight zoom ax label x y = Plot__highlight zoom ax label x y /\
  Plot__highlight zoom ax label x y =
    [ax_plot [x; x + dx]%Q [y; y + dy]%Q "black" 1;
     ax_text (x + dx) (y + dy) label (Some 30%Z)].
Proof.
  intros base zoom dx dy. repeat split.
  intros Hx. unfold _highlight. cbn [cls base BrainScorePlot_init].
  apply Qlt_bool_iff in Hx. now rewrite Hx.
Qed.

End Properties.

(** *** Closed instances, in the reference environment *)

#[local] Existing Instance reference_env.

Example format_2f_examples :
  format_2f (9126 # 10000) = "0.91" /\ format_2f (1 # 3) = "0.33" /\
  format_2f (1 # 8) = "0.12" /\ format_2f (3 # 8) = "0.38" /\
  format_2f (- (5 # 10)) = "-0.50" /\ format_2f (- (1 # 1000)) = "-0.00" /\
  format_2f 1 = "1.00".
Proof. vm_compute. repeat split. Qed.

Lemma basenet_treatment_reference :
  let self := BrainScorePlot_init [] in
  let basenet_point :=
    ax_scatter (Scalar (60 # 1)) (Scalar (30 # 100)) (colour_str "#878789") (3 # 10) 50 in
  (BrainScorePlot_apply self reference_data = Ok reference_drawn /\
   scatters reference_drawn !! 2%nat = Some basenet_point) /\
  exists model x y color alpha,
    snd (BrainScorePlot_get_xye_models reference_data) !! 2%nat = Some model /\
    basenet_point = ax_scatter (Scalar x) (Scalar y) (colour_str color) alpha
                               (default_marker_size self) /\
    ((color = _basenet_color /\ alpha = _basenet_alpha) <-> is_basenet model = true) /\
    ((color = _nonbasenet_color /\ alpha = _nonbasenet_alpha)
     <-> is_basenet model = false).
Proof.
  intros self basenet_point. split; [split; reflexivity|].
  refine (proj1 (basenet_treatment self reference_data) reference_drawn _
                2%nat basenet_point _); reflexivity.
Defined.

(** The rows of [V4Plot.collect_results]: no basenet, no CORnet-Z. *)
Example individual_plot_rows :
  collect_results (V4Plot_init []) =
  Ok [Row "alexnet" "ImageNet" (577 # 10) 0;
      Row "resnet-101_v2" "ImageNet" (77 # 1) 0;
      Row "resnet-101_v2" "Brain-Score" (40 # 100) (1 # 100);
      Row "alexnet" "Brain-Score" (35 # 100) (1 # 100);
      Row "alexnet" "dicarlo.Majaj2015.V4" (58 # 100) (1 # 100)]%Q.
Proof. reflexivity. Qed.

(** A table with one model: the squeezed columns are 0-d arrays, and
    [BrainScorePlot.plot] cannot take their length. *)
Example single_model_apply :
  BrainScorePlot_apply (BrainScorePlot_init [])
    [Row "alexnet" "ImageNet" (577 # 10) 0;
     Row "alexnet" "Brain-Score" (35 # 100) (1 # 100)]%Q
  = Err (Exn TypeError "len() of unsized object").
Proof. reflexivity. Qed.

Lemma correlation_annotation_reference :
  let self := BrainScorePlot_init [] in
  let x := Vector [77 # 1; 577 # 10; 60 # 1]%Q in
  let y := Vector [40 # 100; 35 # 100; 30 # 100]%Q in
  let error := Vector [1 # 100; 1 # 100; 2 # 100]%Q in
  (get_xye self reference_data = Ok (x, y, error) /\
   pearsonr x y = Ok (9126 # 10000, 1 # 1000)%Q) /\
  format_2f (9126 # 10000) = "0.91" /\
  exists text_x text_y label fontsize,
    indicate_correlation self reference_axes reference_data
      = Ok [ax_text text_x text_y label fontsize] /\
    (label = "r = " +:+ format_2f (9126 # 10000) <-> (1 # 1000 < 5 # 100)%Q) /\
    (label = "r n.s." <-> ~ (1 # 1000 < 5 # 100)%Q) /\
    ((1 # 1000 < 5 # 100)%Q ->
     exists (sign : string) (whole d1 d2 : Z),
       ((9126 # 10000 < 0)%Q -> sign = "-") /\
       (~ (9126 # 10000 < 0)%Q -> sign = "") /\
       (0 <= whole)%Z /\ (0 <= d1 <= 9)%Z /\ (0 <= d2 <= 9)%Z /\
       (Qabs (Qabs (9126 # 10000) - inject_Z (100 * whole + 10 * d1 + d2) / 100)
        <= 1 # 200)%Q /\
       ((Qabs (Qabs (9126 # 10000) - inject_Z (100 * whole + 10 * d1 + d2) / 100)
         == 1 # 200)%Q -> Z.even d2 = true) /\
       label = "r = " +:+ sign +:+ pretty whole +:+ "." +:+ pretty d1 +:+ pretty d2).
Proof.
  intros self x y error. split; [split; reflexivity|].
  split; [reflexivity|].
  apply (correlation_annotation self reference_axes reference_data x y error
                                (9126 # 10000) (1 # 1000)); reflexivity.
Defined.

Example correlation_text_reference :
  exists text_x text_y,
    indicate_correlation (BrainScorePlot_init []) reference_axes reference_data
    = Ok [ax_text text_x text_y "r = 0.91" None].
Proof. eexists _, _. reflexivity. Qed.

(** A model at 77% top-1: no highlight in the full plot, a highlight in
    the zoomed one. *)
Example highlight_above_72 :
  _highlight (BrainScorePlot_init ["resnet-101_v2"]) reference_axes
             "resnet-101_v2" (77 # 1) (40 # 100) = [] /\
  exists lx ly,
    _highlight (BrainScoreZoomPlot_init ["resnet-101_v2"]) reference_axes
               "resnet-101_v2" (77 # 1) (40 # 100)
    = [ax_plot [77 # 1; lx]%Q [40 # 100; ly]%Q "black" 1;
       ax_text lx ly "resnet-101_v2" (Some 30%Z)].
Proof. split; [reflexivity|]. eexists _, _. reflexivity. Qed.

(** C6, counterexample.  For the name '/tmp/brain-score' the three files
    are saved under /tmp, and not under the results directory. *)
Lemma absolute_name_leaves_results :
  _savedir PaperFigures_init = "/repo/candidate_models/analyze/../../results" /\
  save PaperFigures_init "/tmp/brain-score"
  = ([fig_savefig "/tmp/brain-score.svg" "svg";
      py_print "Saved to /tmp/brain-score.svg";
      fig_savefig "/tmp/brain-score.pdf" "pdf";
      py_print "Saved to /tmp/brain-score.pdf";
      fig_savefig "/tmp/brain-score.png" "png";
      py_print "Saved to /tmp/brain-score.png"], None) /\
  saved_files (fst (save PaperFigures_init "/tmp/brain-score"))
  = [("/tmp/brain-score.svg", "svg"); ("/tmp/brain-score.pdf", "pdf");
     ("/tmp/brain-score.png", "png")].
Proof. repeat split. Qed.

(** A name need not begin with '/' to leave the results directory: the
    files of '../escape' are written beside it. *)
Example parent_name_leaves_results :
  saved_files (fst (save PaperFigures_init "../escape"))
  = [("/repo/candidate_models/analyze/../../results/../escape.svg", "svg");
     ("/repo/candidate_models/analyze/../../results/../escape.pdf", "pdf");
     ("/repo/candidate_models/analyze/../../results/../escape.png", "png")].
Proof. reflexivity. Qed.

(** The three calls return: the three files of 'brain-score-zoom'. *)
Lemma save_three_formats_brain_score_zoom :
  let results := "/repo/candidate_models/analyze/../../results" in
  save PaperFigures_init "brain-score-zoom"
  = ([fig_savefig (results +:+ "/brain-score-zoom.svg") "svg";
      py_print ("Saved to " +:+ results +:+ "/brain-score-zoom.svg");
      fig_savefig (results +:+ "/brain-score-zoom.pdf") "pdf";
      py_print ("Saved to " +:+ results +:+ "/brain-score-zoom.pdf");
      fig_savefig (results +:+ "/brain-score-zoom.png") "png";
      py_print ("Saved to " +:+ results +:+ "/brain-score-zoom.png")], None) /\
  saved_files (fst (save PaperFigures_init "brain-score-zoom"))
  = [(results +:+ "/brain-score-zoom.svg", "svg");
     (results +:+ "/brain-score-zoom.pdf", "pdf");
     (results +:+ "/brain-score-zoom.png", "png")].
Proof.
  intros results.
  destruct (save_three_formats "brain-score-zoom") as (_ & Hsaved & _).
  apply Hsaved; reflexivity.
Defined.

(** Without the results directory the first call raises and nothing is
    saved; on a disk that is full after the svg file, the svg file is all
    that is saved. *)
Example save_without_results_directory :
  @save missing_results_env (@PaperFigures_init missing_results_env) "brain-score"
  = ([], Some no_such_directory).
Proof. reflexivity. Qed.

Example save_on_full_disk :
  @save full_after_svg_env (@PaperFigures_init full_after_svg_env) "brain-score"
  = ([fig_savefig "/repo/candidate_models/analyze/../../results/brain-score.svg" "svg";
      py_print "Saved to /repo/candidate_models/analyze/../../results/brain-score.svg"],
     Some (Exn OSError "[Errno 28] No space left on device")).
Proof. reflexivity. Qed.

(** C2, counterexample.  The benchmarks of the Brain-Score are those of
    [V4Plot] and [ITPlot], the two neural ones.  The benchmark of
    [BehaviorPlot], the one plotted as 'Behavioral Predictivity', is not
    among them: in the reference environment of the scoring module it
    cannot even be loaded, and the Brain-Score of alexnet is computed all
    the same. *)
Lemma brain_score_without_behavior :
  map Some (Scoring._benchmark_identifiers Scoring.BrainScore_init)
    = [_benchmark (V4Plot_init []); _benchmark (ITPlot_init [])] /\
  _benchmark (BehaviorPlot_init []) = Some "dicarlo.Rajalingham2018" /\
  In (ax_set_ylabel "Behavioral Predictivity") (apply_labels BehaviorPlot) /\
  ~ In "dicarlo.Rajalingham2018"
       (Scoring._benchmark_identifiers Scoring.BrainScore_init) /\
  @Scoring.benchmarks_load Scoring.reference_env "dicarlo.Rajalingham2018"
    = Err (Exn KeyError "dicarlo.Rajalingham2018") /\
  exists v raw,
    @Scoring.score_model Scoring.reference_env 2 Scoring.alexnet
      = Some (Ok (MkScore [Cell [("aggregation", "center")] v] raw)) /\
    (v == 575 # 1000)%Q.
Proof.
  split; [reflexivity|]. split; [reflexivity|].
  split; [simpl; tauto|].
  split.
  - intros [Hin|[Hin|[]]]; discriminate.
  - split; [reflexivity|]. eexists _, _. split; reflexivity.
Qed.

End FiguresProps.

(** ** Further properties of the figures *)
Module FiguresExtra.
Import Figures FiguresProps.

Section Properties.
Context `{Env} `{Canvas}.

Ltac unfold_res := unfold mbind, res_bind, mret, res_ret in *.

Lemma py_zip_length {A B} (l : list A) (k : list B) :
  length (py_zip l k) = Nat.min (length l) (length k).
Proof.
  revert k. induction l as [|a l IH]; intros [|b k]; cbn; [reflexivity..|].
  now rewrite IH.
Qed.

Lemma squeeze_Vector (vs xs : list Q) : squeeze vs = Vector xs -> xs = vs.
Proof.
  destruct vs as [|v [|w vs]]; cbn; intros Hs; try discriminate;
    now injection Hs as <-.
Qed.

(** X13.  A table in which the aligned ImageNet scores are those of a
    single model cannot be plotted: its column squeezes to a 0-d array,
    [BrainScorePlot.plot] takes the length of it, and
    [BrainScorePlot.apply] ends with a [TypeError]. *)
Theorem apply_single_model (self : plotter) (data : DataFrame) (only : row) :
  align (select_benchmark "ImageNet" data) (select_benchmark "Brain-Score" data)
        "model" = [only] ->
  BrainScorePlot_apply self data = Err (Exn TypeError "len() of unsized object").
Proof.
  intros Hone.
  unfold BrainScorePlot_apply, BrainScorePlot_get_xye_models, xye_of.
  rewrite Hone. reflexivity.
Qed.

(** X14.  [BrainScorePlot.apply] pairs the aligned ImageNet scores with
    the Brain-Scores by position and stops at the shorter of the two
    columns: when it returns, the number of points it has scattered is the
    smaller of the two numbers of rows. *)
Theorem scatter_count (self : plotter) (data : DataFrame) (drawn : list call) :
  BrainScorePlot_apply self data = Ok drawn ->
  length (scatters drawn)
  = Nat.min (length (align (select_benchmark "ImageNet" data)
                           (select_benchmark "Brain-Score" data) "model"))
            (length (select_benchmark "Brain-Score" data)).
Proof.
  unfold BrainScorePlot_apply, BrainScorePlot_get_xye_models, xye_of.
  set (imagenet_data := align _ _ _).
  set (benchmark_data := select_benchmark "Brain-Score" data).
  unfold_res.
  destruct (squeeze (map row_score imagenet_data)) as [x|xs] eqn:Hx;
    [discriminate|].
  destruct (squeeze (map row_score benchmark_data)) as [y|ys] eqn:Hy;
    [discriminate|].
  rewrite BrainScorePlot_plot_lists.
  intros Hdrawn. injection Hdrawn as <-.
  rewrite scatters_app.
  change (scatters [ax_set_xlabel "Imagenet performance (% top-1)";
                    ax_set_ylabel "Brain-Score"; seaborn_despine])
    with (@nil call).
  rewrite app_nil_r, scatters_points.
  apply squeeze_Vector in Hx as ->. apply squeeze_Vector in Hy as ->.
  rewrite length_map, !py_zip_length, repeat_length, !length_map.
  lia.
Qed.

(** X15.  For [color] and [alpha] each given as a float, as a list or
    left at [None], [BrainScorePlot.plot] needs two floats or two lists:
    every other pair, the defaults of its signature among them, makes
    [zip] (or [len], of a 0-d [x]) raise a [TypeError]. *)
Theorem plot_color_and_alpha (x y : ndarray) (error : option (list Q))
    (color : float_or_list colour) (marker_size : Z) (alpha : float_or_list Q) :
  (forall c a, ~ (color = AFloat c /\ alpha = AFloat a)) ->
  (forall colors alphas, ~ (color = AList colors /\ alpha = AList alphas)) ->
  exists message,
    BrainScorePlot_plot x y error color marker_size alpha
    = Err (Exn TypeError message).
Proof.
  intros Hfloats Hlists.
  destruct color as [c|colors|], alpha as [a|alphas|];
    try (exfalso; apply (Hfloats c a); split; reflexivity);
    try (exfalso; apply (Hlists colors alphas); split; reflexivity);
    unfold BrainScorePlot_plot; unfold_res;
    destruct error as [es|], x as [v|xs], y as [w|ys];
    cbn; eexists; reflexivity.
Qed.

(** X16.  [BrainScoreZoomPlot.collect_results] keeps the rows, of every
    benchmark, of the models that have an ImageNet score above 70, in the
    order of the collected data; a model without such a score loses all
    its rows. *)
Theorem zoom_collect_results (highlighted_models : list string) (rows : DataFrame) :
  collect_results (BrainScoreZoomPlot_init highlighted_models) = Ok rows ->
  exists data,
    DataCollector = Ok data /\
    sublist rows data /\
    forall r, r ∈ rows <->
      r ∈ data /\
      exists imagenet_row,
        imagenet_row ∈ data /\
        row_benchmark imagenet_row = "ImageNet" /\
        row_model imagenet_row = row_model r /\
        (70 < row_score imagenet_row)%Q.
Proof.
  unfold collect_results. unfold_res.
  destruct DataCollector as [data|]; [|discriminate].
  cbn [cls BrainScoreZoomPlot_init].
  intros Hrows. injection Hrows as <-.
  exists data. split; [reflexivity|]. split; [apply sublist_filter|].
  intros r. rewrite list_elem_of_filter, bool_decide_spec, list_elem_of_fmap.
  split.
  - intros [(i & Hmodel & [Hscore [Hbench Hi]%list_elem_of_filter]%list_elem_of_filter) Hr].
    split; [exact Hr|]. exists i. split; [exact Hi|].
    split; [now apply Is_true_true, String.eqb_eq in Hbench|].
    split; [now symmetry|].
    apply Is_true_true in Hscore. now apply Qlt_bool_iff.
  - intros [Hr (i & Hi & Hbench & Hmodel & Hscore)]. split; [|exact Hr].
    exists i. split; [now symmetry|].
    apply list_elem_of_filter. split; [now apply Is_true_true, Qlt_bool_iff|].
    apply list_elem_of_filter. split; [|exact Hi].
    now apply Is_true_true, String.eqb_eq.
Qed.

(** X17.  [IndividualPlot.collect_results], which the plots of V4, IT and
    behavior inherit, returns the collected rows in their order without
    those of 'cornet_z', 'cornet_r', 'cornet_r2' and of the basenets, and
    drops no other row. *)
Theorem individual_collect_results (self : plotter) (rows : DataFrame) :
  is_individual (cls self) = true ->
  collect_results self = Ok rows ->
  exists data,
    DataCollector = Ok data /\
    sublist rows data /\
    forall r, r ∈ rows <->
      r ∈ data /\
      row_model r <> "cornet_z" /\ row_model r <> "cornet_r" /\
      row_model r <> "cornet_r2" /\
      is_basenet (row_model r) = false.
Proof.
  intros Hind. unfold collect_results. unfold_res.
  destruct DataCollector as [data|]; [|discriminate].
  intros Hrows. exists data. split; [reflexivity|].
  assert (rows = filter (fun r => negb (is_basenet (row_model r)))
                   (filter (fun r => negb (bool_decide
                              (row_model r ∈ ["cornet_z"; "cornet_r"; "cornet_r2"])))
                           data)) as ->
    by (destruct (cls self); try discriminate; now injection Hrows as <-).
  split; [etransitivity; apply sublist_filter|].
  intros r. rewrite !list_elem_of_filter.
  rewrite !negb_True, bool_decide_spec, Is_true_false.
  rewrite !not_elem_of_cons. split.
  - intros (Hb & (Hz & Hr & Hr2 & _) & Hin). auto.
  - intros (Hin & Hz & Hr & Hr2 & Hb). repeat split; try assumption.
    apply not_elem_of_nil.
Qed.

(** *** Highlighting *)

Lemma highlight_labels_app (l k : list action) :
  highlight_labels (l ++ k) = highlight_labels l ++ highlight_labels k.
Proof. unfold highlight_labels. apply omap_app. Qed.

Lemma draws_app (l k : list action) : draws (l ++ k) = draws l ++ draws k.
Proof. unfold draws. apply omap_app. Qed.

Lemma draws_draw (calls : list call) : draws (map draw calls) = calls.
Proof.
  induction calls as [|c calls IH]; [reflexivity|].
  cbn [map]. unfold draws in *. cbn. now rewrite IH.
Qed.

Lemma saved_files_app (l k : list call) :
  saved_files (l ++ k) = saved_files l ++ saved_files k.
Proof. unfold saved_files. apply omap_app. Qed.

Lemma Qlt_bool_false (a b : Q) : Qlt_bool a b = false -> (b <= a)%Q.
Proof.
  unfold Qlt_bool. rewrite negb_false_iff. apply Qle_bool_iff.
Qed.

(** What [_highlight] draws for a model bears the name of the model, and
    saves nothing. *)
Lemma highlight_at_labels (self : plotter) (ax : axes) (model : string)
    (x y : ndarray) (new : list action) :
  highlight_at self ax model x y = Ok new ->
  (highlight_labels new = [] \/ highlight_labels new = [model]) /\
  saved_files (draws new) = [].
Proof.
  unfold highlight_at, _highlight, Plot__highlight, _text.
  destruct x as [v|[|v [|v' vs]]], y as [w|ws], (cls self);
    try destruct (Qlt_bool 72 v);
    intros Hnew; try discriminate; injection Hnew as <-;
    (split; [first [left; reflexivity | right; reflexivity] | reflexivity]).
Qed.

Lemma highlight_at_below_72 (self : plotter) (ax : axes) (model : string)
    (x y : ndarray) (new : list action) :
  cls self = BrainScorePlot ->
  highlight_at self ax model x y = Ok new ->
  highlight_labels new <> [] ->
  size x <> 0%nat ->
  (forall v, x <> Vector [v]) ->
  exists v, x = Scalar v /\ (v <= 72)%Q.
Proof.
  intros Hcls. unfold highlight_at, _highlight. rewrite Hcls.
  destruct x as [v|[|v [|v' vs]]].
  - intros Hnew Hlabels _ _. exists v. split; [reflexivity|].
    apply Qlt_bool_false.
    destruct (Qlt_bool 72 v); [|reflexivity].
    exfalso. apply Hlabels. destruct y; now injection Hnew as <-.
  - intros _ _ Hsize. now contradiction Hsize.
  - intros _ _ _ Hsingle. now contradiction (Hsingle v).
  - discriminate.
Qed.

Lemma get_xye_squeezed (self : plotter) (data : DataFrame) (x y error : ndarray) :
  get_xye self data = Ok (x, y, error) -> forall v, x <> Vector [v].
Proof.
  assert (forall vs v, squeeze vs <> Vector [v]) as Hsq
    by (intros [|a [|b vs]] v; discriminate).
  unfold get_xye, BrainScorePlot_get_xye_models, xye_of.
  destruct (cls self); try discriminate;
    try destruct (_benchmark self); try discriminate;
    intros Hxye; injection Hxye as <- _ _; apply Hsq.
Qed.

(** The loop of [highlight_models]: what it adds to the axes. *)
Lemma highlight_models_from_spec (self : plotter) (data : DataFrame)
    (models : list string) (done acts : list action) :
  highlight_models_from self data models done = Ok acts ->
  exists new,
    acts = done ++ new /\
    saved_files (draws new) = [] /\
    (forall label, label ∈ highlight_labels new ->
       label ∈ models /\
       exists x y error,
         get_xye self (select_model label data) = Ok (x, y, error) /\
         size x <> 0%nat /\
         (cls self = BrainScorePlot -> exists v, x = Scalar v /\ (v <= 72)%Q)) /\
    (forall model x y error,
       model ∈ models ->
       get_xye self (select_model model data) = Ok (x, y, error) ->
       size x = 0%nat ->
       warn (not_found model) ∈ new).
Proof.
  revert done acts. induction models as [|m models IH]; intros done acts.
  - intros Hacts. injection Hacts as <-. exists []. rewrite app_nil_r.
    split; [reflexivity|]. split; [reflexivity|]. split.
    + intros label Hl. now apply elem_of_nil in Hl.
    + intros model x y error Hm. now apply elem_of_nil in Hm.
  - cbn [highlight_models_from]. unfold_res.
    destruct (get_xye self (select_model m data)) as [[[x y] error]|] eqn:Hxye;
      [|discriminate].
    destruct (Nat.eqb_spec (size x) 0) as [Hsize|Hsize].
    + intros Hacts. destruct (IH _ _ Hacts) as (new & -> & Hsaved & Hlabels & Hwarn).
      exists (warn (not_found m) :: new). split; [now rewrite <- app_assoc|].
      split; [exact Hsaved|]. split.
      * intros label Hl. destruct (Hlabels label Hl) as [Hin Hrest].
        split; [now right | exact Hrest].
      * intros model x' y' error' Hm Hxye' Hsize'.
        apply elem_of_cons in Hm as [->|Hm]; [now left|].
        right. exact (Hwarn model x' y' error' Hm Hxye' Hsize').
    + destruct (highlight_at self (limits done) m x y) as [new1|] eqn:Hnew1;
        [|discriminate].
      intros Hacts. destruct (IH _ _ Hacts) as (new & -> & Hsaved & Hlabels & Hwarn).
      destruct (highlight_at_labels _ _ _ _ _ _ Hnew1) as [Hnew1_labels Hnew1_saved].
      exists (new1 ++ new). split; [now rewrite <- app_assoc|].
      split; [now rewrite draws_app, saved_files_app, Hnew1_saved, Hsaved|].
      split.
      * intros label. rewrite highlight_labels_app, elem_of_app.
        intros [Hl|Hl].
        -- assert (label = m /\ highlight_labels new1 <> []) as [-> Hne].
           { destruct Hnew1_labels as [Hnil|Hone]; rewrite ?Hnil, ?Hone in Hl.
             - now apply elem_of_nil in Hl.
             - apply list_elem_of_singleton in Hl. split; [exact Hl|].
               rewrite Hone. discriminate. }
           split; [now left|]. exists x, y, error.
           split; [exact Hxye|]. split; [exact Hsize|].
           intros Hcls.
           exact (highlight_at_below_72 _ _ _ _ _ _ Hcls Hnew1 Hne Hsize
                    (get_xye_squeezed _ _ _ _ _ Hxye)).
        -- destruct (Hlabels label Hl) as [Hin Hrest]. split; [now right | exact Hrest].
      * intros model x' y' error' Hm Hxye' Hsize'.
        apply elem_of_app. right.
        apply elem_of_cons in Hm as [->|Hm].
        -- rewrite Hxye in Hxye'. injection Hxye' as <- _ _. contradiction.
        -- exact (Hwarn model x' y' error' Hm Hxye' Hsize').
Qed.

(** X18.  In the full Brain-Score plot, [highlight_models] labels no
    model above 72% top-1: each label it writes is the name of a
    highlighted model whose data give a single ImageNet score, and this
    score is at most 72. *)
Theorem highlight_models_at_most_72 (self : plotter) (data : DataFrame)
    (done acts : list action) :
  cls self = BrainScorePlot ->
  highlight_models self data done = Ok acts ->
  exists new,
    acts = done ++ new /\
    forall label, label ∈ highlight_labels new ->
      label ∈ _highlighted_models self /\
      exists v y error,
        get_xye self (select_model label data) = Ok (Scalar v, y, error) /\
        (v <= 72)%Q.
Proof.
  intros Hcls Hacts.
  destruct (highlight_models_from_spec _ _ _ _ _ Hacts)
    as (new & Hnew & _ & Hlabels & _).
  exists new. split; [exact Hnew|].
  intros label Hl.
  destruct (Hlabels label Hl) as (Hin & x & y & error & Hxye & _ & Hscalar).
  split; [exact Hin|].
  destruct (Hscalar Hcls) as (v & -> & Hv). now exists v, y, error.
Qed.

(** X19.  When [highlight_models] returns, a highlighted model for which
    the data hold no aligned ImageNet score has been answered with the
    warning that it was not found, and has got no label; this holds in
    every class of plot. *)
Theorem highlight_models_not_found (self : plotter) (data : DataFrame)
    (done acts : list action) (model : string) (x y error : ndarray) :
  highlight_models self data done = Ok acts ->
  model ∈ _highlighted_models self ->
  get_xye self (select_model model data) = Ok (x, y, error) ->
  size x = 0%nat ->
  exists new,
    acts = done ++ new /\
    warn (not_found model) ∈ new /\
    model ∉ highlight_labels new.
Proof.
  intros Hacts Hin Hxye Hsize.
  destruct (highlight_models_from_spec _ _ _ _ _ Hacts)
    as (new & Hnew & _ & Hlabels & Hwarn).
  exists new. split; [exact Hnew|]. split.
  - exact (Hwarn model x y error Hin Hxye Hsize).
  - intros Hl. destruct (Hlabels model Hl) as (_ & x' & y' & error' & Hxye' & Hsize' & _).
    rewrite Hxye in Hxye'. injection Hxye' as <- _ _. contradiction.
Qed.

(** *** The figures of the paper *)

Lemma saved_files_points marker_size zs :
  saved_files (map (scatter_point marker_size) zs) = [].
Proof.
  induction zs as [|[_x [_y [_e [_c _a]]]] zs IH]; [reflexivity|exact IH].
Qed.

Lemma apply_saves_nothing (self : plotter) (data : DataFrame) (drawn : list call) :
  BrainScorePlot_apply self data = Ok drawn -> saved_files drawn = [].
Proof.
  unfold BrainScorePlot_apply.
  destruct (BrainScorePlot_get_xye_models data) as [[[x y] yerr] models].
  unfold_res.
  destruct x as [x|xs]; [discriminate|].
  destruct y as [y|ys]; [discriminate|].
  rewrite BrainScorePlot_plot_lists.
  intros Hdrawn. injection Hdrawn as <-.
  now rewrite saved_files_app, saved_files_points.
Qed.

Lemma indicate_correlation_saves_nothing (self : plotter) (ax : axes)
    (data : DataFrame) (text : list call) :
  indicate_correlation self ax data = Ok text -> saved_files text = [].
Proof.
  unfold indicate_correlation. unfold_res.
  destruct (get_xye self data) as [[[x y] error]|]; [|discriminate].
  destruct (pearsonr x y) as [[r p]|]; [|discriminate].
  unfold _text. intros Htext. injection Htext as <-.
  now destruct (cls self).
Qed.

(** Making a figure saves no file. *)
Lemma call_saves_nothing (self : plotter) (fig : list action) :
  BrainScorePlot_call self = Ok fig -> saved_files (draws fig) = [].
Proof.
  unfold BrainScorePlot_call, highlight_models.
  destruct (cls self); try discriminate.
  all: unfold_res.
  all: destruct (collect_results self) as [data|]; [|discriminate].
  all: destruct (BrainScorePlot_apply self data) as [drawn|] eqn:Hdrawn;
    [|discriminate].
  all: destruct (highlight_models_from _ _ _ _) as [done|] eqn:Hdone;
    [|discriminate].
  all: destruct (indicate_correlation _ _ _) as [text|] eqn:Htext; [|discriminate].
  all: intros Hfig; injection Hfig as <-.
  all: destruct (highlight_models_from_spec _ _ _ _ _ Hdone)
         as (new & -> & Hsaved & _).
  all: rewrite !draws_app, !draws_draw, !saved_files_app, Hsaved.
  all: rewrite (apply_saves_nothing _ _ _ Hdrawn).
  all: now rewrite (indicate_correlation_saves_nothing _ _ _ _ Htext).
Qed.

Lemma Ok_inj {A : Type} (a b : A) : Ok a = Ok b -> a = b.
Proof. congruence. Qed.

Lemma save_formats_saved (savedir name : string) (formats : list string)
    (saved : list call) :
  save_formats savedir name formats = (saved, None) ->
  saved_files saved
  = map (fun extension =>
           (path_join savedir [name +:+ "." +:+ extension], extension)) formats.
Proof.
  revert saved. induction formats as [|extension formats IH]; intros saved.
  - intros Hs. now injection Hs as <-.
  - cbn [save_formats].
    destruct (savefig _ extension) as [[]|]; [|discriminate].
    destruct (save_formats savedir name formats) as [later raised].
    intros Hs. injection Hs as <- ->. cbn [map].
    change (saved_files (fig_savefig ?p ?f :: py_print ?t :: later))
      with ((p, f) :: saved_files later).
    now rewrite (IH later eq_refl).
Qed.

Lemma save_relative (name : string) (saved : list call) :
  starts_with_sep name = false ->
  save PaperFigures_init name = (saved, None) ->
  saved_files saved
  = [(_savedir PaperFigures_init +:+ "/" +:+ name +:+ ".svg", "svg");
     (_savedir PaperFigures_init +:+ "/" +:+ name +:+ ".pdf", "pdf");
     (_savedir PaperFigures_init +:+ "/" +:+ name +:+ ".png", "png")].
Proof.
  intros Hname Hsaved. unfold save in Hsaved.
  rewrite (save_formats_saved _ _ _ _ Hsaved).
  change (_save_formats PaperFigures_init) with ["svg"; "pdf"; "png"].
  cbn [map]. rewrite !save_path, Hname. reflexivity.
Qed.

(** X20.  When [PaperFigures.__call__] returns it has saved six files and
    no other: the full Brain-Score plot and then the zoomed one, each as
    svg, pdf and png, all of them in the results directory. *)
Theorem paper_figures_saved (acts : list action) :
  PaperFigures_call PaperFigures_init = Ok acts ->
  saved_files (draws acts)
  = map (fun '(name, extension) =>
           (_savedir PaperFigures_init +:+ "/" +:+ name +:+ "." +:+ extension,
            extension))
        [("brain-score", "svg"); ("brain-score", "pdf"); ("brain-score", "png");
         ("brain-score-zoom", "svg"); ("brain-score-zoom", "pdf");
         ("brain-score-zoom", "png")].
Proof.
  unfold PaperFigures_call, paper_figs. cbn [make_and_save]. unfold_res.
  destruct (BrainScorePlot_call (BrainScorePlot_init _)) as [full|] eqn:Hfull;
    [|discriminate].
  destruct (save PaperFigures_init "brain-score") as [saved_full [e|]] eqn:Hsaved_full;
    [discriminate|].
  destruct (BrainScorePlot_call (BrainScoreZoomPlot_init _)) as [zoom|] eqn:Hzoom;
    [|discriminate].
  destruct (save PaperFigures_init "brain-score-zoom") as [saved_zoom [e|]]
    eqn:Hsaved_zoom; [discriminate|].
  intros Hacts. apply Ok_inj in Hacts. subst acts.
  rewrite !draws_app, !draws_draw, !saved_files_app.
  rewrite (call_saves_nothing _ _ Hfull), (call_saves_nothing _ _ Hzoom).
  rewrite (save_relative "brain-score" _ eq_refl Hsaved_full).
  rewrite (save_relative "brain-score-zoom" _ eq_refl Hsaved_zoom).
  reflexivity.
Qed.

End Properties.

(** *** The properties at concrete tables *)

#[local] Existing Instance reference_env.
#[local] Existing Instance fixed_canvas.

Lemma apply_single_model_alexnet :
  BrainScorePlot_apply (BrainScorePlot_init [])
    [Row "alexnet" "ImageNet" (577 # 10) 0;
     Row "alexnet" "Brain-Score" (35 # 100) (1 # 100)]%Q
  = Err (Exn TypeError "len() of unsized object").
Proof.
  apply (apply_single_model _ _ (Row "alexnet" "ImageNet" (577 # 10) 0)).
  reflexivity.
Defined.

(** 'vgg-19' has no ImageNet score: two points for three Brain-Scores. *)
Lemma scatter_count_unaligned :
  exists drawn,
    BrainScorePlot_apply (BrainScorePlot_init []) unaligned_data = Ok drawn /\
    length (scatters drawn) = 2%nat /\
    length (select_benchmark "Brain-Score" unaligned_data) = 3%nat.
Proof.
  destruct (BrainScorePlot_apply (BrainScorePlot_init []) unaligned_data)
    as [drawn|] eqn:Happly; [|vm_compute in Happly; discriminate].
  exists drawn. split; [reflexivity|].
  split; [|reflexivity].
  rewrite (scatter_count _ _ _ Happly). reflexivity.
Defined.

(** The second of the two points has the ImageNet score of alexnet and the
    Brain-Score of 'vgg-19'. *)
Example unaligned_points :
  exists drawn,
    BrainScorePlot_apply (BrainScorePlot_init []) unaligned_data = Ok drawn /\
    scatters drawn
    = [ax_scatter (Scalar (77 # 1)) (Scalar (40 # 100)) (colour_str "#078930")
                  (7 # 10) 50;
       ax_scatter (Scalar (577 # 10)) (Scalar (38 # 100)) (colour_str "#078930")
                  (7 # 10) 50]%Q.
Proof. eexists. split; reflexivity. Qed.

(** The defaults of the signature of [plot]: [color=None], [alpha=0.3]. *)
Lemma plot_color_and_alpha_defaults :
  exists message,
    BrainScorePlot_plot (Vector [77 # 1; 577 # 10]%Q) (Vector [40 # 100; 35 # 100]%Q)
                        None ANone 50 (AFloat (3 # 10))
    = Err (Exn TypeError message).
Proof.
  apply plot_color_and_alpha.
  - intros c a [Hcolor _]. discriminate Hcolor.
  - intros colors alphas [Hcolor _]. discriminate Hcolor.
Defined.

Example plot_defaults_raise :
  BrainScorePlot_plot (Vector [77 # 1; 577 # 10]%Q) (Vector [40 # 100; 35 # 100]%Q)
                      None ANone 50 (AFloat (3 # 10))
  = Err (Exn TypeError "'NoneType' object is not iterable").
Proof. reflexivity. Qed.

Lemma zoom_collect_results_paper :
  exists data,
    @DataCollector paper_env = Ok data /\
    sublist [Row "resnet-101_v2" "ImageNet" (77 # 1) 0;
             Row "pnasnet_large" "ImageNet" (829 # 10) 0;
             Row "resnet-101_v2" "Brain-Score" (40 # 100) (1 # 100);
             Row "pnasnet_large" "Brain-Score" (39 # 100) (1 # 100)]%Q data /\
    forall r,
      r ∈ [Row "resnet-101_v2" "ImageNet" (77 # 1) 0;
           Row "pnasnet_large" "ImageNet" (829 # 10) 0;
           Row "resnet-101_v2" "Brain-Score" (40 # 100) (1 # 100);
           Row "pnasnet_large" "Brain-Score" (39 # 100) (1 # 100)]%Q <->
      r ∈ data /\
      exists imagenet_row,
        imagenet_row ∈ data /\
        row_benchmark imagenet_row = "ImageNet" /\
        row_model imagenet_row = row_model r /\
        (70 < row_score imagenet_row)%Q.
Proof.
  apply (@zoom_collect_results paper_env []). reflexivity.
Defined.

Lemma individual_collect_results_V4 :
  exists data,
    DataCollector = Ok data /\
    sublist [Row "alexnet" "ImageNet" (577 # 10) 0;
             Row "resnet-101_v2" "ImageNet" (77 # 1) 0;
             Row "resnet-101_v2" "Brain-Score" (40 # 100) (1 # 100);
             Row "alexnet" "Brain-Score" (35 # 100) (1 # 100);
             Row "alexnet" "dicarlo.Majaj2015.V4" (58 # 100) (1 # 100)]%Q data /\
    forall r,
      r ∈ [Row "alexnet" "ImageNet" (577 # 10) 0;
           Row "resnet-101_v2" "ImageNet" (77 # 1) 0;
           Row "resnet-101_v2" "Brain-Score" (40 # 100) (1 # 100);
           Row "alexnet" "Brain-Score" (35 # 100) (1 # 100);
           Row "alexnet" "dicarlo.Majaj2015.V4" (58 # 100) (1 # 100)]%Q <->
      r ∈ data /\
      row_model r <> "cornet_z" /\ row_model r <> "cornet_r" /\
      row_model r <> "cornet_r2" /\
      is_basenet (row_model r) = false.
Proof.
  apply (individual_collect_results (V4Plot_init [])); reflexivity.
Defined.

(** Of alexnet at 57.7, resnet-101_v2 at 77 and a model that is not in the
    data, the full plot labels alexnet. *)
Lemma highlight_models_reference :
  let self := BrainScorePlot_init ["alexnet"; "resnet-101_v2"; "vgg-19"] in
  exists acts,
    highlight_models self reference_data [] = Ok acts /\
    highlight_labels acts = ["alexnet"] /\
    exists new,
      acts = [] ++ new /\
      forall label, label ∈ highlight_labels new ->
        label ∈ _highlighted_models self /\
        exists v y error,
          get_xye self (select_model label reference_data) = Ok (Scalar v, y, error) /\
          (v <= 72)%Q.
Proof.
  intros self.
  destruct (highlight_models self reference_data []) as [acts|] eqn:Hacts;
    [|vm_compute in Hacts; discriminate].
  exists acts. split; [reflexivity|].
  pose proof (highlight_models_at_most_72 self reference_data [] acts eq_refl Hacts)
    as Hspec.
  split; [|exact Hspec].
  vm_compute in Hacts. apply Ok_inj in Hacts. subst acts. reflexivity.
Defined.

Lemma highlight_models_not_found_vgg :
  let self := BrainScoreZoomPlot_init ["alexnet"; "resnet-101_v2"; "vgg-19"] in
  exists acts,
    highlight_models self reference_data [] = Ok acts /\
    highlight_labels acts = ["alexnet"; "resnet-101_v2"] /\
    exists new,
      acts = [] ++ new /\
      warn "Model vgg-19 not found in data" ∈ new /\
      "vgg-19" ∉ highlight_labels new.
Proof.
  intros self.
  destruct (highlight_models self reference_data []) as [acts|] eqn:Hacts;
    [|vm_compute in Hacts; discriminate].
  exists acts. split; [reflexivity|].
  pose proof (highlight_models_not_found self reference_data [] acts "vgg-19"
                (Vector []) (Vector []) (Vector []) Hacts) as Hspec.
  split.
  - vm_compute in Hacts. apply Ok_inj in Hacts. subst acts. reflexivity.
  - apply Hspec.
    + apply (bool_decide_unpack _). vm_compute. exact I.
    + reflexivity.
    + reflexivity.
Defined.

Lemma paper_figures_saved_reference :
  exists acts,
    @PaperFigures_call paper_env fixed_canvas (@PaperFigures_init paper_env) = Ok acts /\
    saved_files (draws acts)
    = [("/repo/candidate_models/analyze/../../results/brain-score.svg", "svg");
       ("/repo/candidate_models/analyze/../../results/brain-score.pdf", "pdf");
       ("/repo/candidate_models/analyze/../../results/brain-score.png", "png");
       ("/repo/candidate_models/analyze/../../results/brain-score-zoom.svg", "svg");
       ("/repo/candidate_models/analyze/../../results/brain-score-zoom.pdf", "pdf");
       ("/repo/candidate_models/analyze/../../results/brain-score-zoom.png", "png")].
Proof.
  destruct (@PaperFigures_call paper_env fixed_canvas (@PaperFigures_init paper_env))
    as [acts|] eqn:Hacts; [|vm_compute in Hacts; discriminate].
  exists acts. split; [reflexivity|].
  rewrite (@paper_figures_saved paper_env fixed_canvas acts Hacts). reflexivity.
Defined.

(** Without the results directory the first [savefig] raises, and so
    does the call. *)
Example paper_figures_without_results_directory :
  @PaperFigures_call missing_results_env fixed_canvas
                     (@PaperFigures_init missing_results_env)
  = Err no_such_directory.
Proof. reflexivity. Qed.

(** In the reference data a single model is above 70% top-1: the zoomed
    plot cannot be drawn, and the call ends with its error. *)
Example paper_figures_reference :
  PaperFigures_call PaperFigures_init = Err (Exn TypeError "len() of unsized object").
Proof. reflexivity. Qed.

End FiguresExtra.
